(** * LTTng counter library: index resolution, split-counter add, reader

    Shallow embedding of the counter engine of lttng-modules:
    - counter/config.h, counter/counter-types.h   (data model)
    - counter/counter-internal.h                  (lttng_counter_get_index)
    - counter/counter-api.h                       (validate_indexes, add, inc, dec)
    - counter.c                                   (create, read, aggregate)

    The embedding is that of a 64-bit kernel build ([BITS_PER_LONG] is 64, so
    [size_t] is 64 bits wide and the 64-bit cell case is compiled in).  The
    kernel is built with -fno-strict-overflow: signed arithmetic wraps. *)

From Stdlib Require Import ZArith Lia Bool.
From stdpp Require Import base list.

Local Open Scope Z_scope.

(** ** Machine integers *)

(** Conversion to an unsigned type of [w] bits. *)
Definition to_unsigned (w x : Z) : Z := x mod 2 ^ w.

(** Conversion to a signed (two's complement) type of [w] bits. *)
Definition to_signed (w x : Z) : Z :=
  (x + 2 ^ (w - 1)) mod 2 ^ w - 2 ^ (w - 1).

Definition smax (w : Z) : Z := 2 ^ (w - 1) - 1.
Definition smin (w : Z) : Z := - 2 ^ (w - 1).
Definition umax (w : Z) : Z := 2 ^ w - 1.

Definition in_signed (w x : Z) : Prop := smin w <= x <= smax w.

(** [int64_t] and [size_t] results. *)
Definition s64 (x : Z) : Z := to_signed 64 x.
Definition usize (x : Z) : Z := to_unsigned 64 x.

(** Kernel constants used by the counter code (linux/limits.h):
    [U8_MAX] is [((u8)~0U)], [U16_MAX] is [((u16)~0U)], [U32_MAX] is
    [((u32)~0U)]; the signed maxima are the unsigned ones shifted right
    by one.  [BITS_PER_LONG] is fixed by the build. *)
Definition BITS_PER_LONG : Z := 64.
Definition U8_MAX : Z := 255.
Definition U16_MAX : Z := 65535.
Definition U32_MAX : Z := 4294967295.
Definition S8_MAX : Z := 127.
Definition S16_MAX : Z := 32767.
Definition S32_MAX : Z := 2147483647.

(** C's unary minus applied to the three unsigned maxima.  [u8] and [u16]
    operands are promoted to [int], so the result is the negative number.
    [u32] is [unsigned int], which is not promoted: the negation is computed
    modulo 2^32 and stays unsigned, so [-U32_MAX] is [1U]. *)
Definition neg_U8_MAX : Z := to_signed 32 (- U8_MAX).
Definition neg_U16_MAX : Z := to_signed 32 (- U16_MAX).
Definition neg_U32_MAX : Z := to_unsigned 32 (- U32_MAX).

(** Error numbers (positive values; the code returns them negated). *)
Definition EINVAL : Z := 22.
Definition ENOMEM : Z := 12.
Definition EOVERFLOW : Z := 75.

(** ** counter/config.h *)

Inductive lib_counter_config_alloc : Set :=
| COUNTER_ALLOC_PER_CPU
| COUNTER_ALLOC_GLOBAL.

Inductive lib_counter_config_sync : Set :=
| COUNTER_SYNC_PER_CPU
| COUNTER_SYNC_GLOBAL.

Inductive lib_counter_config_arithmetic : Set :=
| COUNTER_ARITHMETIC_OVERFLOW
| COUNTER_ARITHMETIC_SATURATE.

Inductive lib_counter_config_size : Set :=
| COUNTER_SIZE_8_BIT
| COUNTER_SIZE_16_BIT
| COUNTER_SIZE_32_BIT
| COUNTER_SIZE_64_BIT.

(** Value of the enumerator, which is the cell size in bytes. *)
Definition size_bytes (s : lib_counter_config_size) : Z :=
  match s with
  | COUNTER_SIZE_8_BIT => 1
  | COUNTER_SIZE_16_BIT => 2
  | COUNTER_SIZE_32_BIT => 4
  | COUNTER_SIZE_64_BIT => 8
  end.

(** Cell width in bits. *)
Definition width (s : lib_counter_config_size) : Z := 8 * size_bytes s.

Record lib_counter_config : Set := {
  alloc : lib_counter_config_alloc;
  sync : lib_counter_config_sync;
  arithmetic : lib_counter_config_arithmetic;
  counter_size : lib_counter_config_size;
}.

(** ** counter/counter-types.h *)

Record lib_counter_dimension : Set := {
  max_nr_elem : Z;   (* int64_t *)
  stride : Z;        (* int64_t *)
}.

(** A layout holds three pointers; [None] is the NULL pointer, [Some l] an
    allocated array.  Cells are kept as the signed value of their width. *)
Record lib_counter_layout : Set := {
  counters : option (list Z);
  underflow_bitmap : option (list bool);
  overflow_bitmap : option (list bool);
}.

(** [global_sum_step] is the member of the union selected by
    [config.counter_size]; it is written and read through that member only.
    [percpu_counters] tells whether the per-cpu base pointer is non-NULL;
    [percpu_area] is the memory that [per_cpu_ptr (percpu_counters, cpu)]
    designates for each possible cpu, which belongs to the counter only when
    the base pointer was obtained from [alloc_percpu]. *)
Record lib_counter : Set := {
  allocated_elem : Z;                        (* int64_t *)
  dimensions : list lib_counter_dimension;   (* nr_dimensions entries *)
  global_sum_step : Z;
  config : lib_counter_config;
  global_counters : lib_counter_layout;
  percpu_counters : bool;
  percpu_area : list lib_counter_layout;
}.

Definition nr_dimensions (counter : lib_counter) : nat :=
  length (dimensions counter).

(** ** counter/counter-api.h: index resolution *)

Definition lttng_counter_underflow_index (dimension : lib_counter_dimension) : Z :=
  s64 (max_nr_elem dimension + 1).

Definition lttng_counter_overflow_index (dimension : lib_counter_dimension) : Z :=
  s64 (max_nr_elem dimension + 2).

(** Body of the loop of [lttng_counter_validate_indexes] for one dimension. *)
Definition validate_index (dimension : lib_counter_dimension) (dimension_index : Z) : Z :=
  if dimension_index <? 0 then lttng_counter_underflow_index dimension
  else if dimension_index >=? max_nr_elem dimension
       then lttng_counter_overflow_index dimension
       else dimension_index.

(** Walks the dimensions and the caller's index array together; the array is
    updated in place, the updated array is the result. *)
Fixpoint validate_indexes_loop (dims : list lib_counter_dimension)
    (dimension_indexes : list Z) : list Z :=
  match dims, dimension_indexes with
  | dimension :: dims', idx :: rest =>
      validate_index dimension idx :: validate_indexes_loop dims' rest
  | _, _ => dimension_indexes
  end.

Definition lttng_counter_validate_indexes (cfg : lib_counter_config)
    (counter : lib_counter) (dimension_indexes : list Z) : list Z :=
  validate_indexes_loop (dimensions counter) dimension_indexes.

(** ** counter/counter-internal.h *)

Fixpoint get_index_loop (dims : list lib_counter_dimension)
    (dimension_indexes : list Z) (index : Z) : Z :=
  match dims, dimension_indexes with
  | dimension :: dims', idx :: rest =>
      get_index_loop dims' rest (s64 (index + s64 (idx * stride dimension)))
  | _, _ => index
  end.

Definition lttng_counter_get_index (cfg : lib_counter_config)
    (counter : lib_counter) (dimension_indexes : list Z) : Z :=
  get_index_loop (dimensions counter) dimension_indexes 0.

(** ** counter/counter-api.h: the add primitive *)

(** Which layout a pointer designates: [&counter->global_counters] or
    [per_cpu_ptr (counter->percpu_counters, cpu)]. *)
Inductive layout_id : Set :=
| GLOBAL_LAYOUT
| PERCPU_LAYOUT (cpu : nat).

(** What an execution of the add path does besides updating memory. *)
Inductive event : Set :=
| EV_WARN_ON_ONCE
| EV_cmpxchg_local (l : layout_id) (index old n : Z)
| EV_cmpxchg (l : layout_id) (index old n : Z).

Definition get_layout (counter : lib_counter) (l : layout_id) : option lib_counter_layout :=
  match l with
  | GLOBAL_LAYOUT => Some (global_counters counter)
  | PERCPU_LAYOUT cpu => percpu_area counter !! cpu
  end.

Definition set_layout (counter : lib_counter) (l : layout_id)
    (layout : lib_counter_layout) : lib_counter :=
  match l with
  | GLOBAL_LAYOUT =>
      {| allocated_elem := allocated_elem counter;
         dimensions := dimensions counter;
         global_sum_step := global_sum_step counter;
         config := config counter;
         global_counters := layout;
         percpu_counters := percpu_counters counter;
         percpu_area := percpu_area counter |}
  | PERCPU_LAYOUT cpu =>
      {| allocated_elem := allocated_elem counter;
         dimensions := dimensions counter;
         global_sum_step := global_sum_step counter;
         config := config counter;
         global_counters := global_counters counter;
         percpu_counters := percpu_counters counter;
         percpu_area := <[cpu := layout]> (percpu_area counter) |}
  end.

(** Array accesses.  An access through a NULL pointer or outside the array
    is outside the model: the result is [None]. *)
Definition array_get {A : Type} (p : option (list A)) (index : Z) : option A :=
  if index <? 0 then None
  else match p with
       | None => None
       | Some l => l !! Z.to_nat index
       end.

Definition array_set {A : Type} (p : option (list A)) (index : Z) (x : A)
    : option (list A) :=
  match array_get p index, p with
  | Some _, Some l => Some (<[Z.to_nat index := x]> l)
  | _, _ => None
  end.

Definition test_bit (nr : Z) (addr : option (list bool)) : option bool :=
  array_get addr nr.

Definition set_bit (nr : Z) (addr : option (list bool)) : option (list bool) :=
  array_set addr nr true.

(** One pass through the body of a [do ... while (old != res)] loop:
    the value read, the value offered to the compare-and-swap and the
    amount to move to the global counter. *)
Record attempt : Set := {
  att_old : Z;
  att_n : Z;
  att_move_sum : Z;
}.

(** Width of the type in which an operand of [w] bits is computed after the
    integer promotions. *)
Definition promoted (w : Z) : Z := Z.max w 32.

(** Loop body under [COUNTER_SYNC_PER_CPU], for cells of [w] bits;
    [step] is the cell-wide [global_sum_step] and [res] the last value seen
    in the cell. *)
Definition add_body_percpu (w step v res : Z) : attempt :=
  let old := res in
  let n := to_signed w (to_unsigned w old + to_unsigned w v) in
  let move_sum :=
    if n >? step then to_signed (promoted w) (step ÷ 2)
    else if n <? to_signed (promoted w) (- step)
         then to_signed (promoted w) (- to_signed (promoted w) (step ÷ 2))
         else 0 in
  let n := to_signed w (s64 (n - move_sum)) in
  {| att_old := old; att_n := n; att_move_sum := move_sum |}.

(** Loop body under [COUNTER_SYNC_GLOBAL]: [move_sum] keeps its initial 0. *)
Definition add_body_global (w v res : Z) : attempt :=
  let old := res in
  let n := to_signed w (to_unsigned w old + to_unsigned w v) in
  {| att_old := old; att_n := n; att_move_sum := 0 |}.

(** The retry loop.  [env] lists, for the successive attempts, the value
    that another writer has put in the cell between the load and the
    compare-and-swap; once [env] is exhausted nobody interferes.  At the
    head of the loop [res] is the value last read from the cell.  The
    compare-and-swap returns the current value of the cell: the loop ends when
    that value is the [old] of the attempt, and the cell then holds [n]. *)
Fixpoint cas_loop (op : Z -> Z -> event) (body : Z -> attempt)
    (env : list Z) (res : Z) : attempt * list event :=
  let a := body res in
  match env with
  | [] => (a, [op (att_old a) (att_n a)])
  | x :: env' =>
      if x =? att_old a then (a, [op (att_old a) (att_n a)])
      else
        let '(r, t) := cas_loop op body env' x in
        (r, op (att_old a) (att_n a) :: t)
  end.

(** The overflow and underflow classification that follows the loop. *)
Definition classify (size : lib_counter_config_size) (v old n : Z) : bool * bool :=
  match size with
  | COUNTER_SIZE_8_BIT =>
      if (v >? 0) && ((v >=? U8_MAX) || (n <? old)) then (true, false)
      else if (v <? 0) && ((v <=? neg_U8_MAX) || (n >? old)) then (false, true)
      else (false, false)
  | COUNTER_SIZE_16_BIT =>
      if (v >? 0) && ((v >=? U16_MAX) || (n <? old)) then (true, false)
      else if (v <? 0) && ((v <=? neg_U16_MAX) || (n >? old)) then (false, true)
      else (false, false)
  | COUNTER_SIZE_32_BIT =>
      if (v >? 0) && ((v >=? U32_MAX) || (n <? old)) then (true, false)
      else if (v <? 0) && ((v <=? neg_U32_MAX) || (n >? old)) then (false, true)
      else (false, false)
  | COUNTER_SIZE_64_BIT =>
      if (v >? 0) && (n <? old) then (true, false)
      else if (v <? 0) && (n >? old) then (false, true)
      else (false, false)
  end.

(** The two [set_bit] statements that close [__lttng_counter_add]. *)
Definition mark_bitmaps (index : Z) (overflow underflow : bool)
    (layout : lib_counter_layout) : option lib_counter_layout :=
  if overflow then
    ob ← test_bit index (overflow_bitmap layout);
    if negb ob then
      bm ← set_bit index (overflow_bitmap layout);
      Some {| counters := counters layout;
              underflow_bitmap := underflow_bitmap layout;
              overflow_bitmap := Some bm |}
    else if underflow then
      ub ← test_bit index (underflow_bitmap layout);
      if negb ub then
        bm ← set_bit index (underflow_bitmap layout);
        Some {| counters := counters layout;
                underflow_bitmap := Some bm;
                overflow_bitmap := overflow_bitmap layout |}
      else Some layout
    else Some layout
  else if underflow then
    ub ← test_bit index (underflow_bitmap layout);
    if negb ub then
      bm ← set_bit index (underflow_bitmap layout);
      Some {| counters := counters layout;
              underflow_bitmap := Some bm;
              overflow_bitmap := overflow_bitmap layout |}
    else Some layout
  else Some layout.

Record add_result : Set := {
  res_counter : lib_counter;
  res_move_sum : Z;
  res_trace : list event;
}.

(** [__lttng_counter_add], run on [cpu] (the value of [smp_processor_id ()]).
    The four cases of the switch on [config->counter_size] differ by the cell
    type and by the classification that follows the loop: the cell type is
    rendered by the width [w], the classification by [classify].  With the
    four sizes of the enumeration (and the 64-bit case compiled in) the
    [default] case is not reached.  The result is [None] when the cell or
    its bits lie outside the arrays of the selected layout. *)
Definition __lttng_counter_add (cfg : lib_counter_config)
    (alloc_mode : lib_counter_config_alloc) (sync_mode : lib_counter_config_sync)
    (cpu : nat) (env : list Z)
    (counter : lib_counter) (dimension_indexes : list Z) (v : Z)
    : option add_result :=
  let index := lttng_counter_get_index cfg counter dimension_indexes in
  if index >=? allocated_elem counter then
    Some {| res_counter := counter; res_move_sum := 0;
            res_trace := [EV_WARN_ON_ONCE] |}
  else
    let lid := match alloc_mode with
               | COUNTER_ALLOC_PER_CPU => PERCPU_LAYOUT cpu
               | COUNTER_ALLOC_GLOBAL => GLOBAL_LAYOUT
               end in
    layout ← get_layout counter lid;
    res ← array_get (counters layout) index;
    let w := width (counter_size cfg) in
    let step := to_signed w (global_sum_step counter) in
    let '(a, t) :=
      match sync_mode with
      | COUNTER_SYNC_PER_CPU =>
          cas_loop (EV_cmpxchg_local lid index) (add_body_percpu w step v) env res
      | COUNTER_SYNC_GLOBAL =>
          cas_loop (EV_cmpxchg lid index) (add_body_global w v) env res
      end in
    cells ← array_set (counters layout) index (att_n a);
    let '(overflow, underflow) :=
      classify (counter_size cfg) v (att_old a) (att_n a) in
    layout' ← mark_bitmaps index overflow underflow
                {| counters := Some cells;
                   underflow_bitmap := underflow_bitmap layout;
                   overflow_bitmap := overflow_bitmap layout |};
    Some {| res_counter := set_layout counter lid layout';
            res_move_sum := att_move_sum a;
            res_trace := t |}.

(** The [void] entry points return the updated counter and the events.
    [env] is the interference met on the first cell, [env_global] the one
    met on the global cell when an amount is moved there. *)
Definition __lttng_counter_add_percpu (cfg : lib_counter_config) (cpu : nat)
    (env env_global : list Z)
    (counter : lib_counter) (dimension_indexes : list Z) (v : Z)
    : option (lib_counter * list event) :=
  r ← __lttng_counter_add cfg (alloc cfg) (sync cfg) cpu env
        counter dimension_indexes v;
  if res_move_sum r =? 0 then Some (res_counter r, res_trace r)
  else
    r' ← __lttng_counter_add cfg COUNTER_ALLOC_GLOBAL COUNTER_SYNC_GLOBAL cpu
           env_global (res_counter r) dimension_indexes (res_move_sum r);
    Some (res_counter r', res_trace r ++ res_trace r').

Definition __lttng_counter_add_global (cfg : lib_counter_config) (cpu : nat)
    (env : list Z)
    (counter : lib_counter) (dimension_indexes : list Z) (v : Z)
    : option (lib_counter * list event) :=
  r ← __lttng_counter_add cfg (alloc cfg) (sync cfg) cpu env
        counter dimension_indexes v;
  Some (res_counter r, res_trace r).

Definition lttng_counter_add (cfg : lib_counter_config) (cpu : nat)
    (env env_global : list Z)
    (counter : lib_counter) (dimension_indexes : list Z) (v : Z)
    : option (lib_counter * list event) :=
  match alloc cfg with
  | COUNTER_ALLOC_PER_CPU =>
      __lttng_counter_add_percpu cfg cpu env env_global counter dimension_indexes v
  | COUNTER_ALLOC_GLOBAL =>
      __lttng_counter_add_global cfg cpu env counter dimension_indexes v
  end.

Definition lttng_counter_inc (cfg : lib_counter_config) (cpu : nat)
    (env env_global : list Z)
    (counter : lib_counter) (dimension_indexes : list Z)
    : option (lib_counter * list event) :=
  lttng_counter_add cfg cpu env env_global counter dimension_indexes 1.

Definition lttng_counter_dec (cfg : lib_counter_config) (cpu : nat)
    (env env_global : list Z)
    (counter : lib_counter) (dimension_indexes : list Z)
    : option (lib_counter * list event) :=
  lttng_counter_add cfg cpu env env_global counter dimension_indexes (-1).

(** ** counter.c: creation *)

(** The kernel services that creation relies on.  [alloc_outcomes] gives the
    result of the coming allocation requests, in order (a request made after
    the list is exhausted succeeds); [null_percpu_area] is the memory that
    [per_cpu_ptr (NULL, cpu)] designates for each possible cpu, which is not
    the counter's, as it is when creation starts; [klog] records the
    requests, most recent last. *)
Inductive alloc_site : Set :=
| SITE_COUNTER
| SITE_DIMENSIONS
| SITE_PERCPU
| SITE_CELLS (cpu : Z)
| SITE_OVERFLOW_BITMAP (cpu : Z)
| SITE_UNDERFLOW_BITMAP (cpu : Z).

Inductive kevent : Set :=
| K_alloc (site : alloc_site) (ok : bool)
| K_free (site : alloc_site)
| K_warn.

Record kernel : Set := {
  num_possible_cpus : nat;
  alloc_outcomes : list bool;
  null_percpu_area : list lib_counter_layout;
  klog : list kevent;
}.

Definition kM (A : Type) : Type := kernel -> A * kernel.

Definition kret {A : Type} (a : A) : kM A := fun k => (a, k).

Definition kbind {A B : Type} (m : kM A) (f : A -> kM B) : kM B :=
  fun k => let '(a, k') := m k in f a k'.

Notation "'do' x <- m ; f" := (kbind m (fun x => f))
  (at level 10, x name, m at level 100, f at level 200).
Notation "m ;; f" := (kbind m (fun _ => f))
  (at level 100, f at level 200, right associativity).

Definition klog_add (e : kevent) : kM unit :=
  fun k => (tt, {| num_possible_cpus := num_possible_cpus k;
                   alloc_outcomes := alloc_outcomes k;
                   null_percpu_area := null_percpu_area k;
                   klog := klog k ++ [e] |}).

(** An allocation request ([kzalloc], [alloc_percpu], [lttng_kvzalloc_node]):
    tells whether memory was obtained. *)
Definition kalloc (site : alloc_site) : kM bool :=
  fun k =>
    let ok := match alloc_outcomes k with [] => true | b :: _ => b end in
    (ok, {| num_possible_cpus := num_possible_cpus k;
            alloc_outcomes := tail (alloc_outcomes k);
            null_percpu_area := null_percpu_area k;
            klog := klog k ++ [K_alloc site ok] |}).

(** [kfree], [lttng_kvfree], [free_percpu]: nothing happens on NULL. *)
Definition kfree (site : alloc_site) (non_null : bool) : kM unit :=
  if non_null then klog_add (K_free site) else kret tt.

Definition zero_layout : lib_counter_layout :=
  {| counters := None; underflow_bitmap := None; overflow_bitmap := None |}.

(** Includes underflow and overflow elements. *)
Definition lttng_counter_get_dimension_nr_elements
    (dimension : lib_counter_dimension) : Z :=
  usize (max_nr_elem dimension + 2).

(** The loop of [lttng_counter_init_stride] runs from the last dimension to
    the first; the result pairs the updated dimensions with the [size_t]
    stride reached. *)
Fixpoint init_stride_loop (dims : list lib_counter_dimension)
    : list lib_counter_dimension * Z :=
  match dims with
  | [] => ([], 1)
  | dimension :: inner =>
      let '(inner', stride_acc) := init_stride_loop inner in
      ({| max_nr_elem := max_nr_elem dimension; stride := s64 stride_acc |} :: inner',
       usize (stride_acc * lttng_counter_get_dimension_nr_elements dimension))
  end.

Definition with_dimensions (counter : lib_counter)
    (dims : list lib_counter_dimension) : lib_counter :=
  {| allocated_elem := allocated_elem counter;
     dimensions := dims;
     global_sum_step := global_sum_step counter;
     config := config counter;
     global_counters := global_counters counter;
     percpu_counters := percpu_counters counter;
     percpu_area := percpu_area counter |}.

Definition lttng_counter_init_stride (cfg : lib_counter_config)
    (counter : lib_counter) : lib_counter :=
  with_dimensions counter (fst (init_stride_loop (dimensions counter))).

(** Applies [f] to the layout that [l] designates. *)
Definition update_layout (counter : lib_counter) (l : layout_id)
    (f : lib_counter_layout -> lib_counter_layout) : lib_counter :=
  match get_layout counter l with
  | Some layout => set_layout counter l (f layout)
  | None => counter
  end.

Definition layout_of_cpu (cpu : Z) : layout_id :=
  if cpu =? -1 then GLOBAL_LAYOUT else PERCPU_LAYOUT (Z.to_nat cpu).

(** Returns 0 or a negated error number, and the counter as updated.  Each
    pointer is stored in the layout as the allocator returns it, NULL
    included.  The four sizes of the enumeration are the four accepted cases
    of the switch. *)
Definition lttng_counter_layout_init (counter : lib_counter) (cpu : Z)
    : kM (Z * lib_counter) :=
  let nr_elem := usize (allocated_elem counter) in
  let lid := layout_of_cpu cpu in
  do ok <- kalloc (SITE_CELLS cpu);
  let counter := update_layout counter lid (fun layout =>
    {| counters := if ok then Some (replicate (Z.to_nat nr_elem) 0) else None;
       underflow_bitmap := underflow_bitmap layout;
       overflow_bitmap := overflow_bitmap layout |}) in
  if negb ok then kret (- ENOMEM, counter)
  else
    do ok <- kalloc (SITE_OVERFLOW_BITMAP cpu);
    let counter := update_layout counter lid (fun layout =>
      {| counters := counters layout;
         underflow_bitmap := underflow_bitmap layout;
         overflow_bitmap :=
           if ok then Some (replicate (Z.to_nat nr_elem) false) else None |}) in
    if negb ok then kret (- ENOMEM, counter)
    else
      do ok <- kalloc (SITE_UNDERFLOW_BITMAP cpu);
      let counter := update_layout counter lid (fun layout =>
        {| counters := counters layout;
           underflow_bitmap :=
             if ok then Some (replicate (Z.to_nat nr_elem) false) else None;
           overflow_bitmap := overflow_bitmap layout |}) in
      if negb ok then kret (- ENOMEM, counter)
      else kret (0, counter).

Definition lttng_counter_layout_fini (counter : lib_counter) (cpu : Z) : kM unit :=
  match get_layout counter (layout_of_cpu cpu) with
  | Some layout =>
      kfree (SITE_CELLS cpu) (bool_decide (is_Some (counters layout))) ;;
      kfree (SITE_OVERFLOW_BITMAP cpu) (bool_decide (is_Some (overflow_bitmap layout))) ;;
      kfree (SITE_UNDERFLOW_BITMAP cpu) (bool_decide (is_Some (underflow_bitmap layout)))
  | None => kret tt
  end.

Definition with_global_sum_step (counter : lib_counter) (step : Z) : lib_counter :=
  {| allocated_elem := allocated_elem counter;
     dimensions := dimensions counter;
     global_sum_step := step;
     config := config counter;
     global_counters := global_counters counter;
     percpu_counters := percpu_counters counter;
     percpu_area := percpu_area counter |}.

(** Returns 0 or [-EINVAL], and the counter as updated. *)
Definition lttng_counter_set_global_sum_step (counter : lib_counter)
    (global_sum_step : Z) : Z * lib_counter :=
  if global_sum_step <? 0 then (- EINVAL, counter)
  else
    match counter_size (config counter) with
    | COUNTER_SIZE_8_BIT =>
        if global_sum_step >? S8_MAX then (- EINVAL, counter)
        else (0, with_global_sum_step counter (to_signed 8 global_sum_step))
    | COUNTER_SIZE_16_BIT =>
        if global_sum_step >? S16_MAX then (- EINVAL, counter)
        else (0, with_global_sum_step counter (to_signed 16 global_sum_step))
    | COUNTER_SIZE_32_BIT =>
        if global_sum_step >? S32_MAX then (- EINVAL, counter)
        else (0, with_global_sum_step counter (to_signed 32 global_sum_step))
    | COUNTER_SIZE_64_BIT =>
        (0, with_global_sum_step counter global_sum_step)
    end.

(** The two loops over the possible cpus of [lttng_counter_create]. *)
Fixpoint layout_init_cpus (cpus : list nat) (counter : lib_counter)
    : kM (Z * lib_counter) :=
  match cpus with
  | [] => kret (0, counter)
  | cpu :: rest =>
      do r <- lttng_counter_layout_init counter (Z.of_nat cpu);
      if fst r =? 0 then layout_init_cpus rest (snd r) else kret r
  end.

Fixpoint layout_fini_cpus (cpus : list nat) (counter : lib_counter) : kM unit :=
  match cpus with
  | [] => kret tt
  | cpu :: rest =>
      lttng_counter_layout_fini counter (Z.of_nat cpu) ;;
      layout_fini_cpus rest counter
  end.

(** [nr_elem] after the loop that multiplies the dimensions' sizes. *)
Fixpoint nr_elem_loop (dims : list lib_counter_dimension) (nr_elem : Z) : Z :=
  match dims with
  | [] => nr_elem
  | dimension :: rest =>
      nr_elem_loop rest
        (usize (nr_elem * lttng_counter_get_dimension_nr_elements dimension))
  end.

(** [counter->percpu_counters = alloc_percpu (...)], when it succeeds: the
    base pointer is set and designates zeroed layouts. *)
Definition with_percpu (counter : lib_counter)
    (area : list lib_counter_layout) : lib_counter :=
  {| allocated_elem := allocated_elem counter;
     dimensions := dimensions counter;
     global_sum_step := global_sum_step counter;
     config := config counter;
     global_counters := global_counters counter;
     percpu_counters := true;
     percpu_area := area |}.

Definition with_allocated_elem (counter : lib_counter) (nr_elem : Z) : lib_counter :=
  {| allocated_elem := nr_elem;
     dimensions := dimensions counter;
     global_sum_step := global_sum_step counter;
     config := config counter;
     global_counters := global_counters counter;
     percpu_counters := percpu_counters counter;
     percpu_area := percpu_area counter |}.

(** The error exits of [lttng_counter_create], from the label that is
    reached first.  All of them return NULL. *)
Definition create_error_sum_step : kM (option lib_counter) :=
  kfree SITE_COUNTER true ;; kret None.

Definition create_error_alloc_percpu : kM (option lib_counter) :=
  kfree SITE_DIMENSIONS true ;; create_error_sum_step.

Definition create_layout_init_error (counter : lib_counter) : kM (option lib_counter) :=
  do ncpus <- (fun k => (num_possible_cpus k, k));
  layout_fini_cpus (seq 0 ncpus) counter ;;
  lttng_counter_layout_fini counter (-1) ;;
  kfree SITE_PERCPU (percpu_counters counter) ;;
  create_error_alloc_percpu.

(** [max_nr_elem] is the caller's array, of which the first [nr_dimensions]
    entries are read.  The result is NULL ([None]) or the new counter.
    [kzalloc] zeroes the counter, so its per-cpu base pointer is NULL until
    [alloc_percpu] is called, and the layouts that [per_cpu_ptr] then
    designates are those of [null_percpu_area]. *)
Definition lttng_counter_create (cfg : lib_counter_config) (nr_dimensions : nat)
    (max_nr_elem : list Z) (global_sum_step : Z) : kM (option lib_counter) :=
  if negb (BITS_PER_LONG =? 64)
     && (size_bytes (counter_size cfg) =? size_bytes COUNTER_SIZE_64_BIT)
  then klog_add K_warn ;; kret None
  else
    do ok <- kalloc SITE_COUNTER;
    if negb ok then kret None
    else
      do stray <- (fun k => (null_percpu_area k, k));
      let counter :=
        {| allocated_elem := 0;
           dimensions := [];
           global_sum_step := 0;
           config := cfg;
           global_counters := zero_layout;
           percpu_counters := false;
           percpu_area := stray |} in
      let '(ret, counter) :=
        lttng_counter_set_global_sum_step counter global_sum_step in
      if negb (ret =? 0) then create_error_sum_step
      else
        do ok <- kalloc SITE_DIMENSIONS;
        if negb ok then create_error_sum_step
        else
          let counter := with_dimensions counter
            (map (fun m => {| max_nr_elem := s64 m; stride := 0 |})
                 (take nr_dimensions max_nr_elem)) in
          do ncpus <- (fun k => (num_possible_cpus k, k));
          do r <-
            match alloc cfg with
            | COUNTER_ALLOC_PER_CPU =>
                do ok <- kalloc SITE_PERCPU;
                kret (ok,
                  if ok then with_percpu counter (replicate ncpus zero_layout)
                  else counter)
            | COUNTER_ALLOC_GLOBAL => kret (true, counter)
            end;
          let '(ok, counter) := r in
          if negb ok then create_error_alloc_percpu
          else
            let counter := lttng_counter_init_stride cfg counter in
            let nr_elem := nr_elem_loop (dimensions counter) 1 in
            let counter := with_allocated_elem counter (s64 nr_elem) in
            do r <- lttng_counter_layout_init counter (-1);
            if negb (fst r =? 0) then create_layout_init_error (snd r)
            else
              do r <- layout_init_cpus (seq 0 ncpus) (snd r);
              if negb (fst r =? 0) then create_layout_init_error (snd r)
              else kret (Some (snd r)).

Definition lttng_counter_destroy (counter : lib_counter) : kM unit :=
  do ncpus <- (fun k => (num_possible_cpus k, k));
  layout_fini_cpus (seq 0 ncpus) counter ;;
  lttng_counter_layout_fini counter (-1) ;;
  kfree SITE_PERCPU (percpu_counters counter) ;;
  kfree SITE_DIMENSIONS true ;;
  kfree SITE_COUNTER true.

(** ** counter.c: reading *)

(** The three output parameters: what the caller's variables hold. *)
Record out_params : Set := {
  out_value : Z;
  out_overflow : bool;
  out_underflow : bool;
}.

(** Returns the [int] result and the output parameters as left by the call;
    [ncpus] is [num_possible_cpus ()].  [None] when memory outside the
    layout's arrays is read. *)
Definition lttng_counter_read (ncpus : nat) (cfg : lib_counter_config)
    (counter : lib_counter) (dimension_indexes : list Z) (cpu : Z)
    (out : out_params) : option (Z * out_params) :=
  let index := usize (lttng_counter_get_index cfg counter dimension_indexes) in
  if index >=? usize (allocated_elem counter) then Some (- EOVERFLOW, out)
  else
    let sel :=
      match alloc cfg with
      | COUNTER_ALLOC_PER_CPU =>
          if cpu >=? 0 then
            if cpu >=? Z.of_nat ncpus then inl (- EINVAL)
            else inr (PERCPU_LAYOUT (Z.to_nat cpu))
          else inr GLOBAL_LAYOUT
      | COUNTER_ALLOC_GLOBAL =>
          if cpu >=? 0 then inl (- EINVAL) else inr GLOBAL_LAYOUT
      end in
    match sel with
    | inl err => Some (err, out)
    | inr lid =>
        layout ← get_layout counter lid;
        cell ← array_get (counters layout) index;
        let value := s64 (to_signed (width (counter_size cfg)) cell) in
        ovf ← test_bit index (overflow_bitmap layout);
        unf ← test_bit index (underflow_bitmap layout);
        Some (0, {| out_value := value; out_overflow := ovf; out_underflow := unf |})
    end.

(** Locals [v], [of], [uf] of [lttng_counter_aggregate] before they are
    written by a read. *)
Definition aggregate_locals : out_params :=
  {| out_value := 0; out_overflow := false; out_underflow := false |}.

(** The loop over the possible cpus.  The result is the [int] to return
    (0 when the loop ran to its end, the failed read's result otherwise) with
    [sum] and the two flags as they are at that point. *)
Fixpoint aggregate_loop (ncpus : nat) (cfg : lib_counter_config)
    (counter : lib_counter) (dimension_indexes : list Z)
    (cpus : list nat) (sum : Z) (overflow underflow : bool)
    : option (Z * Z * bool * bool) :=
  match cpus with
  | [] => Some (0, sum, overflow, underflow)
  | cpu :: rest =>
      let old := sum in
      r ← lttng_counter_read ncpus cfg counter dimension_indexes (Z.of_nat cpu)
            aggregate_locals;
      let '(ret, locals) := r in
      if ret <? 0 then Some (ret, sum, overflow, underflow)
      else
        let v := out_value locals in
        let overflow := overflow || out_overflow locals in
        let underflow := underflow || out_underflow locals in
        let sum := to_signed 64 (to_unsigned 64 old + to_unsigned 64 v) in
        if (v >? 0) && (sum <? old) then
          aggregate_loop ncpus cfg counter dimension_indexes rest sum true underflow
        else if (v <? 0) && (sum >? old) then
          aggregate_loop ncpus cfg counter dimension_indexes rest sum overflow true
        else
          aggregate_loop ncpus cfg counter dimension_indexes rest sum overflow underflow
  end.

(** [out] holds the caller's [*value], [*overflow], [*underflow] on entry;
    the result gives them on return.  The function ends with [return 0]
    and has no statement that assigns [*value]. *)
Definition lttng_counter_aggregate (ncpus : nat) (cfg : lib_counter_config)
    (counter : lib_counter) (dimension_indexes : list Z)
    (out : out_params) : option (Z * out_params) :=
  let out := {| out_value := out_value out;
                out_overflow := false; out_underflow := false |} in
  r ← lttng_counter_read ncpus cfg counter dimension_indexes (-1) aggregate_locals;
  let '(ret, locals) := r in
  if ret <? 0 then Some (ret, out)
  else
    let sum := s64 (0 + out_value locals) in
    let out := {| out_value := out_value out;
                  out_overflow := out_overflow out || out_overflow locals;
                  out_underflow := out_underflow out || out_underflow locals |} in
    match alloc cfg with
    | COUNTER_ALLOC_PER_CPU =>
        r ← aggregate_loop ncpus cfg counter dimension_indexes (seq 0 ncpus)
              sum (out_overflow out) (out_underflow out);
        let '(ret, _, overflow, underflow) := r in
        Some (ret, {| out_value := out_value out;
                      out_overflow := overflow;
                      out_underflow := underflow |})
    | COUNTER_ALLOC_GLOBAL => Some (0, out)
    end.

(** ** Scenarios and observations used by the statements *)

(** The Index Resolver: validation of the caller's indexes, then the flat
    offset of the validated indexes. *)
Definition resolve_index (cfg : lib_counter_config) (counter : lib_counter)
    (dimension_indexes : list Z) : Z :=
  lttng_counter_get_index cfg counter
    (lttng_counter_validate_indexes cfg counter dimension_indexes).

(** The value that the successful attempt of the retry loop has read: the
    cell as it was on entry, or what the last interfering writer left. *)
Fixpoint cas_observed (env : list Z) (res : Z) : Z :=
  match env with
  | [] => res
  | x :: env' => if x =? res then res else cas_observed env' x
  end.

(** What a layout holds at a flat offset. *)
Definition cell_at (layout : lib_counter_layout) (index : Z) : option Z :=
  array_get (counters layout) index.

Definition overflow_at (layout : lib_counter_layout) (index : Z) : option bool :=
  test_bit index (overflow_bitmap layout).

Definition underflow_at (layout : lib_counter_layout) (index : Z) : option bool :=
  test_bit index (underflow_bitmap layout).

(** The layout after a successful swap to [n] at [index] and the marking of
    the flags [ovf] and [unf]. *)
Definition layout_after (index n : Z) (ovf unf : bool)
    (layout : lib_counter_layout) : lib_counter_layout :=
  {| counters := (λ l, <[Z.to_nat index := n]> l) <$> counters layout;
     underflow_bitmap :=
       (λ l, alter (orb unf) (Z.to_nat index) l) <$> underflow_bitmap layout;
     overflow_bitmap :=
       (λ l, alter (orb ovf) (Z.to_nat index) l) <$> overflow_bitmap layout |}.

(** The layout that [__lttng_counter_add] selects, the swap it uses and the
    loop body it runs, by allocation and synchronisation mode. *)
Definition add_target (alloc_mode : lib_counter_config_alloc) (cpu : nat) : layout_id :=
  match alloc_mode with
  | COUNTER_ALLOC_PER_CPU => PERCPU_LAYOUT cpu
  | COUNTER_ALLOC_GLOBAL => GLOBAL_LAYOUT
  end.

Definition add_op (sync_mode : lib_counter_config_sync)
    : layout_id -> Z -> Z -> Z -> event :=
  match sync_mode with
  | COUNTER_SYNC_PER_CPU => EV_cmpxchg_local
  | COUNTER_SYNC_GLOBAL => EV_cmpxchg
  end.

Definition add_attempt (cfg : lib_counter_config)
    (sync_mode : lib_counter_config_sync) (counter : lib_counter)
    (v res : Z) : attempt :=
  let w := width (counter_size cfg) in
  match sync_mode with
  | COUNTER_SYNC_PER_CPU =>
      add_body_percpu w (to_signed w (global_sum_step counter)) v res
  | COUNTER_SYNC_GLOBAL => add_body_global w v res
  end.

(** A kernel with [ncpus] possible cpus in which every allocation succeeds. *)
Definition plentiful_kernel (ncpus : nat) : kernel :=
  {| num_possible_cpus := ncpus;
     alloc_outcomes := [];
     null_percpu_area := replicate ncpus zero_layout;
     klog := [] |}.

Definition make_config (a : lib_counter_config_alloc) (s : lib_counter_config_sync)
    (size : lib_counter_config_size) : lib_counter_config :=
  {| alloc := a; sync := s;
     arithmetic := COUNTER_ARITHMETIC_OVERFLOW; counter_size := size |}.

(** A 32-bit counter of one dimension of 4 elements, global allocation, as
    creation lays it out (6 cells), before the arrays are attached. *)
Definition sample_config : lib_counter_config :=
  make_config COUNTER_ALLOC_GLOBAL COUNTER_SYNC_GLOBAL COUNTER_SIZE_32_BIT.

Definition sample_dimension : lib_counter_dimension :=
  {| max_nr_elem := 4; stride := 1 |}.

Definition sample_counter : lib_counter :=
  {| allocated_elem := 6;
     dimensions := [sample_dimension];
     global_sum_step := 0;
     config := sample_config;
     global_counters := zero_layout;
     percpu_counters := false;
     percpu_area := [] |}.

(** The counter that creation returns when every allocation succeeds
    ([sample_counter] stands in if creation returns NULL). *)
Definition created (cfg : lib_counter_config) (max_elems : list Z)
    (step : Z) (ncpus : nat) : lib_counter :=
  default sample_counter
    (fst (lttng_counter_create cfg (length max_elems) max_elems step
            (plentiful_kernel ncpus))).

(** The counter after an uncontended add ([counter] itself if the add
    leaves the model). *)
Definition after_add (cfg : lib_counter_config) (cpu : nat)
    (counter : lib_counter) (idxs : list Z) (v : Z) : lib_counter :=
  match lttng_counter_add cfg cpu [] [] counter idxs v with
  | Some r => fst r
  | None => counter
  end.

(** The shard-local configuration for a cell size, and an 8-bit counter of
    one dimension of 4 elements with step 10 on two cpus, whose cell 1 of
    cpu 0 holds 10. *)
Definition shard_config (size : lib_counter_config_size) : lib_counter_config :=
  make_config COUNTER_ALLOC_PER_CPU COUNTER_SYNC_PER_CPU size.

Definition shard_counter_at_step : lib_counter :=
  after_add (shard_config COUNTER_SIZE_8_BIT) 0
    (created (shard_config COUNTER_SIZE_8_BIT) [4] 10 2) [1] 10.

(** An 8-bit counter of one dimension of 4 elements, global allocation and
    synchronisation, all cells 0. *)
Definition byte_config : lib_counter_config :=
  make_config COUNTER_ALLOC_GLOBAL COUNTER_SYNC_GLOBAL COUNTER_SIZE_8_BIT.

Definition byte_counter : lib_counter := created byte_config [4] 0 1.

(** The shard-local 8-bit counter with step 10 whose cell 1 of cpu 0
    holds 8. *)
Definition shard_counter_below_step : lib_counter :=
  after_add (shard_config COUNTER_SIZE_8_BIT) 0
    (created (shard_config COUNTER_SIZE_8_BIT) [4] 10 2) [1] 8.

(** The cell-storage allocations among the requests of a log. *)
Definition cell_allocations (log : list kevent) : list Z :=
  omap (λ e, match e with
             | K_alloc (SITE_CELLS cpu) true => Some cpu
             | _ => None
             end) log.

(** [count] uncontended increments in a row, on [cpu]; the events of all of
    them are gathered. *)
Fixpoint inc_run (count : nat) (cfg : lib_counter_config) (cpu : nat)
    (counter : lib_counter) (dimension_indexes : list Z)
    : option (lib_counter * list event) :=
  match count with
  | O => Some (counter, [])
  | S count' =>
      r ← inc_run count' cfg cpu counter dimension_indexes;
      r' ← lttng_counter_inc cfg cpu [] [] (fst r) dimension_indexes;
      Some (fst r', snd r ++ snd r')
  end.

(** Number of amounts moved to the global cell: the swaps done there. *)
Definition is_global_swap (e : event) : bool :=
  match e with
  | EV_cmpxchg GLOBAL_LAYOUT _ _ _ => true
  | _ => false
  end.

Definition migrations (t : list event) : nat :=
  length (List.filter is_global_swap t).

(** A 32-bit shard-local counter of one dimension of 4 elements on two
    cpus, step 100, after three uncontended increments of cell 1 on each of
    the two cpus. *)
Definition two_shards_counter : lib_counter :=
  match
    r ← inc_run 3 (shard_config COUNTER_SIZE_32_BIT) 0
          (created (shard_config COUNTER_SIZE_32_BIT) [4] 100 2) [1];
    inc_run 3 (shard_config COUNTER_SIZE_32_BIT) 1 (fst r) [1]
  with
  | Some r => fst r
  | None => sample_counter
  end.

(** What a run of increments on [cpu] maintains, from a [counter] whose
    shard-local and global cells at the resolved offset hold 0: [c] is the
    counter reached and [t] the events so far. *)
Definition run_inv (cfg : lib_counter_config) (cpu : nat) (counter : lib_counter)
    (idxs : list Z) (c : lib_counter) (t : list event) : Prop :=
  let index := lttng_counter_get_index cfg counter idxs in
  let w := width (counter_size cfg) in
  let S := global_sum_step counter in
  allocated_elem c = allocated_elem counter
  /\ dimensions c = dimensions counter
  /\ global_sum_step c = S
  /\ exists slayout shard sub sob gub gob,
       get_layout c (PERCPU_LAYOUT cpu) = Some slayout
       /\ cell_at slayout index = Some shard
       /\ underflow_at slayout index = Some sub
       /\ overflow_at slayout index = Some sob
       /\ 0 <= shard <= S
       /\ cell_at (global_counters c) index
          = Some (to_signed w (Z.of_nat (migrations t) * (S ÷ 2)))
       /\ underflow_at (global_counters c) index = Some gub
       /\ overflow_at (global_counters c) index = Some gob.

(** ** Observations used by the further properties *)

(** The cpu argument with which [lttng_counter_read] selects the layout
    that an add on [cpu] updates first. *)
Definition read_selector (alloc_mode : lib_counter_config_alloc) (cpu : nat) : Z :=
  match alloc_mode with
  | COUNTER_ALLOC_PER_CPU => Z.of_nat cpu
  | COUNTER_ALLOC_GLOBAL => -1
  end.

(** Number of cells that the dimensions span, underflow and overflow
    elements included, as a plain product. *)
Fixpoint dims_size (dims : list lib_counter_dimension) : Z :=
  match dims with
  | [] => 1
  | dimension :: inner => (max_nr_elem dimension + 2) * dims_size inner
  end.

(** An index that designates one of the allocated elements of a
    dimension. *)
Definition in_dimension (dimension : lib_counter_dimension) (idx : Z) : Prop :=
  0 <= idx < max_nr_elem dimension + 2.

(** The dimensions that [lttng_counter_create] builds from the caller's
    array, before the strides are computed. *)
Definition dimensions_of (nr_dimensions : nat) (max_elems : list Z)
    : list lib_counter_dimension :=
  map (fun m => {| max_nr_elem := s64 m; stride := 0 |})
      (take nr_dimensions max_elems).

(** The sites of the successful allocations and of the releases of a log. *)
Definition allocated_sites (log : list kevent) : list alloc_site :=
  omap (fun e => match e with
                 | K_alloc site true => Some site
                 | _ => None
                 end) log.

Definition freed_sites (log : list kevent) : list alloc_site :=
  omap (fun e => match e with
                 | K_free site => Some site
                 | _ => None
                 end) log.

Definition failed_allocations (log : list kevent) : list alloc_site :=
  omap (fun e => match e with
                 | K_alloc site false => Some site
                 | _ => None
                 end) log.

(** Two states of a layout that agree away from the offset [index]. *)
Definition layout_kept_outside (index : Z) (layout layout' : lib_counter_layout)
    : Prop :=
  forall j, j <> index ->
    cell_at layout' j = cell_at layout j
    /\ overflow_at layout' j = overflow_at layout j
    /\ underflow_at layout' j = underflow_at layout j.

(** Every flag that is set in [layout] is set in [layout']. *)
Definition flags_kept (layout layout' : lib_counter_layout) : Prop :=
  forall j,
    (overflow_at layout j = Some true -> overflow_at layout' j = Some true)
    /\ (underflow_at layout j = Some true -> underflow_at layout' j = Some true).

(** Dimensions whose element counts are not negative. *)
Definition nonneg_dims (dims : list lib_counter_dimension) : Prop :=
  Forall (fun d => 0 <= max_nr_elem d) dims.

(** A layout as [lttng_counter_layout_init] leaves it when its three
    allocations succeed: [nr_elem] zeroed cells and cleared flags. *)
Definition fresh_layout (nr_elem : Z) : lib_counter_layout :=
  {| counters := Some (replicate (Z.to_nat nr_elem) 0);
     underflow_bitmap := Some (replicate (Z.to_nat nr_elem) false);
     overflow_bitmap := Some (replicate (Z.to_nat nr_elem) false) |}.

(** The blocks that the pointers of a layout designate, in the order in
    which [lttng_counter_layout_fini] releases them; [cpu] is -1 for the
    global layout. *)
Definition layout_sites (cpu : Z) (layout : lib_counter_layout) : list alloc_site :=
  (match counters layout with Some _ => [SITE_CELLS cpu] | None => [] end)
  ++ (match overflow_bitmap layout with
      | Some _ => [SITE_OVERFLOW_BITMAP cpu]
      | None => []
      end)
  ++ (match underflow_bitmap layout with
      | Some _ => [SITE_UNDERFLOW_BITMAP cpu]
      | None => []
      end).

Definition cpu_sites (counter : lib_counter) (cpu : nat) : list alloc_site :=
  match percpu_area counter !! cpu with
  | Some layout => layout_sites (Z.of_nat cpu) layout
  | None => []
  end.

Definition cpus_sites (counter : lib_counter) (cpus : list nat) : list alloc_site :=
  concat (map (cpu_sites counter) cpus).

(** The kernel in which the allocation request number [n] (from 0) fails
    and every other one succeeds. *)
Definition failing_kernel (ncpus n : nat) : kernel :=
  {| num_possible_cpus := ncpus;
     alloc_outcomes := replicate n true ++ [false];
     null_percpu_area := replicate ncpus zero_layout;
     klog := [] |}.

(** The shard-local 8-bit counter with step 10 after 200 was added to
    cell 1 on cpu 1: the add wrapped and marked the overflow bit of that
    cpu's layout. *)
Definition overflowed_shard_counter : lib_counter :=
  after_add (shard_config COUNTER_SIZE_8_BIT) 1
    (created (shard_config COUNTER_SIZE_8_BIT) [4] 10 2) [1] 200.

(** [lttng_counter_layout_init] followed, whatever it returned, by
    [lttng_counter_layout_fini] on the same layout, as the error path of
    [lttng_counter_create] does; the result is that of the initialisation. *)
Definition layout_init_then_fini (counter : lib_counter) (cpu : Z) : kM Z :=
  do r <- lttng_counter_layout_init counter cpu;
  lttng_counter_layout_fini (snd r) cpu ;;
  kret (fst r).

(** An 8-bit counter with [COUNTER_ALLOC_GLOBAL], [COUNTER_SYNC_PER_CPU]
    and step 10, one dimension of 4 elements, whose cell 1 holds 10 (it was
    created, then 10 was added to cell 1). *)
Definition global_local_config : lib_counter_config :=
  make_config COUNTER_ALLOC_GLOBAL COUNTER_SYNC_PER_CPU COUNTER_SIZE_8_BIT.

Definition global_local_counter : lib_counter :=
  after_add global_local_config 0 (created global_local_config [4] 10 1) [1] 10.

(** * Properties *)

(** ** Machine integers *)

Section MachineIntegers.

Variable w : Z.
Hypothesis w_pos : 0 < w.

Lemma pow2_split : 2 ^ w = 2 * 2 ^ (w - 1).
Proof.
  replace w with (Z.succ (w - 1)) at 1 by lia.
  rewrite Z.pow_succ_r; lia.
Qed.

Lemma pow2_half_pos : 0 < 2 ^ (w - 1).
Proof. apply Z.pow_pos_nonneg; lia. Qed.

Lemma to_signed_range (x : Z) : in_signed w (to_signed w x).
Proof.
  unfold in_signed, to_signed, smin, smax.
  pose proof pow2_split. pose proof pow2_half_pos.
  pose proof (Z.mod_pos_bound (x + 2 ^ (w - 1)) (2 ^ w)). lia.
Qed.

Lemma to_signed_id (x : Z) : in_signed w x -> to_signed w x = x.
Proof.
  unfold in_signed, to_signed, smin, smax. intros Hx.
  pose proof pow2_split.
  rewrite Z.mod_small; lia.
Qed.

Lemma to_signed_add_unsigned (a b : Z) :
  to_signed w (to_unsigned w a + to_unsigned w b) = to_signed w (a + b).
Proof.
  unfold to_signed, to_unsigned. f_equal.
  pose proof pow2_split. pose proof pow2_half_pos.
  rewrite <- (Zplus_mod_idemp_l (a mod 2 ^ w + b mod 2 ^ w)).
  rewrite <- Zplus_mod.
  rewrite Zplus_mod_idemp_l. reflexivity.
Qed.

Lemma to_signed_idem_add (a b : Z) :
  to_signed w (to_signed w a + b) = to_signed w (a + b).
Proof.
  unfold to_signed.  f_equal.
  replace ((a + 2 ^ (w - 1)) mod 2 ^ w - 2 ^ (w - 1) + b + 2 ^ (w - 1))
    with ((a + 2 ^ (w - 1)) mod 2 ^ w + b) by lia.
  rewrite Zplus_mod_idemp_l. f_equal. lia.
Qed.

End MachineIntegers.

Lemma width_pos (size : lib_counter_config_size) : 0 < width size.
Proof. destruct size; reflexivity. Qed.

Lemma promoted_pos (w : Z) : 0 < promoted w.
Proof. unfold promoted. lia. Qed.

Lemma in_signed_promoted (w x : Z) :
  0 < w -> in_signed w x -> in_signed (promoted w) x.
Proof.
  unfold in_signed, smin, smax, promoted. intros Hw Hx.
  assert (2 ^ (w - 1) <= 2 ^ (Z.max w 32 - 1))
    by (apply Z.pow_le_mono_r; lia).
  lia.
Qed.

(** ** Index resolution *)

Lemma validate_index_negative (dimension : lib_counter_dimension) (idx : Z) :
  idx < 0 -> validate_index dimension idx = lttng_counter_underflow_index dimension.
Proof.
  intros H. unfold validate_index.
  destruct (Z.ltb_spec idx 0); [reflexivity | lia].
Qed.

Lemma validate_index_beyond (dimension : lib_counter_dimension) (idx : Z) :
  0 <= max_nr_elem dimension -> max_nr_elem dimension <= idx ->
  validate_index dimension idx = lttng_counter_overflow_index dimension.
Proof.
  intros HN H. unfold validate_index.
  destruct (Z.ltb_spec idx 0); [lia |].
  destruct (Z.geb_spec idx (max_nr_elem dimension)); [reflexivity | lia].
Qed.

Lemma validate_index_within (dimension : lib_counter_dimension) (idx : Z) :
  0 <= idx < max_nr_elem dimension -> validate_index dimension idx = idx.
Proof.
  intros H. unfold validate_index.
  destruct (Z.ltb_spec idx 0); [lia |].
  destruct (Z.geb_spec idx (max_nr_elem dimension)); [lia | reflexivity].
Qed.

Lemma validate_indexes_loop_lookup (dims : list lib_counter_dimension)
    (idxs : list Z) (i : nat) (d : lib_counter_dimension) (idx : Z) :
  dims !! i = Some d -> idxs !! i = Some idx ->
  validate_indexes_loop dims idxs !! i = Some (validate_index d idx).
Proof.
  revert idxs i.
  induction dims as [| d0 dims IH]; intros idxs i Hd Hi; [discriminate |].
  destruct idxs as [| x idxs]; [discriminate |].
  destruct i as [| i]; simpl in *.
  - congruence.
  - apply IH; assumption.
Qed.

(** C1 (what the code does): in every dimension, of element count
    [N = max_nr_elem], [lttng_counter_validate_indexes] replaces an index
    below 0 by [N + 1] and an index of [N] or more by [N + 2], and keeps an
    index of the range; the two substituted values are one more than the
    sentinel indexes [N] and [N + 1] of the claim, and [N + 2] is not an index
    of the [N + 2] elements of the dimension. *)
Theorem validate_indexes_sentinels_shifted (cfg : lib_counter_config)
    (counter : lib_counter) (idxs : list Z) (i : nat)
    (d : lib_counter_dimension) (idx : Z) :
  dimensions counter !! i = Some d ->
  idxs !! i = Some idx ->
  0 <= max_nr_elem d <= smax 64 - 2 ->
  lttng_counter_validate_indexes cfg counter idxs !! i =
    Some (if idx <? 0 then max_nr_elem d + 1
          else if max_nr_elem d <=? idx then max_nr_elem d + 2
          else idx)
  /\ lttng_counter_get_dimension_nr_elements d = max_nr_elem d + 2.
Proof.
  intros Hd Hi HN. split.
  - unfold lttng_counter_validate_indexes.
    rewrite (validate_indexes_loop_lookup _ _ _ _ _ Hd Hi). f_equal.
    assert (H1 : s64 (max_nr_elem d + 1) = max_nr_elem d + 1).
    { apply to_signed_id; [lia |]. revert HN. unfold in_signed, smin, smax. lia. }
    assert (H2 : s64 (max_nr_elem d + 2) = max_nr_elem d + 2).
    { apply to_signed_id; [lia |]. revert HN. unfold in_signed, smin, smax. lia. }
    destruct (Z.ltb_spec idx 0) as [Hneg | Hpos].
    + rewrite validate_index_negative by assumption. exact H1.
    + destruct (Z.leb_spec (max_nr_elem d) idx) as [Hge | Hlt].
      * rewrite validate_index_beyond by lia. exact H2.
      * apply validate_index_within. lia.
  - unfold lttng_counter_get_dimension_nr_elements, usize, to_unsigned.
    apply Z.mod_small. revert HN. unfold smax. lia.
Qed.

Lemma validate_indexes_sentinels_shifted_witness :
  (lttng_counter_validate_indexes sample_config sample_counter [-1] !! 0%nat
     = Some 5
   /\ lttng_counter_get_dimension_nr_elements sample_dimension = 6)
  /\ (lttng_counter_validate_indexes sample_config sample_counter [10] !! 0%nat
        = Some 6
      /\ lttng_counter_get_dimension_nr_elements sample_dimension = 6).
Proof.
  split.
  - apply (validate_indexes_sentinels_shifted sample_config sample_counter
             [-1] 0 sample_dimension (-1));
      [reflexivity | reflexivity | vm_compute; split; discriminate].
  - apply (validate_indexes_sentinels_shifted sample_config sample_counter
             [10] 0 sample_dimension 10);
      [reflexivity | reflexivity | vm_compute; split; discriminate].
Defined.

(** C2 (what the code does): on a counter created with one dimension of 4
    elements, the caller's index 4 resolves to the flat offset 6, which is
    [allocated_elem]: the offset is not below [allocated_elem], and
    [__lttng_counter_add] takes its out-of-range branch, which warns, returns
    0 and writes nothing.  With dimensions of 4 and 3 elements, the caller's
    indexes (2, 3) resolve to the offset of the cell (3, 0). *)
Theorem resolved_offset_reaches_allocated_elem :
  (exists counter,
     fst (lttng_counter_create sample_config 1 [4] 0 (plentiful_kernel 1))
       = Some counter
     /\ allocated_elem counter = 6
     /\ resolve_index sample_config counter [4] = 6
     /\ __lttng_counter_add sample_config COUNTER_ALLOC_GLOBAL COUNTER_SYNC_GLOBAL
          0 [] counter
          (lttng_counter_validate_indexes sample_config counter [4]) 1
        = Some {| res_counter := counter; res_move_sum := 0;
                  res_trace := [EV_WARN_ON_ONCE] |})
  /\ (exists counter,
        fst (lttng_counter_create sample_config 2 [4; 3] 0 (plentiful_kernel 1))
          = Some counter
        /\ resolve_index sample_config counter [2; 3] = 15
        /\ resolve_index sample_config counter [3; 0] = 15).
Proof.
  split.
  - eexists. split; [vm_compute; reflexivity |].
    repeat split; vm_compute; reflexivity.
  - eexists. split; [vm_compute; reflexivity |].
    split; vm_compute; reflexivity.
Qed.

(** C9: for a counter with a single dimension of [N] elements, every index
    below 0 resolves to the flat offset of index -1, and every index of [N]
    or more resolves to the flat offset of index [N]. *)
Theorem resolve_index_constant_outside (cfg : lib_counter_config)
    (counter : lib_counter) (N s below beyond : Z) :
  dimensions counter = [{| max_nr_elem := N; stride := s |}] ->
  0 <= N ->
  below < 0 ->
  N <= beyond ->
  resolve_index cfg counter [below] = resolve_index cfg counter [-1]
  /\ resolve_index cfg counter [beyond] = resolve_index cfg counter [N].
Proof.
  intros Hdims HN Hlo Hhi.
  unfold resolve_index, lttng_counter_validate_indexes, lttng_counter_get_index.
  rewrite Hdims. simpl.
  rewrite (validate_index_negative _ below) by assumption.
  rewrite (validate_index_negative _ (-1)) by lia.
  rewrite (validate_index_beyond _ beyond) by (simpl; lia).
  rewrite (validate_index_beyond _ N) by (simpl; lia).
  split; reflexivity.
Qed.

Lemma resolve_index_constant_outside_witness :
  resolve_index sample_config sample_counter [-7]
    = resolve_index sample_config sample_counter [-1]
  /\ resolve_index sample_config sample_counter [10]
       = resolve_index sample_config sample_counter [4].
Proof.
  apply (resolve_index_constant_outside sample_config sample_counter 4 1 (-7) 10);
    [reflexivity | lia | lia | lia].
Defined.

(** ** Creation *)

Lemma set_global_sum_step_negative (counter : lib_counter) (step : Z) :
  step < 0 -> lttng_counter_set_global_sum_step counter step = (- EINVAL, counter).
Proof.
  intros H. unfold lttng_counter_set_global_sum_step.
  destruct (Z.ltb_spec step 0); [reflexivity | lia].
Qed.

(** C10: for every negative [global_sum_step], whatever the cell width,
    [lttng_counter_set_global_sum_step] returns [-EINVAL] and
    [lttng_counter_create] returns no counter. *)
Theorem negative_global_sum_step_rejected (cfg : lib_counter_config)
    (nr : nat) (max_elems : list Z) (step : Z)
    (counter : lib_counter) (k : kernel) :
  step < 0 ->
  fst (lttng_counter_set_global_sum_step counter step) = - EINVAL
  /\ fst (lttng_counter_create cfg nr max_elems step k) = None.
Proof.
  intros Hneg. split.
  - rewrite set_global_sum_step_negative by assumption. reflexivity.
  - unfold lttng_counter_create.
    replace (negb (BITS_PER_LONG =? 64)) with false by reflexivity.
    cbn [andb]. unfold kbind at 1.
    destruct (kalloc SITE_COUNTER k) as [ok k1].
    destruct ok; cbn [negb]; [| reflexivity].
    unfold kbind at 1. cbn beta iota.
    rewrite set_global_sum_step_negative by assumption.
    reflexivity.
Qed.

Lemma negative_global_sum_step_rejected_witness :
  fst (lttng_counter_set_global_sum_step sample_counter (-1)) = - EINVAL
  /\ fst (lttng_counter_create
            (make_config COUNTER_ALLOC_PER_CPU COUNTER_SYNC_PER_CPU COUNTER_SIZE_8_BIT)
            1 [4] (-1) (plentiful_kernel 2)) = None.
Proof.
  apply (negative_global_sum_step_rejected
           (make_config COUNTER_ALLOC_PER_CPU COUNTER_SYNC_PER_CPU COUNTER_SIZE_8_BIT)
           1 [4] (-1) sample_counter (plentiful_kernel 2)).
  lia.
Defined.

(** C3 (what the code does): creating a counter with [COUNTER_ALLOC_GLOBAL]
    on a machine with two possible cpus succeeds, leaves the per-cpu base
    pointer NULL, and requests three cell arrays: the global one (cpu -1) and
    one for each of the cpus 0 and 1, the loop over the possible cpus being
    run whatever the allocation mode. *)
Theorem create_global_allocates_cells_per_cpu :
  exists counter,
    fst (lttng_counter_create sample_config 2 [4; 3] 0 (plentiful_kernel 2))
      = Some counter
    /\ percpu_counters counter = false
    /\ cell_allocations
         (klog (snd (lttng_counter_create sample_config 2 [4; 3] 0
                       (plentiful_kernel 2))))
       = [-1; 0; 1]
    /\ (forall cpu layout,
          percpu_area counter !! cpu = Some layout ->
          counters layout = Some (replicate 30 0)).
Proof.
  eexists. split; [vm_compute; reflexivity |].
  split; [reflexivity |]. split; [vm_compute; reflexivity |].
  intros cpu layout.
  destruct cpu as [| [| cpu]]; cbn; intros H; inversion H; reflexivity.
Qed.

(** ** The add primitive *)

Lemma array_get_Some {A : Type} (p : option (list A)) (index : Z) (x : A) :
  array_get p index = Some x <->
  0 <= index /\ exists l, p = Some l /\ l !! Z.to_nat index = Some x.
Proof.
  unfold array_get. destruct (Z.ltb_spec index 0) as [Hneg | Hpos].
  - split; [discriminate | intros [H _]; lia].
  - destruct p as [l |].
    + split.
      * intros H. split; [assumption |]. exists l. split; [reflexivity | assumption].
      * intros [_ (l' & Heq & Hl)]. inversion Heq; subst. assumption.
    + split; [discriminate | intros [_ (l' & Heq & _)]; discriminate].
Qed.

Lemma array_set_Some {A : Type} (l : list A) (index : Z) (x y : A) :
  array_get (Some l) index = Some x ->
  array_set (Some l) index y = Some (<[Z.to_nat index := y]> l).
Proof. intros H. unfold array_set. rewrite H. reflexivity. Qed.

Lemma array_get_insert {A : Type} (l : list A) (index : Z) (x y : A) :
  array_get (Some l) index = Some x ->
  array_get (Some (<[Z.to_nat index := y]> l)) index = Some y.
Proof.
  intros H. apply array_get_Some in H as [Hpos (l' & Heq & Hl)].
  inversion Heq; subst l'.
  apply array_get_Some. split; [assumption |].
  eexists. split; [reflexivity |].
  apply list_lookup_insert_eq. eapply lookup_lt_Some. eassumption.
Qed.

Lemma array_get_alter {A : Type} (f : A -> A) (l : list A) (index : Z) (x : A) :
  array_get (Some l) index = Some x ->
  array_get (Some (alter f (Z.to_nat index) l)) index = Some (f x).
Proof.
  intros H. apply array_get_Some in H as [Hpos (l' & Heq & Hl)].
  inversion Heq; subst l'.
  apply array_get_Some. split; [assumption |].
  eexists. split; [reflexivity |].
  rewrite list_lookup_alter_eq, Hl. reflexivity.
Qed.

Lemma alter_orb_false (l : list bool) (i : nat) : alter (orb false) i l = l.
Proof. apply list_alter_id. reflexivity. Qed.

Lemma alter_orb_true (l : list bool) (i : nat) :
  alter (orb true) i l = <[i := true]> l.
Proof.
  revert i. induction l as [| b l IH]; intros [| i]; simpl; try reflexivity.
  f_equal. apply IH.
Qed.

Lemma alter_orb_true_set (l : list bool) (i : nat) :
  l !! i = Some true -> alter (orb true) i l = l.
Proof. intros H. rewrite alter_orb_true. apply list_insert_id. assumption. Qed.

Lemma cas_loop_result (op : Z -> Z -> event) (body : Z -> attempt)
    (env : list Z) (res : Z) :
  (forall r, att_old (body r) = r) ->
  fst (cas_loop op body env res) = body (cas_observed env res).
Proof.
  intros Hold. revert res.
  induction env as [| x env IH]; intros res; simpl; [reflexivity |].
  rewrite Hold. destruct (x =? res); [reflexivity |].
  specialize (IH x). destruct (cas_loop op body env x) as [r t].
  exact IH.
Qed.

(** Every event of the retry loop is an application of the swap [op]. *)
Lemma cas_loop_trace (op : Z -> Z -> event) (body : Z -> attempt)
    (env : list Z) (res : Z) :
  Forall (fun e => exists old n, e = op old n) (snd (cas_loop op body env res))
  /\ snd (cas_loop op body env res) <> [].
Proof.
  revert res. induction env as [| x env IH]; intros res; simpl.
  - split; [| discriminate]. constructor; [eauto | constructor].
  - destruct (x =? att_old (body res)).
    + split; [| discriminate]. constructor; [eauto | constructor].
    + specialize (IH x). destruct (cas_loop op body env x) as [r t].
      simpl in *. split; [| discriminate].
      constructor; [eauto | apply IH].
Qed.

Lemma classify_exclusive (size : lib_counter_config_size) (v old n : Z) :
  classify size v old n <> (true, true).
Proof.
  unfold classify.
  destruct size;
    repeat match goal with
           | |- context [if ?c then _ else _] => destruct c
           end; discriminate.
Qed.

(** The closing [set_bit] statements, when both bitmaps hold the bit. *)
Lemma mark_bitmaps_eq (index : Z) (ovf unf ob ub : bool)
    (layout : lib_counter_layout) :
  overflow_at layout index = Some ob ->
  underflow_at layout index = Some ub ->
  (ovf, unf) <> (true, true) ->
  mark_bitmaps index ovf unf layout =
    Some {| counters := counters layout;
            underflow_bitmap :=
              (fun l => alter (orb unf) (Z.to_nat index) l) <$> underflow_bitmap layout;
            overflow_bitmap :=
              (fun l => alter (orb ovf) (Z.to_nat index) l) <$> overflow_bitmap layout |}.
Proof.
  unfold overflow_at, underflow_at, test_bit. intros Hob Hub Hex.
  destruct layout as [cells ubm obm]; simpl in *.
  pose proof Hob as Hob'. pose proof Hub as Hub'.
  apply array_get_Some in Hob' as [Hpos (ol & -> & Hol)].
  apply array_get_Some in Hub' as [_ (ul & -> & Hul)].
  unfold mark_bitmaps, test_bit, set_bit; simpl.
  destruct ovf, unf; try congruence; simpl.
  - rewrite Hob; simpl. destruct ob; simpl.
    + rewrite alter_orb_false, alter_orb_true_set by assumption. reflexivity.
    + rewrite (array_set_Some _ _ _ _ Hob); simpl.
      rewrite alter_orb_false, alter_orb_true. reflexivity.
  - rewrite Hub; simpl. destruct ub; simpl.
    + rewrite alter_orb_false, alter_orb_true_set by assumption. reflexivity.
    + rewrite (array_set_Some _ _ _ _ Hub); simpl.
      rewrite alter_orb_false, alter_orb_true. reflexivity.
  - rewrite !alter_orb_false. reflexivity.
Qed.

Lemma add_attempt_old (cfg : lib_counter_config) (sm : lib_counter_config_sync)
    (counter : lib_counter) (v r : Z) :
  att_old (add_attempt cfg sm counter v r) = r.
Proof. destruct sm; reflexivity. Qed.

(** [__lttng_counter_add] on a cell that the selected layout holds: the
    result in closed form. *)
Lemma lttng_counter_add_eq (cfg : lib_counter_config)
    (am : lib_counter_config_alloc) (sm : lib_counter_config_sync)
    (cpu : nat) (env : list Z) (counter : lib_counter) (idxs : list Z) (v : Z)
    (layout : lib_counter_layout) (cell : Z) (ub ob : bool) :
  lttng_counter_get_index cfg counter idxs < allocated_elem counter ->
  get_layout counter (add_target am cpu) = Some layout ->
  cell_at layout (lttng_counter_get_index cfg counter idxs) = Some cell ->
  underflow_at layout (lttng_counter_get_index cfg counter idxs) = Some ub ->
  overflow_at layout (lttng_counter_get_index cfg counter idxs) = Some ob ->
  __lttng_counter_add cfg am sm cpu env counter idxs v =
    let index := lttng_counter_get_index cfg counter idxs in
    let a := add_attempt cfg sm counter v (cas_observed env cell) in
    let flags := classify (counter_size cfg) v (att_old a) (att_n a) in
    Some {| res_counter :=
              set_layout counter (add_target am cpu)
                (layout_after index (att_n a) (fst flags) (snd flags) layout);
            res_move_sum := att_move_sum a;
            res_trace :=
              snd (cas_loop (add_op sm (add_target am cpu) index)
                     (add_attempt cfg sm counter v) env cell) |}.
Proof.
  intros Hlt Hlay Hcell Hub Hob. cbv zeta.
  unfold __lttng_counter_add.
  set (index := lttng_counter_get_index cfg counter idxs) in *.
  destruct (Z.geb_spec index (allocated_elem counter)) as [Hge | _]; [lia |].
  fold (add_target am cpu). rewrite Hlay. cbn [mbind option_bind].
  unfold cell_at in Hcell. rewrite Hcell. cbn [mbind option_bind].
  assert (Hloop :
    match sm with
    | COUNTER_SYNC_PER_CPU =>
        cas_loop (EV_cmpxchg_local (add_target am cpu) index)
          (add_body_percpu (width (counter_size cfg))
             (to_signed (width (counter_size cfg)) (global_sum_step counter)) v)
          env cell
    | COUNTER_SYNC_GLOBAL =>
        cas_loop (EV_cmpxchg (add_target am cpu) index)
          (add_body_global (width (counter_size cfg)) v) env cell
    end = cas_loop (add_op sm (add_target am cpu) index)
            (add_attempt cfg sm counter v) env cell).
  { destruct sm; reflexivity. }
  rewrite Hloop. clear Hloop.
  pose proof (cas_loop_result (add_op sm (add_target am cpu) index)
                (add_attempt cfg sm counter v) env cell
                (add_attempt_old cfg sm counter v)) as Hres.
  destruct (cas_loop (add_op sm (add_target am cpu) index)
              (add_attempt cfg sm counter v) env cell) as [a t].
  simpl in Hres. subst a. cbn [snd].
  set (a := add_attempt cfg sm counter v (cas_observed env cell)).
  pose proof Hcell as Hc.
  apply array_get_Some in Hc as [Hpos (cells & Hcells & Hlk)].
  rewrite Hcells in *.
  rewrite (array_set_Some _ _ _ _ Hcell). cbn [mbind option_bind].
  pose proof (classify_exclusive (counter_size cfg) v (att_old a) (att_n a)) as Hex.
  destruct (classify (counter_size cfg) v (att_old a) (att_n a)) as [ovf unf].
  rewrite (mark_bitmaps_eq index ovf unf ob ub); [| assumption | assumption | assumption].
  cbn [mbind option_bind fst snd]. unfold layout_after. rewrite Hcells.
  reflexivity.
Qed.

Lemma get_set_layout_same (counter : lib_counter) (lid : layout_id)
    (layout0 layout : lib_counter_layout) :
  get_layout counter lid = Some layout0 ->
  get_layout (set_layout counter lid layout) lid = Some layout.
Proof.
  destruct lid as [| cpu]; simpl; intros H; [reflexivity |].
  apply list_lookup_insert_eq. eapply lookup_lt_Some. eassumption.
Qed.

Lemma get_set_layout_other (counter : lib_counter) (lid lid' : layout_id)
    (layout : lib_counter_layout) :
  lid <> lid' ->
  get_layout (set_layout counter lid layout) lid' = get_layout counter lid'.
Proof.
  destruct lid as [| cpu], lid' as [| cpu']; simpl; intros H;
    try reflexivity; try congruence.
  apply list_lookup_insert_ne. congruence.
Qed.

Lemma set_layout_frame (counter : lib_counter) (lid : layout_id)
    (layout : lib_counter_layout) :
  allocated_elem (set_layout counter lid layout) = allocated_elem counter
  /\ dimensions (set_layout counter lid layout) = dimensions counter
  /\ global_sum_step (set_layout counter lid layout) = global_sum_step counter.
Proof. destruct lid; repeat split. Qed.

Lemma get_index_set_layout (cfg : lib_counter_config) (counter : lib_counter)
    (lid : layout_id) (layout : lib_counter_layout) (idxs : list Z) :
  lttng_counter_get_index cfg (set_layout counter lid layout) idxs
  = lttng_counter_get_index cfg counter idxs.
Proof. destruct lid; reflexivity. Qed.

Lemma cell_at_layout_after (layout : lib_counter_layout) (index n cell : Z)
    (ovf unf : bool) :
  cell_at layout index = Some cell ->
  cell_at (layout_after index n ovf unf layout) index = Some n.
Proof.
  unfold cell_at. intros H. pose proof H as H'.
  apply array_get_Some in H' as [_ (l & Hl & _)].
  unfold layout_after; simpl. rewrite Hl in *. simpl.
  eapply array_get_insert. eassumption.
Qed.

Lemma overflow_at_layout_after (layout : lib_counter_layout) (index n : Z)
    (ovf unf ob : bool) :
  overflow_at layout index = Some ob ->
  overflow_at (layout_after index n ovf unf layout) index = Some (ovf || ob).
Proof.
  unfold overflow_at, test_bit. intros H. pose proof H as H'.
  apply array_get_Some in H' as [_ (l & Hl & _)].
  unfold layout_after; simpl. rewrite Hl in *. simpl.
  apply (array_get_alter (orb ovf)). assumption.
Qed.

Lemma underflow_at_layout_after (layout : lib_counter_layout) (index n : Z)
    (ovf unf ub : bool) :
  underflow_at layout index = Some ub ->
  underflow_at (layout_after index n ovf unf layout) index = Some (unf || ub).
Proof.
  unfold underflow_at, test_bit. intros H. pose proof H as H'.
  apply array_get_Some in H' as [_ (l & Hl & _)].
  unfold layout_after; simpl. rewrite Hl in *. simpl.
  apply (array_get_alter (orb unf)). assumption.
Qed.

Lemma in_signed_mono (w w' x : Z) :
  0 < w <= w' -> in_signed w x -> in_signed w' x.
Proof.
  unfold in_signed, smin, smax. intros Hw Hx.
  assert (2 ^ (w - 1) <= 2 ^ (w' - 1)) by (apply Z.pow_le_mono_r; lia).
  lia.
Qed.

Lemma width_le_64 (size : lib_counter_config_size) : 0 < width size <= 64.
Proof. destruct size; vm_compute; split; congruence. Qed.

Lemma width_le_promoted (size : lib_counter_config_size) :
  0 < width size <= promoted (width size).
Proof. pose proof (width_pos size). unfold promoted. lia. Qed.

(** Narrowing an [int64_t] to a cell: the detour through 64 bits is
    invisible. *)
Lemma to_signed_s64 (size : lib_counter_config_size) (x : Z) :
  to_signed (width size) (s64 x) = to_signed (width size) x.
Proof.
  unfold s64. unfold to_signed at 2.
  set (q := (x + 2 ^ (64 - 1)) / 2 ^ 64).
  assert (Hx : (x + 2 ^ (64 - 1)) mod 2 ^ 64 - 2 ^ (64 - 1) = x - q * 2 ^ 64).
  { pose proof (Z.div_mod (x + 2 ^ (64 - 1)) (2 ^ 64)). subst q. lia. }
  rewrite Hx. unfold to_signed. f_equal.
  assert (Hm : 2 ^ 64 = 2 ^ (64 - width size) * 2 ^ width size).
  { rewrite <- Z.pow_add_r by (pose proof (width_le_64 size); lia).
    f_equal. lia. }
  rewrite Hm.
  replace (x - q * (2 ^ (64 - width size) * 2 ^ width size) + 2 ^ (width size - 1))
    with (x + 2 ^ (width size - 1) + (- q * 2 ^ (64 - width size)) * 2 ^ width size)
    by ring.
  apply Z_mod_plus_full.
Qed.

(** The add of a counter configured with [COUNTER_ALLOC_GLOBAL] and
    [COUNTER_SYNC_GLOBAL]: whatever [global_sum_step] and the delta,
    [lttng_counter_add] on a cell of the global layout swaps with [cmpxchg]
    only, moves no amount (the primitive returns 0), stores the value read
    plus the delta wrapped at the cell width, and leaves the per-cpu area
    alone. *)
Lemma global_alloc_global_sync_add (cfg : lib_counter_config) (cpu : nat)
    (env env_global : list Z) (counter : lib_counter) (idxs : list Z)
    (v cell : Z) (ub ob : bool) :
  alloc cfg = COUNTER_ALLOC_GLOBAL ->
  sync cfg = COUNTER_SYNC_GLOBAL ->
  lttng_counter_get_index cfg counter idxs < allocated_elem counter ->
  cell_at (global_counters counter) (lttng_counter_get_index cfg counter idxs)
    = Some cell ->
  underflow_at (global_counters counter) (lttng_counter_get_index cfg counter idxs)
    = Some ub ->
  overflow_at (global_counters counter) (lttng_counter_get_index cfg counter idxs)
    = Some ob ->
  exists r,
    __lttng_counter_add cfg (alloc cfg) (sync cfg) cpu env counter idxs v = Some r
    /\ lttng_counter_add cfg cpu env env_global counter idxs v
       = Some (res_counter r, res_trace r)
    /\ res_move_sum r = 0
    /\ cell_at (global_counters (res_counter r))
         (lttng_counter_get_index cfg counter idxs)
       = Some (to_signed (width (counter_size cfg)) (cas_observed env cell + v))
    /\ Forall (fun e => exists old n,
                 e = EV_cmpxchg GLOBAL_LAYOUT
                       (lttng_counter_get_index cfg counter idxs) old n)
         (res_trace r)
    /\ percpu_area (res_counter r) = percpu_area counter.
Proof.
  intros Ha Hs Hlt Hcell Hub Hob.
  unfold lttng_counter_add, __lttng_counter_add_global.
  rewrite Ha, Hs.
  rewrite (lttng_counter_add_eq cfg COUNTER_ALLOC_GLOBAL COUNTER_SYNC_GLOBAL
             cpu env counter idxs v (global_counters counter) cell ub ob
             Hlt eq_refl Hcell Hub Hob).
  cbv zeta. eexists. split; [reflexivity |].
  cbn [mbind option_bind res_counter res_trace res_move_sum add_target
       add_attempt add_body_global att_n att_old att_move_sum add_op
       set_layout global_counters percpu_area].
  split; [reflexivity |]. split; [reflexivity |]. split.
  - rewrite (cell_at_layout_after _ _ _ _ _ _ Hcell).
    rewrite to_signed_add_unsigned by apply width_pos. reflexivity.
  - split; [| reflexivity].
    pose proof (cas_loop_trace
      (EV_cmpxchg GLOBAL_LAYOUT (lttng_counter_get_index cfg counter idxs))
      (add_body_global (width (counter_size cfg)) v) env cell) as [Ht _].
    exact Ht.
Qed.

Lemma global_alloc_global_sync_add_witness :
  exists r,
    __lttng_counter_add sample_config (alloc sample_config) (sync sample_config)
      0 [] (created sample_config [4] 7 1) [2] 5 = Some r
    /\ lttng_counter_add sample_config 0 [] [] (created sample_config [4] 7 1) [2] 5
       = Some (res_counter r, res_trace r)
    /\ res_move_sum r = 0
    /\ cell_at (global_counters (res_counter r))
         (lttng_counter_get_index sample_config (created sample_config [4] 7 1) [2])
       = Some (to_signed (width (counter_size sample_config)) (cas_observed [] 0 + 5))
    /\ Forall (fun e => exists old n,
                 e = EV_cmpxchg GLOBAL_LAYOUT
                       (lttng_counter_get_index sample_config
                          (created sample_config [4] 7 1) [2]) old n)
         (res_trace r)
    /\ percpu_area (res_counter r) = percpu_area (created sample_config [4] 7 1).
Proof.
  apply (global_alloc_global_sync_add sample_config 0 [] []
           (created sample_config [4] 7 1) [2] 5 0 false false);
    vm_compute; reflexivity.
Defined.

(** ** The migration decision *)

(** The amount that the shard-local loop body moves out of a cell whose
    wrapped sum is [n], for a step [S]. *)
Lemma add_body_percpu_eq (size : lib_counter_config_size) (S v old : Z) :
  0 <= S <= smax (width size) ->
  add_body_percpu (width size) (to_signed (width size) S) v old =
    let n := to_signed (width size) (old + v) in
    let m := if n >? S then S ÷ 2 else if n <? - S then - (S ÷ 2) else 0 in
    {| att_old := old; att_n := n - m; att_move_sum := m |}.
Proof.
  intros HS. cbv zeta. unfold add_body_percpu.
  pose proof (width_pos size) as Hw.
  pose proof (width_le_64 size) as Hw64.
  pose proof (width_le_promoted size) as Hwp.
  assert (HSin : in_signed (width size) S) by (unfold in_signed, smin, smax in *; lia).
  rewrite (to_signed_id _ Hw S HSin).
  rewrite (to_signed_add_unsigned _ Hw).
  pose proof (to_signed_range _ Hw (old + v)) as Hn.
  set (n := to_signed (width size) (old + v)) in *.
  assert (Hq : S ÷ 2 = S / 2) by (apply Z.quot_div_nonneg; lia).
  assert (Hq2 : 0 <= S / 2 <= S) by (split; [apply Z.div_pos | apply Z.div_le_upper_bound]; lia).
  assert (Hhalf : in_signed (width size) (S ÷ 2))
    by (rewrite Hq; unfold in_signed, smin, smax in *; lia).
  assert (Hnhalf : in_signed (width size) (- (S ÷ 2)))
    by (rewrite Hq; unfold in_signed, smin, smax in *; lia).
  assert (HnS : in_signed (width size) (- S))
    by (unfold in_signed, smin, smax in *; lia).
  rewrite (to_signed_id _ (promoted_pos _) (S ÷ 2))
    by (eapply in_signed_mono; eassumption).
  rewrite (to_signed_id _ (promoted_pos _) (- S))
    by (eapply in_signed_mono; eassumption).
  rewrite (to_signed_id _ (promoted_pos _) (- (S ÷ 2)))
    by (eapply in_signed_mono; eassumption).
  rewrite to_signed_s64.
  f_equal.
  apply to_signed_id; [assumption |].
  rewrite Hq. unfold in_signed, smin, smax in *.
  destruct (Z.gtb_spec n S); [lia |].
  destruct (Z.ltb_spec n (- S)); lia.
Qed.

(** C4 (what the code does): with [COUNTER_ALLOC_GLOBAL] and
    [COUNTER_SYNC_PER_CPU], [lttng_counter_add] runs the shard-local loop
    body on the global cell: it swaps with [cmpxchg_local] and takes the
    migration decision against the step [S].  With [n] the wrapped sum of the
    value read and the delta: above [S] the primitive returns [S / 2] and
    stores [n - S / 2], below [- S] it returns [- (S / 2)] and stores
    [n + S / 2].  [__lttng_counter_add_global] discards the returned amount:
    the result of the add is that of the primitive alone, no second add
    follows and no other layout changes, so the amount taken out of the cell
    is counted nowhere.  On the 8-bit counter with step 10 whose cell holds
    10, adding 1 returns 5 and stores 6, not 11. *)
Theorem global_alloc_add_drops_move_sum (cfg : lib_counter_config) (cpu : nat)
    (env env_global : list Z) (counter : lib_counter) (idxs : list Z)
    (v cell : Z) (ub ob : bool) :
  alloc cfg = COUNTER_ALLOC_GLOBAL ->
  sync cfg = COUNTER_SYNC_PER_CPU ->
  0 <= global_sum_step counter <= smax (width (counter_size cfg)) ->
  lttng_counter_get_index cfg counter idxs < allocated_elem counter ->
  cell_at (global_counters counter) (lttng_counter_get_index cfg counter idxs)
    = Some cell ->
  underflow_at (global_counters counter) (lttng_counter_get_index cfg counter idxs)
    = Some ub ->
  overflow_at (global_counters counter) (lttng_counter_get_index cfg counter idxs)
    = Some ob ->
  exists r,
    __lttng_counter_add cfg (alloc cfg) (sync cfg) cpu env counter idxs v = Some r
    /\ lttng_counter_add cfg cpu env env_global counter idxs v
       = Some (res_counter r, res_trace r)
    /\ (res_move_sum r,
        cell_at (global_counters (res_counter r))
          (lttng_counter_get_index cfg counter idxs))
       = (let S := global_sum_step counter in
          let n := to_signed (width (counter_size cfg)) (cas_observed env cell + v) in
          if n >? S then (S ÷ 2, Some (n - S ÷ 2))
          else if n <? - S then (- (S ÷ 2), Some (n + S ÷ 2))
          else (0, Some n))
    /\ Forall (fun e => exists old n,
                 e = EV_cmpxchg_local GLOBAL_LAYOUT
                       (lttng_counter_get_index cfg counter idxs) old n)
         (res_trace r)
    /\ percpu_area (res_counter r) = percpu_area counter.
Proof.
  intros Ha Hs HS Hlt Hcell Hub Hob.
  unfold lttng_counter_add, __lttng_counter_add_global.
  rewrite Ha, Hs.
  rewrite (lttng_counter_add_eq cfg COUNTER_ALLOC_GLOBAL COUNTER_SYNC_PER_CPU
             cpu env counter idxs v (global_counters counter) cell ub ob
             Hlt eq_refl Hcell Hub Hob).
  cbv zeta. eexists. split; [reflexivity |].
  cbn [mbind option_bind res_counter res_trace res_move_sum add_target
       add_attempt add_op set_layout global_counters percpu_area].
  split; [reflexivity |].
  rewrite (add_body_percpu_eq (counter_size cfg) _ v _ HS).
  cbv zeta. cbn [att_n att_old att_move_sum].
  rewrite (cell_at_layout_after _ _ _ _ _ _ Hcell).
  set (n := to_signed (width (counter_size cfg)) (cas_observed env cell + v)).
  split; [| split; [| reflexivity]].
  - destruct (Z.gtb_spec n (global_sum_step counter)); [reflexivity |].
    destruct (Z.ltb_spec n (- global_sum_step counter)).
    + do 2 f_equal. lia.
    + do 2 f_equal. lia.
  - pose proof (cas_loop_trace
      (EV_cmpxchg_local GLOBAL_LAYOUT (lttng_counter_get_index cfg counter idxs))
      (add_body_percpu (width (counter_size cfg))
         (to_signed (width (counter_size cfg)) (global_sum_step counter)) v)
      env cell) as [Ht _].
    exact Ht.
Qed.

Lemma global_alloc_add_drops_move_sum_witness :
  exists r,
    __lttng_counter_add global_local_config (alloc global_local_config)
      (sync global_local_config) 0 [] global_local_counter [1] 1 = Some r
    /\ lttng_counter_add global_local_config 0 [] [] global_local_counter [1] 1
       = Some (res_counter r, res_trace r)
    /\ (res_move_sum r, cell_at (global_counters (res_counter r)) 1) = (5, Some 6)
    /\ Forall (fun e => exists old n, e = EV_cmpxchg_local GLOBAL_LAYOUT 1 old n)
         (res_trace r)
    /\ percpu_area (res_counter r) = percpu_area global_local_counter.
Proof.
  apply (global_alloc_add_drops_move_sum global_local_config 0 [] []
           global_local_counter [1] 1 10 false false).
  - reflexivity.
  - reflexivity.
  - vm_compute. split; discriminate.
  - vm_compute. reflexivity.
  - vm_compute. reflexivity.
  - vm_compute. reflexivity.
  - vm_compute. reflexivity.
Defined.

(** C5: a shard-local add ([COUNTER_ALLOC_PER_CPU], [COUNTER_SYNC_PER_CPU])
    with a step [S] that creation accepts.  With [n] the wrapped sum of the
    value read and the delta: above [S] the primitive returns [S / 2] and
    stores [n - S / 2]; below [- S] it returns [- (S / 2)] and stores
    [n + S / 2]; otherwise it returns 0 and stores [n].  With [S = 0] it
    returns 0. *)
Theorem shard_local_add_migration (cfg : lib_counter_config) (cpu : nat)
    (env : list Z) (counter : lib_counter) (idxs : list Z) (v : Z)
    (layout : lib_counter_layout) (cell : Z) (ub ob : bool) :
  0 <= global_sum_step counter <= smax (width (counter_size cfg)) ->
  lttng_counter_get_index cfg counter idxs < allocated_elem counter ->
  get_layout counter (PERCPU_LAYOUT cpu) = Some layout ->
  cell_at layout (lttng_counter_get_index cfg counter idxs) = Some cell ->
  underflow_at layout (lttng_counter_get_index cfg counter idxs) = Some ub ->
  overflow_at layout (lttng_counter_get_index cfg counter idxs) = Some ob ->
  exists r layout',
    __lttng_counter_add cfg COUNTER_ALLOC_PER_CPU COUNTER_SYNC_PER_CPU cpu env
      counter idxs v = Some r
    /\ get_layout (res_counter r) (PERCPU_LAYOUT cpu) = Some layout'
    /\ (res_move_sum r,
        cell_at layout' (lttng_counter_get_index cfg counter idxs))
       = (let S := global_sum_step counter in
          let n := to_signed (width (counter_size cfg)) (cas_observed env cell + v) in
          if n >? S then (S ÷ 2, Some (n - S ÷ 2))
          else if n <? - S then (- (S ÷ 2), Some (n + S ÷ 2))
          else (0, Some n))
    /\ (global_sum_step counter <> 0 \/ res_move_sum r = 0).
Proof.
  intros HS Hlt Hlay Hcell Hub Hob.
  rewrite (lttng_counter_add_eq cfg COUNTER_ALLOC_PER_CPU COUNTER_SYNC_PER_CPU
             cpu env counter idxs v layout cell ub ob Hlt Hlay Hcell Hub Hob).
  cbv zeta. eexists. eexists. split; [reflexivity |].
  cbn [res_counter res_move_sum add_target add_attempt].
  rewrite (add_body_percpu_eq (counter_size cfg) _ v _ HS).
  cbv zeta. cbn [att_n att_old att_move_sum].
  split; [eapply get_set_layout_same; eassumption |].
  rewrite (cell_at_layout_after _ _ _ _ _ _ Hcell).
  set (n := to_signed (width (counter_size cfg)) (cas_observed env cell + v)).
  split.
  - destruct (Z.gtb_spec n (global_sum_step counter)); [reflexivity |].
    destruct (Z.ltb_spec n (- global_sum_step counter)).
    + do 2 f_equal. lia.
    + do 2 f_equal. lia.
  - destruct (Z.eq_dec (global_sum_step counter) 0) as [H0 | Hne];
      [right | left; assumption].
    rewrite H0.
    destruct (n >? 0); [reflexivity |]. destruct (n <? - 0); reflexivity.
Qed.

Lemma shard_local_add_migration_witness :
  exists r layout',
    __lttng_counter_add (shard_config COUNTER_SIZE_8_BIT)
      COUNTER_ALLOC_PER_CPU COUNTER_SYNC_PER_CPU 0 []
      shard_counter_at_step [1] 1 = Some r
    /\ get_layout (res_counter r) (PERCPU_LAYOUT 0) = Some layout'
    /\ (res_move_sum r,
        cell_at layout'
          (lttng_counter_get_index (shard_config COUNTER_SIZE_8_BIT)
             shard_counter_at_step [1]))
       = (let S := global_sum_step shard_counter_at_step in
          let n := to_signed (width (counter_size (shard_config COUNTER_SIZE_8_BIT)))
                     (cas_observed [] 10 + 1) in
          if n >? S then (S ÷ 2, Some (n - S ÷ 2))
          else if n <? - S then (- (S ÷ 2), Some (n + S ÷ 2))
          else (0, Some n))
    /\ (global_sum_step shard_counter_at_step <> 0 \/ res_move_sum r = 0).
Proof.
  apply (shard_local_add_migration (shard_config COUNTER_SIZE_8_BIT) 0 []
           shard_counter_at_step [1] 1
           {| counters := Some [0; 10; 0; 0; 0; 0];
              underflow_bitmap := Some [false; false; false; false; false; false];
              overflow_bitmap := Some [false; false; false; false; false; false] |}
           10 false false).
  - vm_compute. split; discriminate.
  - vm_compute. reflexivity.
  - vm_compute. reflexivity.
  - vm_compute. reflexivity.
  - vm_compute. reflexivity.
  - vm_compute. reflexivity.
Defined.

(** The steps that [lttng_counter_set_global_sum_step] accepts are the
    non-negative values of the cell type. *)
Lemma set_global_sum_step_accepts (counter counter' : lib_counter) (step : Z) :
  in_signed 64 step ->
  lttng_counter_set_global_sum_step counter step = (0, counter') ->
  global_sum_step counter' = step
  /\ 0 <= step <= smax (width (counter_size (config counter))).
Proof.
  unfold lttng_counter_set_global_sum_step. intros H64.
  destruct (Z.ltb_spec step 0) as [Hneg | Hpos]; [discriminate |].
  destruct (counter_size (config counter)).
  - destruct (Z.gtb_spec step S8_MAX) as [| Hle]; [discriminate |].
    intros [= <-]. unfold S8_MAX in Hle. cbn [global_sum_step with_global_sum_step].
    change (smax (width COUNTER_SIZE_8_BIT)) with 127.
    rewrite to_signed_id; [split; [reflexivity | lia] | lia |].
    unfold in_signed. change (smin 8) with (-128). change (smax 8) with 127. lia.
  - destruct (Z.gtb_spec step S16_MAX) as [| Hle]; [discriminate |].
    intros [= <-]. unfold S16_MAX in Hle. cbn [global_sum_step with_global_sum_step].
    change (smax (width COUNTER_SIZE_16_BIT)) with 32767.
    rewrite to_signed_id; [split; [reflexivity | lia] | lia |].
    unfold in_signed. change (smin 16) with (-32768). change (smax 16) with 32767. lia.
  - destruct (Z.gtb_spec step S32_MAX) as [| Hle]; [discriminate |].
    intros [= <-]. unfold S32_MAX in Hle. cbn [global_sum_step with_global_sum_step].
    change (smax (width COUNTER_SIZE_32_BIT)) with 2147483647.
    rewrite to_signed_id; [split; [reflexivity | lia] | lia |].
    unfold in_signed. change (smin 32) with (-2147483648).
    change (smax 32) with 2147483647. lia.
  - intros [= <-]. cbn [global_sum_step with_global_sum_step].
    split; [reflexivity |].
    unfold in_signed in H64. split; [assumption | apply H64].
Qed.

(** ** Overflow and underflow marking *)

Lemma to_signed_idem (w x : Z) : 0 < w -> to_signed w (to_signed w x) = to_signed w x.
Proof. intros Hw. apply to_signed_id; [assumption | apply to_signed_range; assumption]. Qed.

(** The value that an attempt offers to the swap. *)
Lemma add_attempt_stored (cfg : lib_counter_config) (sm : lib_counter_config_sync)
    (counter : lib_counter) (v old : Z) :
  att_n (add_attempt cfg sm counter v old) =
    to_signed (width (counter_size cfg))
      (to_signed (width (counter_size cfg)) (old + v)
       - att_move_sum (add_attempt cfg sm counter v old)).
Proof.
  pose proof (width_pos (counter_size cfg)) as Hw.
  destruct sm; cbn [add_attempt].
  - unfold add_body_percpu. cbn [att_n att_move_sum].
    rewrite to_signed_s64, (to_signed_add_unsigned _ Hw). reflexivity.
  - unfold add_body_global. cbn [att_n att_move_sum].
    rewrite (to_signed_add_unsigned _ Hw), Z.sub_0_r, to_signed_idem by assumption.
    reflexivity.
Qed.

(** The overflow rule is the same for the four cell sizes. *)
Lemma classify_overflow (size : lib_counter_config_size) (v old n : Z) :
  in_signed 64 v ->
  fst (classify size v old n)
  = (v >? 0) && ((v >=? umax (width size)) || (n <? old)).
Proof.
  intros Hv. unfold classify.
  destruct size.
  - change (umax (width COUNTER_SIZE_8_BIT)) with U8_MAX.
    destruct ((v >? 0) && ((v >=? U8_MAX) || (n <? old))); [reflexivity |].
    destruct ((v <? 0) && ((v <=? neg_U8_MAX) || (n >? old))); reflexivity.
  - change (umax (width COUNTER_SIZE_16_BIT)) with U16_MAX.
    destruct ((v >? 0) && ((v >=? U16_MAX) || (n <? old))); [reflexivity |].
    destruct ((v <? 0) && ((v <=? neg_U16_MAX) || (n >? old))); reflexivity.
  - change (umax (width COUNTER_SIZE_32_BIT)) with U32_MAX.
    destruct ((v >? 0) && ((v >=? U32_MAX) || (n <? old))); [reflexivity |].
    destruct ((v <? 0) && ((v <=? neg_U32_MAX) || (n >? old))); reflexivity.
  - assert (Hu : (v >=? umax (width COUNTER_SIZE_64_BIT)) = false).
    { change (umax (width COUNTER_SIZE_64_BIT)) with 18446744073709551615.
      unfold in_signed in Hv. change (smax 64) with 9223372036854775807 in Hv.
      destruct (Z.geb_spec v 18446744073709551615); [lia | reflexivity]. }
    rewrite Hu. cbn [orb].
    destruct ((v >? 0) && (n <? old)); [reflexivity |].
    destruct ((v <? 0) && (n >? old)); reflexivity.
Qed.

(** The underflow rule, for the sizes whose threshold is the negated
    unsigned maximum. *)
Lemma classify_underflow (size : lib_counter_config_size) (v old n : Z) :
  in_signed 64 v ->
  size <> COUNTER_SIZE_32_BIT ->
  snd (classify size v old n)
  = (v <? 0) && ((v <=? - umax (width size)) || (n >? old)).
Proof.
  intros Hv Hsize. unfold classify.
  destruct size; [| | congruence |].
  - change (- umax (width COUNTER_SIZE_8_BIT)) with neg_U8_MAX.
    destruct (Z.gtb_spec v 0) as [Hpos | Hnp]; cbn [andb].
    + destruct (Z.ltb_spec v 0); [lia |]. cbn [andb].
      destruct ((v >=? U8_MAX) || (n <? old)); reflexivity.
    + destruct ((v <? 0) && ((v <=? neg_U8_MAX) || (n >? old))); reflexivity.
  - change (- umax (width COUNTER_SIZE_16_BIT)) with neg_U16_MAX.
    destruct (Z.gtb_spec v 0) as [Hpos | Hnp]; cbn [andb].
    + destruct (Z.ltb_spec v 0); [lia |]. cbn [andb].
      destruct ((v >=? U16_MAX) || (n <? old)); reflexivity.
    + destruct ((v <? 0) && ((v <=? neg_U16_MAX) || (n >? old))); reflexivity.
  - assert (Hu : (v <=? - umax (width COUNTER_SIZE_64_BIT)) = false).
    { change (- umax (width COUNTER_SIZE_64_BIT)) with (-18446744073709551615).
      unfold in_signed in Hv. change (smin 64) with (-9223372036854775808) in Hv.
      destruct (Z.leb_spec v (-18446744073709551615)); [lia | reflexivity]. }
    rewrite Hu. cbn [orb].
    destruct (Z.gtb_spec v 0) as [Hpos | Hnp]; cbn [andb].
    + destruct (Z.ltb_spec v 0); [lia |]. cbn [andb].
      destruct (n <? old); reflexivity.
    + destruct ((v <? 0) && (n >? old)); reflexivity.
Qed.

(** With 32-bit cells the threshold [-U32_MAX] is 1: every negative delta is
    classified as an underflow. *)
Lemma classify_underflow_32 (v old n : Z) :
  v < 0 -> classify COUNTER_SIZE_32_BIT v old n = (false, true).
Proof.
  intros Hv. unfold classify.
  destruct (Z.gtb_spec v 0); [lia |]. cbn [andb].
  destruct (Z.ltb_spec v 0); [| lia]. cbn [andb].
  change neg_U32_MAX with 1.
  destruct (Z.leb_spec v 1); [reflexivity | lia].
Qed.

(** C7 (amended): for every cell width and every add on a cell that the
    selected layout holds, with [old] the value read by the successful
    attempt: the stored value is [old + delta] wrapped at the cell width,
    less the amount returned for the global counter, wrapped again; the
    overflow bit afterwards is its former value or
    [delta > 0 and (delta >= 2^width - 1 or stored < old)]; for 8-, 16- and
    64-bit cells the underflow bit afterwards is its former value or
    [delta < 0 and (delta <= -(2^width - 1) or stored > old)].
    Adding 200 to the 8-bit cell holding 0 stores -56, which is 200 mod 256
    read as a signed byte, and sets the overflow bit, which a later add of 3
    leaves set. *)
Theorem add_stores_and_marks (cfg : lib_counter_config)
    (am : lib_counter_config_alloc) (sm : lib_counter_config_sync)
    (cpu : nat) (env : list Z) (counter : lib_counter) (idxs : list Z) (v : Z)
    (layout : lib_counter_layout) (cell : Z) (ub ob : bool) :
  in_signed 64 v ->
  lttng_counter_get_index cfg counter idxs < allocated_elem counter ->
  get_layout counter (add_target am cpu) = Some layout ->
  cell_at layout (lttng_counter_get_index cfg counter idxs) = Some cell ->
  underflow_at layout (lttng_counter_get_index cfg counter idxs) = Some ub ->
  overflow_at layout (lttng_counter_get_index cfg counter idxs) = Some ob ->
  (exists r layout' stored,
     __lttng_counter_add cfg am sm cpu env counter idxs v = Some r
     /\ get_layout (res_counter r) (add_target am cpu) = Some layout'
     /\ cell_at layout' (lttng_counter_get_index cfg counter idxs) = Some stored
     /\ stored = to_signed (width (counter_size cfg))
                   (to_signed (width (counter_size cfg)) (cas_observed env cell + v)
                    - res_move_sum r)
     /\ overflow_at layout' (lttng_counter_get_index cfg counter idxs)
        = Some (ob || (v >? 0)
                      && ((v >=? umax (width (counter_size cfg)))
                          || (stored <? cas_observed env cell)))
     /\ (counter_size cfg = COUNTER_SIZE_32_BIT
         \/ underflow_at layout' (lttng_counter_get_index cfg counter idxs)
            = Some (ub || (v <? 0)
                          && ((v <=? - umax (width (counter_size cfg)))
                              || (stored >? cas_observed env cell)))))
  /\ cell_at (global_counters (after_add byte_config 0 byte_counter [1] 200)) 1
     = Some (to_signed 8 (200 mod 256))
  /\ to_signed 8 (200 mod 256) = -56
  /\ overflow_at (global_counters (after_add byte_config 0 byte_counter [1] 200)) 1
     = Some true
  /\ overflow_at
       (global_counters
          (after_add byte_config 0
             (after_add byte_config 0 byte_counter [1] 200) [1] 3)) 1
     = Some true.
Proof.
  intros Hv Hlt Hlay Hcell Hub Hob.
  split; [| repeat split; vm_compute; reflexivity].
  rewrite (lttng_counter_add_eq cfg am sm cpu env counter idxs v layout cell
             ub ob Hlt Hlay Hcell Hub Hob).
  cbv zeta. do 3 eexists. split; [reflexivity |].
  cbn [res_counter res_move_sum].
  split; [eapply get_set_layout_same; eassumption |].
  split; [eapply cell_at_layout_after; eassumption |].
  split; [apply add_attempt_stored |].
  rewrite add_attempt_old.
  split.
  - rewrite (overflow_at_layout_after _ _ _ _ _ _ Hob).
    rewrite classify_overflow by assumption.
    rewrite orb_comm. reflexivity.
  - destruct (counter_size cfg) eqn:Hsize; [right | right | left; reflexivity | right].
    all: rewrite (underflow_at_layout_after _ _ _ _ _ _ Hub).
    all: rewrite classify_underflow by (assumption || congruence).
    all: rewrite orb_comm; reflexivity.
Qed.

Lemma add_stores_and_marks_witness :
  (exists r layout' stored,
     __lttng_counter_add byte_config COUNTER_ALLOC_GLOBAL COUNTER_SYNC_GLOBAL
       0 [] byte_counter [1] 200 = Some r
     /\ get_layout (res_counter r) (add_target COUNTER_ALLOC_GLOBAL 0) = Some layout'
     /\ cell_at layout' (lttng_counter_get_index byte_config byte_counter [1])
        = Some stored
     /\ stored = to_signed (width (counter_size byte_config))
                   (to_signed (width (counter_size byte_config))
                      (cas_observed [] 0 + 200)
                    - res_move_sum r)
     /\ overflow_at layout' (lttng_counter_get_index byte_config byte_counter [1])
        = Some (false || (200 >? 0)
                         && ((200 >=? umax (width (counter_size byte_config)))
                             || (stored <? cas_observed [] 0)))
     /\ (counter_size byte_config = COUNTER_SIZE_32_BIT
         \/ underflow_at layout' (lttng_counter_get_index byte_config byte_counter [1])
            = Some (false || (200 <? 0)
                             && ((200 <=? - umax (width (counter_size byte_config)))
                                 || (stored >? cas_observed [] 0)))))
  /\ cell_at (global_counters (after_add byte_config 0 byte_counter [1] 200)) 1
     = Some (to_signed 8 (200 mod 256))
  /\ to_signed 8 (200 mod 256) = -56
  /\ overflow_at (global_counters (after_add byte_config 0 byte_counter [1] 200)) 1
     = Some true
  /\ overflow_at
       (global_counters
          (after_add byte_config 0
             (after_add byte_config 0 byte_counter [1] 200) [1] 3)) 1
     = Some true.
Proof.
  apply (add_stores_and_marks byte_config COUNTER_ALLOC_GLOBAL COUNTER_SYNC_GLOBAL
           0 [] byte_counter [1] 200 (global_counters byte_counter) 0 false false).
  - vm_compute. split; discriminate.
  - vm_compute. reflexivity.
  - reflexivity.
  - vm_compute. reflexivity.
  - vm_compute. reflexivity.
  - vm_compute. reflexivity.
Defined.

(** C7 (counterexample): 8-bit shard-local cell holding 8, step 10, delta 5.
    The sum 13 exceeds the step, 5 is moved out and 8 is stored: the delta is
    positive and the stored value is not greater than the old one, yet the
    overflow bit is not set, since the code asks for a stored value strictly
    below the old one. *)
Lemma overflow_unmarked_on_equal_counterexample :
  (exists layout,
     get_layout shard_counter_below_step (PERCPU_LAYOUT 0) = Some layout
     /\ cell_at layout 1 = Some 8
     /\ overflow_at layout 1 = Some false)
  /\ (exists counter' t layout',
        lttng_counter_add (shard_config COUNTER_SIZE_8_BIT) 0 [] []
          shard_counter_below_step [1] 5 = Some (counter', t)
        /\ get_layout counter' (PERCPU_LAYOUT 0) = Some layout'
        /\ cell_at layout' 1 = Some 8
        /\ overflow_at layout' 1 = Some false)
  /\ 5 > 0 /\ ~ 8 > 8.
Proof.
  split.
  - eexists. split; [vm_compute; reflexivity |]. split; vm_compute; reflexivity.
  - split; [| split; lia].
    do 3 eexists. split; [vm_compute; reflexivity |].
    split; [vm_compute; reflexivity |]. split; vm_compute; reflexivity.
Qed.

(** ** Repeated increments and migration *)

Lemma get_index_same_dimensions (cfg : lib_counter_config) (c c' : lib_counter)
    (idxs : list Z) :
  dimensions c' = dimensions c ->
  lttng_counter_get_index cfg c' idxs = lttng_counter_get_index cfg c idxs.
Proof. unfold lttng_counter_get_index. intros ->. reflexivity. Qed.

Lemma migrations_app (t t' : list event) :
  migrations (t ++ t') = (migrations t + migrations t')%nat.
Proof. unfold migrations. rewrite List.filter_app, length_app. reflexivity. Qed.

Section MigrationRun.

Variable cfg : lib_counter_config.
Variable cpu : nat.
Variable counter : lib_counter.
Variable idxs : list Z.
Hypothesis Halloc : alloc cfg = COUNTER_ALLOC_PER_CPU.
Hypothesis Hsync : sync cfg = COUNTER_SYNC_PER_CPU.
Hypothesis Hstep :
  2 <= global_sum_step counter < smax (width (counter_size cfg)).
Hypothesis Hindex :
  lttng_counter_get_index cfg counter idxs < allocated_elem counter.

Lemma inc_keeps_run_inv (c : lib_counter) (t : list event) :
  run_inv cfg cpu counter idxs c t ->
  exists c' t',
    lttng_counter_inc cfg cpu [] [] c idxs = Some (c', t')
    /\ run_inv cfg cpu counter idxs c' (t ++ t').
Proof.
  intros (Hae & Hdims & Hgss & slayout & shard & sub & sob & gub & gob
          & Hlay & Hcell & Hub & Hob & Hshard & Hg & Hgub & Hgob).
  pose proof (get_index_same_dimensions cfg counter c idxs Hdims) as Hidx.
  pose proof (width_pos (counter_size cfg)) as Hw.
  unfold lttng_counter_inc, lttng_counter_add, __lttng_counter_add_percpu.
  rewrite Halloc, Hsync.
  rewrite (lttng_counter_add_eq cfg COUNTER_ALLOC_PER_CPU COUNTER_SYNC_PER_CPU
             cpu [] c idxs 1 slayout shard sub sob);
    [| rewrite Hidx, Hae; assumption | assumption
     | rewrite Hidx; assumption | rewrite Hidx; assumption
     | rewrite Hidx; assumption].
  cbv zeta. cbn [mbind option_bind res_move_sum res_counter res_trace
                 cas_observed cas_loop snd add_target add_op add_attempt].
  rewrite Hgss, Hidx.
  rewrite (add_body_percpu_eq (counter_size cfg) (global_sum_step counter) 1 shard)
    by lia.
  cbv zeta. cbn [att_old att_n att_move_sum].
  assert (Hn : to_signed (width (counter_size cfg)) (shard + 1) = shard + 1).
  { apply to_signed_id; [assumption |]. unfold in_signed, smin, smax in *.
    pose proof (pow2_half_pos _ Hw). lia. }
  rewrite Hn.
  assert (Hq : global_sum_step counter ÷ 2 = global_sum_step counter / 2)
    by (apply Z.quot_div_nonneg; lia).
  destruct (Z.gtb_spec (shard + 1) (global_sum_step counter)) as [Hgt | Hle].
  - (* migration *)
    assert (Hm : (global_sum_step counter ÷ 2 =? 0) = false).
    { rewrite Hq. apply Z.eqb_neq. 
      assert (1 <= global_sum_step counter / 2) by (apply Z.div_le_lower_bound; lia). lia. }
    rewrite Hm.
    set (L1 := layout_after _ _ _ _ slayout).
    assert (Hidx1 : lttng_counter_get_index cfg (set_layout c (PERCPU_LAYOUT cpu) L1) idxs
                    = lttng_counter_get_index cfg counter idxs)
      by (rewrite get_index_set_layout; assumption).
    rewrite (lttng_counter_add_eq cfg COUNTER_ALLOC_GLOBAL COUNTER_SYNC_GLOBAL cpu []
               (set_layout c (PERCPU_LAYOUT cpu) L1) idxs
               (global_sum_step counter ÷ 2) (global_counters c)
               (to_signed (width (counter_size cfg))
                  (Z.of_nat (migrations t) * (global_sum_step counter ÷ 2)))
               gub gob);
      [| rewrite Hidx1; cbn [set_layout allocated_elem]; rewrite Hae; assumption
       | reflexivity
       | rewrite Hidx1; eassumption
       | rewrite Hidx1; assumption
       | rewrite Hidx1; assumption].
    cbv zeta. cbn [mbind option_bind res_move_sum res_counter res_trace
                   cas_observed cas_loop snd add_target add_op add_attempt
                   add_body_global att_old att_n att_move_sum].
    rewrite Hidx1.
    do 2 eexists. split; [reflexivity |].
    unfold run_inv. cbv zeta.
    split; [exact Hae |]. split; [exact Hdims |]. split; [exact Hgss |].
    exists L1, (shard + 1 - global_sum_step counter ÷ 2).
    do 4 eexists.
    split.
    { cbn [set_layout get_layout percpu_area].
      apply list_lookup_insert_eq. eapply lookup_lt_Some. exact Hlay. }
    split; [subst L1; eapply cell_at_layout_after; eassumption |].
    split; [subst L1; eapply underflow_at_layout_after; eassumption |].
    split; [subst L1; eapply overflow_at_layout_after; eassumption |].
    split.
    { rewrite Hq.
      assert (1 <= global_sum_step counter / 2)
        by (apply Z.div_le_lower_bound; lia).
      assert (global_sum_step counter / 2 <= global_sum_step counter)
        by (apply Z.div_le_upper_bound; lia).
      lia. }
    cbn [set_layout global_counters].
    split.
    { rewrite (cell_at_layout_after _ _ _ _ _ _ Hg). f_equal.
      rewrite (to_signed_add_unsigned _ Hw), to_signed_idem_add.
      f_equal. rewrite !migrations_app. cbn [migrations List.filter is_global_swap length].
      lia. }
    split; [eapply underflow_at_layout_after; eassumption
           | eapply overflow_at_layout_after; eassumption].
  - destruct (Z.ltb_spec (shard + 1) (- global_sum_step counter)); [lia |].
    cbn [Z.eqb]. rewrite Z.sub_0_r.
    do 2 eexists. split; [reflexivity |].
    unfold run_inv. cbv zeta.
    split; [exact Hae |]. split; [exact Hdims |]. split; [exact Hgss |].
    eexists. exists (shard + 1). do 4 eexists.
    split.
    { cbn [set_layout get_layout percpu_area].
      apply list_lookup_insert_eq. eapply lookup_lt_Some. exact Hlay. }
    split; [eapply cell_at_layout_after; eassumption |].
    split; [eapply underflow_at_layout_after; eassumption |].
    split; [eapply overflow_at_layout_after; eassumption |].
    split; [lia |].
    cbn [set_layout global_counters].
    rewrite migrations_app. cbn [migrations List.filter is_global_swap length].
    rewrite Nat.add_0_r.
    split; [exact Hg |]. split; eassumption.
Qed.

Lemma run_keeps_run_inv (count : nat) :
  run_inv cfg cpu counter idxs counter [] ->
  exists c t,
    inc_run count cfg cpu counter idxs = Some (c, t)
    /\ run_inv cfg cpu counter idxs c t.
Proof.
  intros Hinit. induction count as [| count IH].
  - exists counter, []. split; [reflexivity | assumption].
  - destruct IH as (c & t & Hrun & Hinv).
    destruct (inc_keeps_run_inv c t Hinv) as (c' & t' & Hinc & Hinv').
    exists c', (t ++ t'). split; [| assumption].
    cbn [inc_run]. rewrite Hrun. cbn [mbind option_bind fst snd].
    rewrite Hinc. reflexivity.
Qed.

End MigrationRun.

(** C6 (amended): a shard-local configuration ([COUNTER_ALLOC_PER_CPU],
    [COUNTER_SYNC_PER_CPU]) with a step [S] of at least 2 and below the
    maximum of the cell type.  From shard-local and global cells holding 0,
    after any number of uncontended increments on one cpu the shard-local cell
    holds a value between 0 and [S], and the global cell holds [K * (S / 2)]
    wrapped at the cell width, [K] being the number of amounts moved so
    far. *)
Theorem migration_bound (cfg : lib_counter_config) (cpu : nat)
    (counter : lib_counter) (idxs : list Z) (count : nat)
    (slayout : lib_counter_layout) (sub sob gub gob : bool) :
  alloc cfg = COUNTER_ALLOC_PER_CPU ->
  sync cfg = COUNTER_SYNC_PER_CPU ->
  2 <= global_sum_step counter < smax (width (counter_size cfg)) ->
  lttng_counter_get_index cfg counter idxs < allocated_elem counter ->
  get_layout counter (PERCPU_LAYOUT cpu) = Some slayout ->
  cell_at slayout (lttng_counter_get_index cfg counter idxs) = Some 0 ->
  underflow_at slayout (lttng_counter_get_index cfg counter idxs) = Some sub ->
  overflow_at slayout (lttng_counter_get_index cfg counter idxs) = Some sob ->
  cell_at (global_counters counter) (lttng_counter_get_index cfg counter idxs)
    = Some 0 ->
  underflow_at (global_counters counter) (lttng_counter_get_index cfg counter idxs)
    = Some gub ->
  overflow_at (global_counters counter) (lttng_counter_get_index cfg counter idxs)
    = Some gob ->
  exists counter' t slayout' shard,
    inc_run count cfg cpu counter idxs = Some (counter', t)
    /\ get_layout counter' (PERCPU_LAYOUT cpu) = Some slayout'
    /\ cell_at slayout' (lttng_counter_get_index cfg counter idxs) = Some shard
    /\ 0 <= shard <= global_sum_step counter
    /\ cell_at (global_counters counter') (lttng_counter_get_index cfg counter idxs)
       = Some (to_signed (width (counter_size cfg))
                 (Z.of_nat (migrations t) * (global_sum_step counter ÷ 2))).
Proof.
  intros Ha Hs HS Hlt Hlay Hcell Hub Hob Hg Hgub Hgob.
  destruct (run_keeps_run_inv cfg cpu counter idxs Ha Hs HS Hlt count)
    as (c & t & Hrun & Hinv).
  - unfold run_inv. cbv zeta. repeat (split; [reflexivity |]).
    exists slayout, 0, sub, sob, gub, gob.
    repeat (split; [assumption || lia |]).
    split; [| split; assumption].
    rewrite Hg. f_equal. cbn [migrations List.filter length Z.of_nat Z.mul].
    symmetry. apply to_signed_id; [apply width_pos |].
    pose proof (pow2_half_pos _ (width_pos (counter_size cfg))).
    unfold in_signed, smin, smax. lia.
  - destruct Hinv as (_ & _ & _ & slayout' & shard & sub' & sob' & gub' & gob'
                      & Hlay' & Hcell' & _ & _ & Hshard & Hg' & _ & _).
    exists c, t, slayout', shard.
    repeat (split; [assumption |]). assumption.
Qed.

Lemma migration_bound_witness :
  exists counter' t slayout' shard,
    inc_run 25 (shard_config COUNTER_SIZE_8_BIT) 0
      (created (shard_config COUNTER_SIZE_8_BIT) [4] 10 2) [1] = Some (counter', t)
    /\ get_layout counter' (PERCPU_LAYOUT 0) = Some slayout'
    /\ cell_at slayout'
         (lttng_counter_get_index (shard_config COUNTER_SIZE_8_BIT)
            (created (shard_config COUNTER_SIZE_8_BIT) [4] 10 2) [1]) = Some shard
    /\ 0 <= shard <= global_sum_step (created (shard_config COUNTER_SIZE_8_BIT) [4] 10 2)
    /\ cell_at (global_counters counter')
         (lttng_counter_get_index (shard_config COUNTER_SIZE_8_BIT)
            (created (shard_config COUNTER_SIZE_8_BIT) [4] 10 2) [1])
       = Some (to_signed (width (counter_size (shard_config COUNTER_SIZE_8_BIT)))
                 (Z.of_nat (migrations t)
                  * (global_sum_step (created (shard_config COUNTER_SIZE_8_BIT) [4] 10 2)
                     ÷ 2))).
Proof.
  apply (migration_bound (shard_config COUNTER_SIZE_8_BIT) 0
           (created (shard_config COUNTER_SIZE_8_BIT) [4] 10 2) [1] 25
           {| counters := Some [0; 0; 0; 0; 0; 0];
              underflow_bitmap := Some [false; false; false; false; false; false];
              overflow_bitmap := Some [false; false; false; false; false; false] |}
           false false false false).
  - reflexivity.
  - reflexivity.
  - vm_compute. split; [discriminate | reflexivity].
  - vm_compute. reflexivity.
  - vm_compute. reflexivity.
  - vm_compute. reflexivity.
  - vm_compute. reflexivity.
  - vm_compute. reflexivity.
  - vm_compute. reflexivity.
  - vm_compute. reflexivity.
  - vm_compute. reflexivity.
Defined.

(** The run of the witness, evaluated: 25 increments with step 10 move an
    amount three times; the shard-local cell ends at 10, the global at 15. *)
Example migration_run_values :
  exists counter' t slayout',
    inc_run 25 (shard_config COUNTER_SIZE_8_BIT) 0
      (created (shard_config COUNTER_SIZE_8_BIT) [4] 10 2) [1] = Some (counter', t)
    /\ migrations t = 3%nat
    /\ get_layout counter' (PERCPU_LAYOUT 0) = Some slayout'
    /\ cell_at slayout' 1 = Some 10
    /\ cell_at (global_counters counter') 1 = Some 15.
Proof.
  do 3 eexists. split; [vm_compute; reflexivity |].
  repeat split; vm_compute; reflexivity.
Qed.

(** C6 (counterexample): 8-bit cells, increments on cpu 0 from cells
    holding 0.  With step 1 the amount to move is 1 / 2 = 0: after two
    increments the shard-local cell holds 2, above the step.  With step 100,
    after 201 increments three amounts of 50 were moved and the global cell
    holds -106, not 150.  With [COUNTER_SYNC_GLOBAL] and step 2, after three
    increments the shard-local cell holds 3. *)
Lemma migration_bound_counterexample :
  (exists counter' t slayout',
     inc_run 2 (shard_config COUNTER_SIZE_8_BIT) 0
       (created (shard_config COUNTER_SIZE_8_BIT) [4] 1 2) [1] = Some (counter', t)
     /\ global_sum_step counter' = 1
     /\ get_layout counter' (PERCPU_LAYOUT 0) = Some slayout'
     /\ cell_at slayout' 1 = Some 2
     /\ ~ Z.abs 2 <= 1)
  /\ (exists counter' t,
        inc_run 201 (shard_config COUNTER_SIZE_8_BIT) 0
          (created (shard_config COUNTER_SIZE_8_BIT) [4] 100 2) [1]
        = Some (counter', t)
        /\ global_sum_step counter' = 100
        /\ migrations t = 3%nat
        /\ cell_at (global_counters counter') 1 = Some (-106)
        /\ -106 <> 3 * (100 ÷ 2))
  /\ (exists counter' t slayout',
        inc_run 3
          (make_config COUNTER_ALLOC_PER_CPU COUNTER_SYNC_GLOBAL COUNTER_SIZE_8_BIT) 0
          (created
             (make_config COUNTER_ALLOC_PER_CPU COUNTER_SYNC_GLOBAL COUNTER_SIZE_8_BIT)
             [4] 2 2) [1] = Some (counter', t)
        /\ global_sum_step counter' = 2
        /\ get_layout counter' (PERCPU_LAYOUT 0) = Some slayout'
        /\ cell_at slayout' 1 = Some 3
        /\ ~ Z.abs 3 <= 2).
Proof.
  split; [| split].
  - do 3 eexists. split; [vm_compute; reflexivity |].
    split; [reflexivity |]. split; [vm_compute; reflexivity |].
    split; [vm_compute; reflexivity | lia].
  - do 2 eexists. split; [vm_compute; reflexivity |].
    split; [reflexivity |]. split; [vm_compute; reflexivity |].
    split; [vm_compute; reflexivity | discriminate].
  - do 3 eexists. split; [vm_compute; reflexivity |].
    split; [reflexivity |]. split; [vm_compute; reflexivity |].
    split; [vm_compute; reflexivity | lia].
Qed.

(** ** Aggregation *)

(** Once set, the overflow flag survives the rest of the loop. *)
Lemma aggregate_loop_overflow_kept (ncpus : nat) (cfg : lib_counter_config)
    (counter : lib_counter) (idxs : list Z) (cpus : list nat)
    (sum : Z) (u : bool) (ret sum' : Z) (o' u' : bool) :
  aggregate_loop ncpus cfg counter idxs cpus sum true u = Some (ret, sum', o', u') ->
  o' = true.
Proof.
  revert sum u. induction cpus as [| cpu cpus IH]; intros sum u; cbn [aggregate_loop].
  - intros [= _ _ <- _]. reflexivity.
  - destruct (lttng_counter_read ncpus cfg counter idxs (Z.of_nat cpu) aggregate_locals)
      as [[r locals] |]; cbn [mbind option_bind]; [| discriminate].
    destruct (r <? 0); [intros [= _ _ <- _]; reflexivity |].
    cbn [orb].
    repeat match goal with
           | |- context [if ?c then _ else _] => destruct c
           end; apply IH.
Qed.

(** A shard whose read reports the overflow bit sets the flag of every
    aggregation loop that runs over it to its end. *)
Lemma aggregate_loop_overflow_shard (ncpus : nat) (cfg : lib_counter_config)
    (counter : lib_counter) (idxs : list Z) (cpus : list nat) (cpu : nat)
    (r : Z) (locals : out_params)
    (sum : Z) (o u : bool) (sum' : Z) (o' u' : bool) :
  In cpu cpus ->
  lttng_counter_read ncpus cfg counter idxs (Z.of_nat cpu) aggregate_locals
    = Some (r, locals) ->
  out_overflow locals = true ->
  aggregate_loop ncpus cfg counter idxs cpus sum o u = Some (0, sum', o', u') ->
  o' = true.
Proof.
  intros Hin Hread Hov. revert sum o u.
  induction cpus as [| c cpus IH]; intros sum o u; [destruct Hin |].
  cbn [aggregate_loop].
  destruct Hin as [-> | Hin].
  - rewrite Hread. cbn [mbind option_bind].
    destruct (Z.ltb_spec r 0) as [Hneg | _]; [intros [= -> _ _ _]; lia |].
    rewrite Hov, orb_true_r.
    repeat match goal with
           | |- context [if ?c then _ else _] => destruct c
           end; apply aggregate_loop_overflow_kept.
  - destruct (lttng_counter_read ncpus cfg counter idxs (Z.of_nat c) aggregate_locals)
      as [[rc lc] |]; cbn [mbind option_bind]; [| discriminate].
    destruct (Z.ltb_spec rc 0) as [Hneg | _]; [intros [= -> _ _ _]; lia |].
    repeat match goal with
           | |- context [if ?c then _ else _] => destruct c
           end; apply IH; assumption.
Qed.

(** The flags of an aggregation that succeeds: the overflow flag is set as
    soon as one shard reports its overflow bit. *)
Lemma aggregate_overflow_propagates (ncpus : nat) (cfg : lib_counter_config)
    (counter : lib_counter) (idxs : list Z) (cpu : nat)
    (r : Z) (locals out out' : out_params) :
  alloc cfg = COUNTER_ALLOC_PER_CPU ->
  (cpu < ncpus)%nat ->
  lttng_counter_read ncpus cfg counter idxs (Z.of_nat cpu) aggregate_locals
    = Some (r, locals) ->
  out_overflow locals = true ->
  lttng_counter_aggregate ncpus cfg counter idxs out = Some (0, out') ->
  out_overflow out' = true.
Proof.
  intros Ha Hcpu Hread Hov. unfold lttng_counter_aggregate.
  destruct (lttng_counter_read ncpus cfg counter idxs (-1) aggregate_locals)
    as [[rg lg] |]; cbn [mbind option_bind]; [| discriminate].
  destruct (Z.ltb_spec rg 0) as [Hneg | _]; [intros [= -> _]; lia |].
  rewrite Ha.
  destruct (aggregate_loop _ _ _ _ _ _ _ _) as [[[[ret' sum'] o'] u'] |] eqn:Hloop;
    cbn [mbind option_bind]; [| discriminate].
  intros [= -> <-]. cbn [out_overflow].
  eapply aggregate_loop_overflow_shard; [| exact Hread | exact Hov | exact Hloop].
  apply in_seq. lia.
Qed.

(** C8 (what the code does): [lttng_counter_aggregate] never assigns the
    caller's [*value]: whatever the counter and the indexes, the value on
    return is the value on entry.  On two shards incremented three times each,
    with no amount moved, the two shard-local cells hold 3 and the global cell
    0, and an aggregation entered with 42 in [*value] returns 0 (success) with
    42 still there, not the sum 6. *)
Theorem aggregate_leaves_value :
  (forall ncpus cfg counter idxs out,
     match lttng_counter_aggregate ncpus cfg counter idxs out with
     | Some (_, out') => out_value out' = out_value out
     | None => True
     end)
  /\ lttng_counter_read 2 (shard_config COUNTER_SIZE_32_BIT) two_shards_counter
       [1] 0 aggregate_locals
     = Some (0, {| out_value := 3; out_overflow := false; out_underflow := false |})
  /\ lttng_counter_read 2 (shard_config COUNTER_SIZE_32_BIT) two_shards_counter
       [1] 1 aggregate_locals
     = Some (0, {| out_value := 3; out_overflow := false; out_underflow := false |})
  /\ lttng_counter_read 2 (shard_config COUNTER_SIZE_32_BIT) two_shards_counter
       [1] (-1) aggregate_locals
     = Some (0, {| out_value := 0; out_overflow := false; out_underflow := false |})
  /\ aggregate_loop 2 (shard_config COUNTER_SIZE_32_BIT) two_shards_counter
       [1] (seq 0 2) 0 false false
     = Some (0, 6, false, false)
  /\ lttng_counter_aggregate 2 (shard_config COUNTER_SIZE_32_BIT) two_shards_counter
       [1] {| out_value := 42; out_overflow := false; out_underflow := false |}
     = Some (0, {| out_value := 42; out_overflow := false; out_underflow := false |}).
Proof.
  split; [| repeat split; vm_compute; reflexivity].
  intros ncpus cfg counter idxs out.
  unfold lttng_counter_aggregate.
  destruct (lttng_counter_read ncpus cfg counter idxs (-1) aggregate_locals)
    as [[ret locals] |]; cbn [mbind option_bind]; [| exact I].
  destruct (ret <? 0); [reflexivity |].
  destruct (alloc cfg); [| reflexivity].
  destruct (aggregate_loop _ _ _ _ _ _ _ _) as [[[[ret' sum] o] u] |];
    cbn [mbind option_bind]; [reflexivity | exact I].
Qed.

(** ** Reading *)

Lemma s64_range (x : Z) : in_signed 64 (s64 x).
Proof. apply to_signed_range. lia. Qed.

Lemma get_index_loop_range (dims : list lib_counter_dimension) (idxs : list Z)
    (acc : Z) :
  in_signed 64 acc -> in_signed 64 (get_index_loop dims idxs acc).
Proof.
  revert idxs acc. induction dims as [| d dims IH]; intros idxs acc Hacc.
  - destruct idxs; assumption.
  - destruct idxs as [| i idxs]; [assumption |].
    cbn [get_index_loop]. apply IH. apply s64_range.
Qed.

Lemma get_index_range (cfg : lib_counter_config) (counter : lib_counter)
    (idxs : list Z) :
  in_signed 64 (lttng_counter_get_index cfg counter idxs).
Proof.
  apply get_index_loop_range. unfold in_signed, smin, smax. simpl. lia.
Qed.

Lemma usize_nonneg (x : Z) : 0 <= x <= smax 64 -> usize x = x.
Proof.
  intros H. unfold usize, to_unsigned. apply Z.mod_small.
  change (smax 64) with 9223372036854775807 in H.
  change (2 ^ 64) with 18446744073709551616. lia.
Qed.

Lemma usize_negative (x : Z) : smin 64 <= x < 0 -> usize x = x + 2 ^ 64.
Proof.
  intros H. unfold usize, to_unsigned.
  change (smin 64) with (-9223372036854775808) in H.
  change (2 ^ 64) with 18446744073709551616.
  rewrite <- (Z_mod_plus_full x 1 18446744073709551616).
  apply Z.mod_small. lia.
Qed.

(** X1: [lttng_counter_read] compares the flat offset with
    [allocated_elem] as unsigned numbers: a negative offset, like an offset of
    [allocated_elem] or more, makes it return [-EOVERFLOW] and leave the three
    output parameters as they were, whatever the cpu asked for. *)
Theorem read_rejects_offsets_outside (ncpus : nat) (cfg : lib_counter_config)
    (counter : lib_counter) (idxs : list Z) (cpu : Z) (out : out_params) :
  0 <= allocated_elem counter <= smax 64 ->
  lttng_counter_get_index cfg counter idxs < 0
  \/ allocated_elem counter <= lttng_counter_get_index cfg counter idxs ->
  lttng_counter_read ncpus cfg counter idxs cpu out = Some (- EOVERFLOW, out).
Proof.
  intros Hae Hout. unfold lttng_counter_read.
  pose proof (get_index_range cfg counter idxs) as Hr.
  set (i := lttng_counter_get_index cfg counter idxs) in *.
  rewrite (usize_nonneg (allocated_elem counter)) by assumption.
  unfold in_signed in Hr.
  destruct (Z.geb_spec (usize i) (allocated_elem counter)) as [_ | Hlt];
    [reflexivity |].
  exfalso. destruct Hout as [Hneg | Hge].
  - rewrite usize_negative in Hlt by lia.
    change (smax 64) with 9223372036854775807 in Hae.
    change (2 ^ 64) with 18446744073709551616 in Hlt.
    change (smin 64) with (-9223372036854775808) in Hr. lia.
  - rewrite usize_nonneg in Hlt by lia. lia.
Qed.

Lemma read_rejects_offsets_outside_witness :
  lttng_counter_read 1 sample_config (created sample_config [4] 0 1) [-3] (-1)
    aggregate_locals = Some (- EOVERFLOW, aggregate_locals).
Proof.
  apply (read_rejects_offsets_outside 1 sample_config
           (created sample_config [4] 0 1) [-3] (-1) aggregate_locals).
  - vm_compute. split; discriminate.
  - left. vm_compute. reflexivity.
Defined.

Lemma read_in_range (ncpus : nat) (cfg : lib_counter_config)
    (counter : lib_counter) (idxs : list Z) :
  0 <= lttng_counter_get_index cfg counter idxs < allocated_elem counter ->
  allocated_elem counter <= smax 64 ->
  usize (lttng_counter_get_index cfg counter idxs)
    = lttng_counter_get_index cfg counter idxs
  /\ (usize (lttng_counter_get_index cfg counter idxs)
        >=? usize (allocated_elem counter)) = false.
Proof.
  intros Hi Hae.
  rewrite !usize_nonneg by lia. split; [reflexivity |].
  destruct (Z.geb_spec (lttng_counter_get_index cfg counter idxs)
              (allocated_elem counter)); [lia | reflexivity].
Qed.

(** X2: with an offset in range, [lttng_counter_read] returns [-EINVAL] and
    leaves the output parameters as they were when the cpu asked for is not a
    possible cpu of a per-cpu counter, or is any cpu (0 or more) of a counter
    with global allocation. *)
Theorem read_rejects_invalid_cpu (ncpus : nat) (cfg : lib_counter_config)
    (counter : lib_counter) (idxs : list Z) (cpu : Z) (out : out_params) :
  0 <= lttng_counter_get_index cfg counter idxs < allocated_elem counter ->
  allocated_elem counter <= smax 64 ->
  (alloc cfg = COUNTER_ALLOC_PER_CPU /\ Z.of_nat ncpus <= cpu)
  \/ (alloc cfg = COUNTER_ALLOC_GLOBAL /\ 0 <= cpu) ->
  lttng_counter_read ncpus cfg counter idxs cpu out = Some (- EINVAL, out).
Proof.
  intros Hi Hae Hsel. unfold lttng_counter_read.
  destruct (read_in_range ncpus cfg counter idxs Hi Hae) as [_ ->].
  destruct Hsel as [[-> Hcpu] | [-> Hcpu]].
  - destruct (Z.geb_spec cpu 0); [| lia].
    destruct (Z.geb_spec cpu (Z.of_nat ncpus)); [reflexivity | lia].
  - destruct (Z.geb_spec cpu 0); [reflexivity | lia].
Qed.

Lemma read_rejects_invalid_cpu_witness :
  lttng_counter_read 1 sample_config (created sample_config [4] 0 1) [1] 0
    aggregate_locals = Some (- EINVAL, aggregate_locals).
Proof.
  apply (read_rejects_invalid_cpu 1 sample_config (created sample_config [4] 0 1)
           [1] 0 aggregate_locals).
  - vm_compute. split; [discriminate | reflexivity].
  - vm_compute. discriminate.
  - right. split; [reflexivity | lia].
Defined.

(** A read of a cell that the selected layout holds. *)
Lemma read_eq (ncpus : nat) (cfg : lib_counter_config)
    (counter : lib_counter) (idxs : list Z) (cpu : nat) (out : out_params)
    (layout : lib_counter_layout) (cell : Z) (ub ob : bool) :
  0 <= lttng_counter_get_index cfg counter idxs < allocated_elem counter ->
  allocated_elem counter <= smax 64 ->
  (cpu < ncpus)%nat ->
  get_layout counter (add_target (alloc cfg) cpu) = Some layout ->
  cell_at layout (lttng_counter_get_index cfg counter idxs) = Some cell ->
  underflow_at layout (lttng_counter_get_index cfg counter idxs) = Some ub ->
  overflow_at layout (lttng_counter_get_index cfg counter idxs) = Some ob ->
  lttng_counter_read ncpus cfg counter idxs (read_selector (alloc cfg) cpu) out
  = Some (0, {| out_value := s64 (to_signed (width (counter_size cfg)) cell);
                out_overflow := ob; out_underflow := ub |}).
Proof.
  intros Hi Hae Hcpu Hlay Hcell Hub Hob. unfold lttng_counter_read.
  destruct (read_in_range ncpus cfg counter idxs Hi Hae) as [-> ->].
  unfold cell_at, underflow_at, overflow_at in *.
  destruct (alloc cfg); cbn [read_selector add_target] in *.
  - destruct (Z.geb_spec (Z.of_nat cpu) 0); [| lia].
    destruct (Z.geb_spec (Z.of_nat cpu) (Z.of_nat ncpus)); [lia |].
    rewrite Nat2Z.id, Hlay. cbn [mbind option_bind].
    rewrite Hcell. cbn [mbind option_bind].
    rewrite Hob. cbn [mbind option_bind]. rewrite Hub. reflexivity.
  - cbn. cbn in Hlay. injection Hlay as <-.
    rewrite Hcell. cbn [mbind option_bind].
    rewrite Hob. cbn [mbind option_bind]. rewrite Hub. reflexivity.
Qed.

(** ** Adds without migration *)

(** Under [COUNTER_SYNC_GLOBAL] the primitive returns 0, so the per-cpu entry
    point stops after the first add: the entry point in closed form, for
    both allocation modes. *)
Lemma add_sync_global_eq (cfg : lib_counter_config) (cpu : nat)
    (env env_global : list Z) (counter : lib_counter) (idxs : list Z) (v : Z)
    (layout : lib_counter_layout) (cell : Z) (ub ob : bool) :
  sync cfg = COUNTER_SYNC_GLOBAL ->
  lttng_counter_get_index cfg counter idxs < allocated_elem counter ->
  get_layout counter (add_target (alloc cfg) cpu) = Some layout ->
  cell_at layout (lttng_counter_get_index cfg counter idxs) = Some cell ->
  underflow_at layout (lttng_counter_get_index cfg counter idxs) = Some ub ->
  overflow_at layout (lttng_counter_get_index cfg counter idxs) = Some ob ->
  exists ovf unf t,
    lttng_counter_add cfg cpu env env_global counter idxs v
    = Some (set_layout counter (add_target (alloc cfg) cpu)
              (layout_after (lttng_counter_get_index cfg counter idxs)
                 (to_signed (width (counter_size cfg)) (cas_observed env cell + v))
                 ovf unf layout),
            t).
Proof.
  intros Hs Hlt Hlay Hcell Hub Hob.
  pose proof (lttng_counter_add_eq cfg (alloc cfg) COUNTER_SYNC_GLOBAL cpu env
                counter idxs v layout cell ub ob Hlt Hlay Hcell Hub Hob) as Heq.
  cbv zeta in Heq.
  cbn [add_attempt add_body_global att_n att_old att_move_sum] in Heq.
  rewrite (to_signed_add_unsigned _ (width_pos _)) in Heq.
  unfold lttng_counter_add, __lttng_counter_add_percpu, __lttng_counter_add_global.
  rewrite Hs.
  destruct (alloc cfg); rewrite Heq; cbn [mbind option_bind res_move_sum Z.eqb
                                            res_counter res_trace];
    do 3 eexists; reflexivity.
Qed.

Lemma s64_to_signed (size : lib_counter_config_size) (x : Z) :
  s64 (to_signed (width size) x) = to_signed (width size) x.
Proof.
  apply to_signed_id; [lia |].
  eapply in_signed_mono; [apply width_le_64 |].
  apply to_signed_range, width_pos.
Qed.

(** X3: with [COUNTER_SYNC_GLOBAL], in either allocation mode, an add on a
    cell that the layout holds followed by [lttng_counter_read] of the same
    cell (the cpu's layout of a per-cpu counter, cpu -1 of a global one)
    returns 0 and the value read by the add plus the delta, wrapped at the
    cell width. *)
Theorem read_after_add (ncpus : nat) (cfg : lib_counter_config) (cpu : nat)
    (env env_global : list Z) (counter : lib_counter) (idxs : list Z) (v : Z)
    (layout : lib_counter_layout) (cell : Z) (ub ob : bool) (out : out_params) :
  sync cfg = COUNTER_SYNC_GLOBAL ->
  0 <= lttng_counter_get_index cfg counter idxs < allocated_elem counter ->
  allocated_elem counter <= smax 64 ->
  (cpu < ncpus)%nat ->
  get_layout counter (add_target (alloc cfg) cpu) = Some layout ->
  cell_at layout (lttng_counter_get_index cfg counter idxs) = Some cell ->
  underflow_at layout (lttng_counter_get_index cfg counter idxs) = Some ub ->
  overflow_at layout (lttng_counter_get_index cfg counter idxs) = Some ob ->
  exists counter' t out',
    lttng_counter_add cfg cpu env env_global counter idxs v = Some (counter', t)
    /\ lttng_counter_read ncpus cfg counter' idxs (read_selector (alloc cfg) cpu) out
       = Some (0, out')
    /\ out_value out'
       = to_signed (width (counter_size cfg)) (cas_observed env cell + v).
Proof.
  intros Hs Hi Hae Hcpu Hlay Hcell Hub Hob.
  destruct (add_sync_global_eq cfg cpu env env_global counter idxs v layout cell
              ub ob Hs (proj2 Hi) Hlay Hcell Hub Hob) as (ovf & unf & t & Hadd).
  do 3 eexists. split; [exact Hadd |].
  set (L' := layout_after _ _ ovf unf layout).
  set (c' := set_layout counter (add_target (alloc cfg) cpu) L').
  assert (Hidx : lttng_counter_get_index cfg c' idxs
                 = lttng_counter_get_index cfg counter idxs)
    by apply get_index_set_layout.
  assert (Hae' : allocated_elem c' = allocated_elem counter)
    by apply set_layout_frame.
  rewrite (read_eq ncpus cfg c' idxs cpu out L'
             (to_signed (width (counter_size cfg)) (cas_observed env cell + v))
             (unf || ub) (ovf || ob)).
  - split; [reflexivity |]. cbn [out_value].
    rewrite to_signed_idem by apply width_pos. apply s64_to_signed.
  - rewrite Hidx, Hae'. assumption.
  - rewrite Hae'. assumption.
  - assumption.
  - eapply get_set_layout_same; eassumption.
  - rewrite Hidx. eapply cell_at_layout_after; eassumption.
  - rewrite Hidx. eapply underflow_at_layout_after; eassumption.
  - rewrite Hidx. eapply overflow_at_layout_after; eassumption.
Qed.

Lemma read_after_add_witness :
  exists counter' t out',
    lttng_counter_add byte_config 0 [] [] byte_counter [1] 5 = Some (counter', t)
    /\ lttng_counter_read 1 byte_config counter' [1]
         (read_selector (alloc byte_config) 0) aggregate_locals
       = Some (0, out')
    /\ out_value out'
       = to_signed (width (counter_size byte_config)) (cas_observed [] 0 + 5).
Proof.
  apply (read_after_add 1 byte_config 0 [] [] byte_counter [1] 5
           (global_counters byte_counter) 0 false false aggregate_locals).
  - reflexivity.
  - vm_compute. split; [discriminate | reflexivity].
  - vm_compute. discriminate.
  - lia.
  - reflexivity.
  - vm_compute. reflexivity.
  - vm_compute. reflexivity.
  - vm_compute. reflexivity.
Defined.

(** Two uncontended adds in a row on one cell: each stores its wrapped
    sum. *)
Lemma two_adds_sync_global (cfg : lib_counter_config) (cpu : nat)
    (counter : lib_counter) (idxs : list Z) (v1 v2 : Z)
    (layout : lib_counter_layout) (cell : Z) (ub ob : bool) :
  sync cfg = COUNTER_SYNC_GLOBAL ->
  lttng_counter_get_index cfg counter idxs < allocated_elem counter ->
  get_layout counter (add_target (alloc cfg) cpu) = Some layout ->
  cell_at layout (lttng_counter_get_index cfg counter idxs) = Some cell ->
  underflow_at layout (lttng_counter_get_index cfg counter idxs) = Some ub ->
  overflow_at layout (lttng_counter_get_index cfg counter idxs) = Some ob ->
  exists counter1 t1 counter2 t2 layout2,
    lttng_counter_add cfg cpu [] [] counter idxs v1 = Some (counter1, t1)
    /\ lttng_counter_add cfg cpu [] [] counter1 idxs v2 = Some (counter2, t2)
    /\ get_layout counter2 (add_target (alloc cfg) cpu) = Some layout2
    /\ cell_at layout2 (lttng_counter_get_index cfg counter idxs)
       = Some (to_signed (width (counter_size cfg))
                 (to_signed (width (counter_size cfg)) (cell + v1) + v2)).
Proof.
  intros Hs Hlt Hlay Hcell Hub Hob.
  destruct (add_sync_global_eq cfg cpu [] [] counter idxs v1 layout cell
              ub ob Hs Hlt Hlay Hcell Hub Hob) as (ovf & unf & t1 & Hadd1).
  cbn [cas_observed] in Hadd1.
  set (L1 := layout_after _ _ ovf unf layout) in Hadd1.
  set (c1 := set_layout counter (add_target (alloc cfg) cpu) L1) in Hadd1.
  assert (Hidx : lttng_counter_get_index cfg c1 idxs
                 = lttng_counter_get_index cfg counter idxs)
    by apply get_index_set_layout.
  assert (Hae : allocated_elem c1 = allocated_elem counter)
    by apply set_layout_frame.
  destruct (add_sync_global_eq cfg cpu [] [] c1 idxs v2 L1
              (to_signed (width (counter_size cfg)) (cell + v1))
              (unf || ub) (ovf || ob) Hs) as (ovf2 & unf2 & t2 & Hadd2).
  - rewrite Hidx, Hae. assumption.
  - eapply get_set_layout_same; eassumption.
  - rewrite Hidx. eapply cell_at_layout_after; eassumption.
  - rewrite Hidx. eapply underflow_at_layout_after; eassumption.
  - rewrite Hidx. eapply overflow_at_layout_after; eassumption.
  - cbn [cas_observed] in Hadd2. rewrite Hidx in Hadd2.
    do 5 eexists. split; [exact Hadd1 |]. split; [exact Hadd2 |].
    split.
    + eapply get_set_layout_same. eapply get_set_layout_same. eassumption.
    + erewrite cell_at_layout_after
        by (eapply cell_at_layout_after; eassumption).
      reflexivity.
Qed.

(** X4: with [COUNTER_SYNC_GLOBAL], two uncontended adds of [v1] then [v2]
    on the same cell leave it holding the former value plus [v1 + v2], wrapped
    at the cell width: the wrap of the first add does not lose anything. *)
Theorem adds_accumulate (cfg : lib_counter_config) (cpu : nat)
    (counter : lib_counter) (idxs : list Z) (v1 v2 : Z)
    (layout : lib_counter_layout) (cell : Z) (ub ob : bool) :
  sync cfg = COUNTER_SYNC_GLOBAL ->
  lttng_counter_get_index cfg counter idxs < allocated_elem counter ->
  get_layout counter (add_target (alloc cfg) cpu) = Some layout ->
  cell_at layout (lttng_counter_get_index cfg counter idxs) = Some cell ->
  underflow_at layout (lttng_counter_get_index cfg counter idxs) = Some ub ->
  overflow_at layout (lttng_counter_get_index cfg counter idxs) = Some ob ->
  exists counter1 t1 counter2 t2 layout2,
    lttng_counter_add cfg cpu [] [] counter idxs v1 = Some (counter1, t1)
    /\ lttng_counter_add cfg cpu [] [] counter1 idxs v2 = Some (counter2, t2)
    /\ get_layout counter2 (add_target (alloc cfg) cpu) = Some layout2
    /\ cell_at layout2 (lttng_counter_get_index cfg counter idxs)
       = Some (to_signed (width (counter_size cfg)) (cell + v1 + v2)).
Proof.
  intros Hs Hlt Hlay Hcell Hub Hob.
  destruct (two_adds_sync_global cfg cpu counter idxs v1 v2 layout cell ub ob
              Hs Hlt Hlay Hcell Hub Hob)
    as (c1 & t1 & c2 & t2 & L2 & H1 & H2 & HL2 & Hc2).
  exists c1, t1, c2, t2, L2.
  repeat (split; [assumption |]).
  rewrite Hc2, to_signed_idem_add. reflexivity.
Qed.

Lemma adds_accumulate_witness :
  exists counter1 t1 counter2 t2 layout2,
    lttng_counter_add byte_config 0 [] [] byte_counter [1] 100 = Some (counter1, t1)
    /\ lttng_counter_add byte_config 0 [] [] counter1 [1] 100 = Some (counter2, t2)
    /\ get_layout counter2 (add_target (alloc byte_config) 0) = Some layout2
    /\ cell_at layout2 (lttng_counter_get_index byte_config byte_counter [1])
       = Some (to_signed (width (counter_size byte_config)) (0 + 100 + 100)).
Proof.
  apply (adds_accumulate byte_config 0 byte_counter [1] 100 100
           (global_counters byte_counter) 0 false false).
  - reflexivity.
  - vm_compute. reflexivity.
  - reflexivity.
  - vm_compute. reflexivity.
  - vm_compute. reflexivity.
  - vm_compute. reflexivity.
Defined.

(** X5: with [COUNTER_SYNC_GLOBAL], [lttng_counter_inc] followed by
    [lttng_counter_dec] on a cell gives the cell its former value back, also
    when the increment wraps. *)
Theorem dec_undoes_inc (cfg : lib_counter_config) (cpu : nat)
    (counter : lib_counter) (idxs : list Z)
    (layout : lib_counter_layout) (cell : Z) (ub ob : bool) :
  sync cfg = COUNTER_SYNC_GLOBAL ->
  in_signed (width (counter_size cfg)) cell ->
  lttng_counter_get_index cfg counter idxs < allocated_elem counter ->
  get_layout counter (add_target (alloc cfg) cpu) = Some layout ->
  cell_at layout (lttng_counter_get_index cfg counter idxs) = Some cell ->
  underflow_at layout (lttng_counter_get_index cfg counter idxs) = Some ub ->
  overflow_at layout (lttng_counter_get_index cfg counter idxs) = Some ob ->
  exists counter1 t1 counter2 t2 layout2,
    lttng_counter_inc cfg cpu [] [] counter idxs = Some (counter1, t1)
    /\ lttng_counter_dec cfg cpu [] [] counter1 idxs = Some (counter2, t2)
    /\ get_layout counter2 (add_target (alloc cfg) cpu) = Some layout2
    /\ cell_at layout2 (lttng_counter_get_index cfg counter idxs) = Some cell.
Proof.
  intros Hs Hin Hlt Hlay Hcell Hub Hob.
  destruct (two_adds_sync_global cfg cpu counter idxs 1 (-1) layout cell ub ob
              Hs Hlt Hlay Hcell Hub Hob)
    as (c1 & t1 & c2 & t2 & L2 & H1 & H2 & HL2 & Hc2).
  exists c1, t1, c2, t2, L2. unfold lttng_counter_inc, lttng_counter_dec.
  repeat (split; [assumption |]).
  rewrite Hc2, to_signed_idem_add. f_equal.
  replace (cell + 1 + -1) with cell by lia.
  apply to_signed_id; [apply width_pos | assumption].
Qed.

Lemma dec_undoes_inc_witness :
  exists counter1 t1 counter2 t2 layout2,
    lttng_counter_inc byte_config 0 [] []
      (after_add byte_config 0 byte_counter [1] 127) [1] = Some (counter1, t1)
    /\ lttng_counter_dec byte_config 0 [] [] counter1 [1] = Some (counter2, t2)
    /\ get_layout counter2 (add_target (alloc byte_config) 0) = Some layout2
    /\ cell_at layout2
         (lttng_counter_get_index byte_config
            (after_add byte_config 0 byte_counter [1] 127) [1]) = Some 127.
Proof.
  apply (dec_undoes_inc byte_config 0
           (after_add byte_config 0 byte_counter [1] 127) [1]
           (global_counters (after_add byte_config 0 byte_counter [1] 127))
           127 false false).
  - reflexivity.
  - vm_compute. split; discriminate.
  - vm_compute. reflexivity.
  - reflexivity.
  - vm_compute. reflexivity.
  - vm_compute. reflexivity.
  - vm_compute. reflexivity.
Defined.

(** ** Adds of a per-cpu counter *)

Lemma to_signed_idem_add_r (w a b : Z) :
  to_signed w (a + to_signed w b) = to_signed w (a + b).
Proof. rewrite (Z.add_comm a), to_signed_idem_add, Z.add_comm. reflexivity. Qed.

(** X6: on a per-cpu counter, whatever the synchronisation mode and the
    step, an uncontended [lttng_counter_add] of [v] changes the sum of the
    cpu's cell and of the global cell by [v], modulo the cell width: what the
    migration takes out of the cpu's cell is what it puts in the global
    cell. *)
Theorem add_conserves_total (cfg : lib_counter_config) (cpu : nat)
    (counter : lib_counter) (idxs : list Z) (v : Z)
    (layout : lib_counter_layout) (shard global : Z) (sub sob gub gob : bool) :
  alloc cfg = COUNTER_ALLOC_PER_CPU ->
  lttng_counter_get_index cfg counter idxs < allocated_elem counter ->
  get_layout counter (PERCPU_LAYOUT cpu) = Some layout ->
  cell_at layout (lttng_counter_get_index cfg counter idxs) = Some shard ->
  underflow_at layout (lttng_counter_get_index cfg counter idxs) = Some sub ->
  overflow_at layout (lttng_counter_get_index cfg counter idxs) = Some sob ->
  cell_at (global_counters counter) (lttng_counter_get_index cfg counter idxs)
    = Some global ->
  underflow_at (global_counters counter) (lttng_counter_get_index cfg counter idxs)
    = Some gub ->
  overflow_at (global_counters counter) (lttng_counter_get_index cfg counter idxs)
    = Some gob ->
  exists counter' t layout' shard' global',
    lttng_counter_add cfg cpu [] [] counter idxs v = Some (counter', t)
    /\ get_layout counter' (PERCPU_LAYOUT cpu) = Some layout'
    /\ cell_at layout' (lttng_counter_get_index cfg counter idxs) = Some shard'
    /\ cell_at (global_counters counter') (lttng_counter_get_index cfg counter idxs)
       = Some global'
    /\ to_signed (width (counter_size cfg)) (shard' + global')
       = to_signed (width (counter_size cfg)) (shard + global + v).
Proof.
  intros Ha Hlt Hlay Hcell Hub Hob Hg Hgub Hgob.
  pose proof (width_pos (counter_size cfg)) as Hw.
  unfold lttng_counter_add, __lttng_counter_add_percpu. rewrite Ha.
  rewrite (lttng_counter_add_eq cfg COUNTER_ALLOC_PER_CPU (sync cfg) cpu []
             counter idxs v layout shard sub sob Hlt Hlay Hcell Hub Hob).
  cbv zeta. cbn [mbind option_bind res_move_sum res_counter res_trace
                 cas_observed add_target].
  set (a := add_attempt cfg (sync cfg) counter v shard).
  pose proof (add_attempt_stored cfg (sync cfg) counter v shard) as Hst.
  fold a in Hst.
  set (L1 := layout_after _ (att_n a) _ _ layout).
  destruct (Z.eqb_spec (att_move_sum a) 0) as [Hm | Hm].
  - exists (set_layout counter (PERCPU_LAYOUT cpu) L1). eexists.
    exists L1, (att_n a), global.
    split; [reflexivity |].
    split; [eapply get_set_layout_same; eassumption |].
    split; [eapply cell_at_layout_after; eassumption |].
    split; [exact Hg |].
    rewrite Hst, Hm, Z.sub_0_r, to_signed_idem by assumption.
    rewrite to_signed_idem_add. f_equal. lia.
  - assert (Hidx1 :
      lttng_counter_get_index cfg (set_layout counter (PERCPU_LAYOUT cpu) L1) idxs
      = lttng_counter_get_index cfg counter idxs)
      by apply get_index_set_layout.
    rewrite (lttng_counter_add_eq cfg COUNTER_ALLOC_GLOBAL COUNTER_SYNC_GLOBAL cpu []
               (set_layout counter (PERCPU_LAYOUT cpu) L1) idxs (att_move_sum a)
               (global_counters counter) global gub gob);
      [| rewrite Hidx1; exact Hlt | reflexivity
       | rewrite Hidx1; exact Hg | rewrite Hidx1; exact Hgub
       | rewrite Hidx1; exact Hgob].
    cbv zeta. cbn [mbind option_bind res_move_sum res_counter res_trace
                   cas_observed add_target add_attempt add_body_global
                   att_n att_old att_move_sum].
    rewrite Hidx1.
    do 2 eexists. exists L1, (att_n a). eexists.
    split; [reflexivity |].
    split.
    { cbn [set_layout get_layout percpu_area].
      apply list_lookup_insert_eq. eapply lookup_lt_Some. exact Hlay. }
    split; [eapply cell_at_layout_after; eassumption |].
    cbn [set_layout global_counters].
    split; [eapply cell_at_layout_after; exact Hg |].
    rewrite (to_signed_add_unsigned _ Hw).
    rewrite to_signed_idem_add_r, Hst, to_signed_idem_add.
    replace (to_signed (width (counter_size cfg)) (shard + v) - att_move_sum a
             + (global + att_move_sum a))
      with (to_signed (width (counter_size cfg)) (shard + v) + global) by lia.
    rewrite to_signed_idem_add. f_equal. lia.
Qed.

Lemma add_conserves_total_witness :
  exists counter' t layout' shard' global',
    lttng_counter_add (shard_config COUNTER_SIZE_8_BIT) 0 [] []
      shard_counter_at_step [1] 1 = Some (counter', t)
    /\ get_layout counter' (PERCPU_LAYOUT 0) = Some layout'
    /\ cell_at layout'
         (lttng_counter_get_index (shard_config COUNTER_SIZE_8_BIT)
            shard_counter_at_step [1]) = Some shard'
    /\ cell_at (global_counters counter')
         (lttng_counter_get_index (shard_config COUNTER_SIZE_8_BIT)
            shard_counter_at_step [1]) = Some global'
    /\ to_signed (width (counter_size (shard_config COUNTER_SIZE_8_BIT)))
         (shard' + global')
       = to_signed (width (counter_size (shard_config COUNTER_SIZE_8_BIT)))
           (10 + 0 + 1).
Proof.
  apply (add_conserves_total (shard_config COUNTER_SIZE_8_BIT) 0
           shard_counter_at_step [1] 1
           {| counters := Some [0; 10; 0; 0; 0; 0];
              underflow_bitmap := Some [false; false; false; false; false; false];
              overflow_bitmap := Some [false; false; false; false; false; false] |}
           10 0 false false false false).
  - reflexivity.
  - vm_compute. reflexivity.
  - vm_compute. reflexivity.
  - vm_compute. reflexivity.
  - vm_compute. reflexivity.
  - vm_compute. reflexivity.
  - vm_compute. reflexivity.
  - vm_compute. reflexivity.
  - vm_compute. reflexivity.
Defined.

(** X7: when the flat offset is [allocated_elem] or more, [lttng_counter_add]
    warns once and returns the counter as it was, in both allocation modes:
    nothing is written, and a per-cpu counter makes no second add. *)
Theorem add_beyond_allocated_is_noop (cfg : lib_counter_config) (cpu : nat)
    (env env_global : list Z) (counter : lib_counter) (idxs : list Z) (v : Z) :
  allocated_elem counter <= lttng_counter_get_index cfg counter idxs ->
  lttng_counter_add cfg cpu env env_global counter idxs v
  = Some (counter, [EV_WARN_ON_ONCE]).
Proof.
  intros Hge.
  assert (Hp : forall am sm e,
             __lttng_counter_add cfg am sm cpu e counter idxs v
             = Some {| res_counter := counter; res_move_sum := 0;
                       res_trace := [EV_WARN_ON_ONCE] |}).
  { intros am sm e. unfold __lttng_counter_add.
    destruct (Z.geb_spec (lttng_counter_get_index cfg counter idxs)
                (allocated_elem counter)); [reflexivity | lia]. }
  unfold lttng_counter_add, __lttng_counter_add_percpu, __lttng_counter_add_global.
  destruct (alloc cfg); rewrite Hp; reflexivity.
Qed.

Lemma add_beyond_allocated_is_noop_witness :
  lttng_counter_add byte_config 0 [] [] byte_counter [6] 1
  = Some (byte_counter, [EV_WARN_ON_ONCE]).
Proof.
  apply (add_beyond_allocated_is_noop byte_config 0 [] [] byte_counter [6] 1).
  vm_compute. discriminate.
Defined.

Lemma cas_loop_attempts (op : Z -> Z -> event) (body : Z -> attempt)
    (env : list Z) (res : Z) :
  (1 <= length (snd (cas_loop op body env res)) <= S (length env))%nat.
Proof.
  revert res. induction env as [| x env IH]; intros res; cbn [cas_loop].
  - cbn. lia.
  - destruct (x =? att_old (body res)).
    + cbn. lia.
    + specialize (IH x). destruct (cas_loop op body env x) as [r t].
      cbn in *. lia.
Qed.

(** X8: the retry loop of [__lttng_counter_add] attempts the swap at least
    once and at most once more than the number of writes by others that hit
    the cell meanwhile; every attempt is a swap of the configured kind on the
    selected layout at the resolved offset.  Without interference there is
    exactly one swap. *)
Theorem add_retries_bounded (cfg : lib_counter_config)
    (am : lib_counter_config_alloc) (sm : lib_counter_config_sync)
    (cpu : nat) (env : list Z) (counter : lib_counter) (idxs : list Z) (v : Z)
    (layout : lib_counter_layout) (cell : Z) (ub ob : bool) :
  lttng_counter_get_index cfg counter idxs < allocated_elem counter ->
  get_layout counter (add_target am cpu) = Some layout ->
  cell_at layout (lttng_counter_get_index cfg counter idxs) = Some cell ->
  underflow_at layout (lttng_counter_get_index cfg counter idxs) = Some ub ->
  overflow_at layout (lttng_counter_get_index cfg counter idxs) = Some ob ->
  exists r,
    __lttng_counter_add cfg am sm cpu env counter idxs v = Some r
    /\ (1 <= length (res_trace r) <= S (length env))%nat
    /\ Forall (fun e => exists old n,
                 e = add_op sm (add_target am cpu)
                       (lttng_counter_get_index cfg counter idxs) old n)
         (res_trace r).
Proof.
  intros Hlt Hlay Hcell Hub Hob.
  rewrite (lttng_counter_add_eq cfg am sm cpu env counter idxs v layout cell
             ub ob Hlt Hlay Hcell Hub Hob).
  cbv zeta. eexists. split; [reflexivity |]. cbn [res_trace].
  split; [apply cas_loop_attempts | apply cas_loop_trace].
Qed.

Lemma add_retries_bounded_witness :
  exists r,
    __lttng_counter_add byte_config COUNTER_ALLOC_GLOBAL COUNTER_SYNC_GLOBAL 0
      [7; 9] byte_counter [1] 1 = Some r
    /\ (1 <= length (res_trace r) <= S (length [7; 9]))%nat
    /\ Forall (fun e => exists old n,
                 e = add_op COUNTER_SYNC_GLOBAL (add_target COUNTER_ALLOC_GLOBAL 0)
                       (lttng_counter_get_index byte_config byte_counter [1]) old n)
         (res_trace r).
Proof.
  apply (add_retries_bounded byte_config COUNTER_ALLOC_GLOBAL COUNTER_SYNC_GLOBAL
           0 [7; 9] byte_counter [1] 1 (global_counters byte_counter) 0 false false).
  - vm_compute. reflexivity.
  - reflexivity.
  - vm_compute. reflexivity.
  - vm_compute. reflexivity.
  - vm_compute. reflexivity.
Defined.

(** ** What an add leaves alone *)

Lemma array_set_inv {A : Type} (p : option (list A)) (q : list A)
    (index : Z) (x : A) :
  array_set p index x = Some q ->
  exists l, p = Some l /\ q = <[Z.to_nat index := x]> l /\ 0 <= index.
Proof.
  unfold array_set. destruct (array_get p index) eqn:Hget; [| discriminate].
  apply array_get_Some in Hget as [Hpos (l & -> & _)].
  intros [= <-]. exists l. split; [reflexivity |]. split; [reflexivity | assumption].
Qed.

Lemma array_get_insert_other {A : Type} (l : list A) (index j : Z) (x : A) :
  0 <= index -> j <> index ->
  array_get (Some (<[Z.to_nat index := x]> l)) j = array_get (Some l) j.
Proof.
  intros Hpos Hne. unfold array_get.
  destruct (Z.ltb_spec j 0); [reflexivity |].
  apply list_lookup_insert_ne. lia.
Qed.

Lemma array_get_insert_true (l : list bool) (index j : Z) :
  0 <= index ->
  array_get (Some l) j = Some true ->
  array_get (Some (<[Z.to_nat index := true]> l)) j = Some true.
Proof.
  intros Hpos Hj. destruct (Z.eq_dec j index) as [-> | Hne].
  - eapply array_get_insert. eassumption.
  - rewrite array_get_insert_other by assumption. assumption.
Qed.

Lemma layout_kept_outside_refl (index : Z) (layout : lib_counter_layout) :
  layout_kept_outside index layout layout.
Proof. intros j _. repeat split. Qed.

Lemma flags_kept_refl (layout : lib_counter_layout) : flags_kept layout layout.
Proof. intros j. split; trivial. Qed.

Lemma mark_bitmaps_effect (index : Z) (ovf unf : bool)
    (layout layout' : lib_counter_layout) :
  mark_bitmaps index ovf unf layout = Some layout' ->
  counters layout' = counters layout
  /\ layout_kept_outside index layout layout'
  /\ flags_kept layout layout'.
Proof.
  assert (Hset_o : forall bm,
    set_bit index (overflow_bitmap layout) = Some bm ->
    let L' := {| counters := counters layout;
                 underflow_bitmap := underflow_bitmap layout;
                 overflow_bitmap := Some bm |} in
    counters L' = counters layout
    /\ layout_kept_outside index layout L' /\ flags_kept layout L').
  { intros bm Hbm L'. unfold set_bit in Hbm.
    apply array_set_inv in Hbm as (l & Hl & -> & Hpos).
    split; [reflexivity |]. split.
    - intros j Hj. unfold cell_at, overflow_at, underflow_at, test_bit. cbn.
      rewrite Hl. repeat split. apply array_get_insert_other; assumption.
    - intros j. unfold overflow_at, underflow_at, test_bit. cbn. rewrite Hl.
      split; [apply array_get_insert_true; assumption | trivial]. }
  assert (Hset_u : forall bm,
    set_bit index (underflow_bitmap layout) = Some bm ->
    let L' := {| counters := counters layout;
                 underflow_bitmap := Some bm;
                 overflow_bitmap := overflow_bitmap layout |} in
    counters L' = counters layout
    /\ layout_kept_outside index layout L' /\ flags_kept layout L').
  { intros bm Hbm L'. unfold set_bit in Hbm.
    apply array_set_inv in Hbm as (l & Hl & -> & Hpos).
    split; [reflexivity |]. split.
    - intros j Hj. unfold cell_at, overflow_at, underflow_at, test_bit. cbn.
      rewrite Hl. repeat split. apply array_get_insert_other; assumption.
    - intros j. unfold overflow_at, underflow_at, test_bit. cbn. rewrite Hl.
      split; [trivial | apply array_get_insert_true; assumption]. }
  pose proof (layout_kept_outside_refl index layout) as Hrefl.
  pose proof (flags_kept_refl layout) as Hfl.
  unfold mark_bitmaps.
  destruct ovf, unf;
    repeat match goal with
           | |- context [test_bit ?i ?p] => destruct (test_bit i p) as [[|] |]
           | |- context [set_bit ?i ?p] =>
               let E := fresh "E" in destruct (set_bit i p) eqn:E
           end; cbn [mbind option_bind negb];
    try discriminate; intros [= <-]; auto.
Qed.

Lemma layout_id_eq_or_ne (a b : layout_id) : a = b \/ a <> b.
Proof.
  destruct a as [| n], b as [| m]; try (right; discriminate); [left; reflexivity |].
  destruct (Nat.eq_dec n m) as [-> | Hne]; [left; reflexivity | right; congruence].
Qed.

(** The effect of the primitive on the whole counter. *)
Lemma primitive_effect (cfg : lib_counter_config)
    (am : lib_counter_config_alloc) (sm : lib_counter_config_sync)
    (cpu : nat) (env : list Z) (counter : lib_counter) (idxs : list Z) (v : Z)
    (r : add_result) :
  __lttng_counter_add cfg am sm cpu env counter idxs v = Some r ->
  allocated_elem (res_counter r) = allocated_elem counter
  /\ dimensions (res_counter r) = dimensions counter
  /\ global_sum_step (res_counter r) = global_sum_step counter
  /\ forall lid layout,
       get_layout counter lid = Some layout ->
       exists layout',
         get_layout (res_counter r) lid = Some layout'
         /\ layout_kept_outside (lttng_counter_get_index cfg counter idxs)
              layout layout'
         /\ flags_kept layout layout'
         /\ (lid <> add_target am cpu -> layout' = layout).
Proof.
  unfold __lttng_counter_add. fold (add_target am cpu).
  set (index := lttng_counter_get_index cfg counter idxs).
  destruct (index >=? allocated_elem counter).
  { intros [= <-]. cbn [res_counter]. repeat split.
    intros lid layout Hl. exists layout.
    split; [assumption |]. split; [apply layout_kept_outside_refl |].
    split; [apply flags_kept_refl | reflexivity]. }
  destruct (get_layout counter (add_target am cpu)) as [L |] eqn:HL;
    cbn [mbind option_bind]; [| discriminate].
  destruct (array_get (counters L) index) as [res |] eqn:Hres;
    cbn [mbind option_bind]; [| discriminate].
  match goal with
  | |- context [let '(a, t) := ?loop in _] => destruct loop as [a t]
  end.
  destruct (array_set (counters L) index (att_n a)) as [cells |] eqn:Hcells;
    cbn [mbind option_bind]; [| discriminate].
  destruct (classify (counter_size cfg) v (att_old a) (att_n a)) as [ovf unf].
  match goal with
  | |- context [mark_bitmaps ?i ?o ?u ?l] =>
      destruct (mark_bitmaps i o u l) as [L' |] eqn:Hmark
  end; cbn [mbind option_bind]; [| discriminate].
  intros [= <-]. cbn [res_counter].
  destruct (set_layout_frame counter (add_target am cpu) L') as (Ha & Hd & Hg).
  split; [assumption |]. split; [assumption |]. split; [assumption |].
  apply mark_bitmaps_effect in Hmark as (Hc & Hko & Hfk).
  cbn [counters] in Hc.
  pose proof Hcells as Hinv. apply array_set_inv in Hinv as (l & Hl & -> & Hpos).
  intros lid layout Hlid.
  destruct (layout_id_eq_or_ne lid (add_target am cpu)) as [-> | Hne].
  - rewrite HL in Hlid. injection Hlid as <-.
    exists L'. split; [eapply get_set_layout_same; eassumption |].
    split; [| split; [| congruence]].
    + intros j Hj. destruct (Hko j Hj) as (_ & Ho & Hu).
      unfold overflow_at, underflow_at, test_bit in *. cbn in Ho, Hu.
      split; [| split; assumption].
      unfold cell_at. rewrite Hc, Hl. apply array_get_insert_other; assumption.
    + intros j. destruct (Hfk j) as [Ho Hu].
      unfold overflow_at, underflow_at, test_bit in *. cbn in Ho, Hu.
      split; assumption.
  - exists layout. rewrite get_set_layout_other by congruence.
    split; [assumption |]. split; [apply layout_kept_outside_refl |].
    split; [apply flags_kept_refl | reflexivity].
Qed.

Lemma layout_kept_outside_trans (index : Z) (l1 l2 l3 : lib_counter_layout) :
  layout_kept_outside index l1 l2 -> layout_kept_outside index l2 l3 ->
  layout_kept_outside index l1 l3.
Proof.
  intros H12 H23 j Hj. destruct (H12 j Hj) as (a & b & c).
  destruct (H23 j Hj) as (a' & b' & c'). repeat split; congruence.
Qed.

Lemma flags_kept_trans (l1 l2 l3 : lib_counter_layout) :
  flags_kept l1 l2 -> flags_kept l2 l3 -> flags_kept l1 l3.
Proof.
  intros H12 H23 j. destruct (H12 j) as [a b]. destruct (H23 j) as [a' b'].
  split; auto.
Qed.

(** The effect of the entry point: one or two runs of the primitive. *)
Lemma add_effect (cfg : lib_counter_config) (cpu : nat)
    (env env_global : list Z) (counter counter' : lib_counter)
    (idxs : list Z) (v : Z) (t : list event) :
  lttng_counter_add cfg cpu env env_global counter idxs v = Some (counter', t) ->
  allocated_elem counter' = allocated_elem counter
  /\ dimensions counter' = dimensions counter
  /\ global_sum_step counter' = global_sum_step counter
  /\ forall lid layout,
       get_layout counter lid = Some layout ->
       exists layout',
         get_layout counter' lid = Some layout'
         /\ layout_kept_outside (lttng_counter_get_index cfg counter idxs)
              layout layout'
         /\ flags_kept layout layout'
         /\ (lid <> GLOBAL_LAYOUT -> lid <> PERCPU_LAYOUT cpu -> layout' = layout).
Proof.
  unfold lttng_counter_add, __lttng_counter_add_percpu, __lttng_counter_add_global.
  destruct (alloc cfg) eqn:Ha.
  - destruct (__lttng_counter_add cfg COUNTER_ALLOC_PER_CPU (sync cfg) cpu env
                counter idxs v) as [r |] eqn:H1; cbn [mbind option_bind];
      [| discriminate].
    apply primitive_effect in H1 as (Hae & Hd & Hg & Hl).
    destruct (res_move_sum r =? 0).
    + intros [= <- <-]. repeat (split; [assumption |]).
      intros lid layout Hlid. destruct (Hl lid layout Hlid) as (L' & HL' & Hk & Hf & Hsame).
      exists L'. repeat (split; [assumption |]). intros _ Hne. apply Hsame. exact Hne.
    + destruct (__lttng_counter_add cfg COUNTER_ALLOC_GLOBAL COUNTER_SYNC_GLOBAL cpu
                  env_global (res_counter r) idxs (res_move_sum r)) as [r' |] eqn:H2;
        cbn [mbind option_bind]; [| discriminate].
      apply primitive_effect in H2 as (Hae' & Hd' & Hg' & Hl').
      rewrite (get_index_same_dimensions cfg counter (res_counter r) idxs Hd) in Hl'.
      intros [= <- <-].
      split; [congruence |]. split; [congruence |]. split; [congruence |].
      intros lid layout Hlid.
      destruct (Hl lid layout Hlid) as (L1 & HL1 & Hk1 & Hf1 & Hsame1).
      destruct (Hl' lid L1 HL1) as (L2 & HL2 & Hk2 & Hf2 & Hsame2).
      exists L2. split; [assumption |].
      split; [eapply layout_kept_outside_trans; eassumption |].
      split; [eapply flags_kept_trans; eassumption |].
      intros Hng Hnp. rewrite Hsame2 by exact Hng. apply Hsame1. exact Hnp.
  - destruct (__lttng_counter_add cfg COUNTER_ALLOC_GLOBAL (sync cfg) cpu env
                counter idxs v) as [r |] eqn:H1; cbn [mbind option_bind];
      [| discriminate].
    apply primitive_effect in H1 as (Hae & Hd & Hg & Hl).
    intros [= <- <-]. repeat (split; [assumption |]).
    intros lid layout Hlid. destruct (Hl lid layout Hlid) as (L' & HL' & Hk & Hf & Hsame).
    exists L'. repeat (split; [assumption |]). intros Hne _. apply Hsame. exact Hne.
Qed.

(** X9: a [lttng_counter_add] that completes keeps [allocated_elem], the
    dimensions and the step; in every layout it leaves the cells and the two
    flags of all offsets other than the resolved one as they were; and it
    leaves the layouts of the other cpus untouched. *)
Theorem add_touches_one_offset (cfg : lib_counter_config) (cpu : nat)
    (env env_global : list Z) (counter counter' : lib_counter)
    (idxs : list Z) (v : Z) (t : list event) :
  lttng_counter_add cfg cpu env env_global counter idxs v = Some (counter', t) ->
  allocated_elem counter' = allocated_elem counter
  /\ dimensions counter' = dimensions counter
  /\ global_sum_step counter' = global_sum_step counter
  /\ forall lid layout,
       get_layout counter lid = Some layout ->
       exists layout',
         get_layout counter' lid = Some layout'
         /\ layout_kept_outside (lttng_counter_get_index cfg counter idxs)
              layout layout'
         /\ (lid <> GLOBAL_LAYOUT -> lid <> PERCPU_LAYOUT cpu -> layout' = layout).
Proof.
  intros Hadd. apply add_effect in Hadd as (Hae & Hd & Hg & Hl).
  repeat (split; [assumption |]).
  intros lid layout Hlid. destruct (Hl lid layout Hlid) as (L' & HL' & Hk & _ & Hsame).
  exists L'. repeat (split; [assumption |]). assumption.
Qed.

Lemma add_touches_one_offset_witness :
  allocated_elem (after_add byte_config 0 byte_counter [1] 5)
    = allocated_elem byte_counter
  /\ dimensions (after_add byte_config 0 byte_counter [1] 5)
     = dimensions byte_counter
  /\ global_sum_step (after_add byte_config 0 byte_counter [1] 5)
     = global_sum_step byte_counter
  /\ forall lid layout,
       get_layout byte_counter lid = Some layout ->
       exists layout',
         get_layout (after_add byte_config 0 byte_counter [1] 5) lid = Some layout'
         /\ layout_kept_outside
              (lttng_counter_get_index byte_config byte_counter [1]) layout layout'
         /\ (lid <> GLOBAL_LAYOUT -> lid <> PERCPU_LAYOUT 0 -> layout' = layout).
Proof.
  apply (add_touches_one_offset byte_config 0 [] [] byte_counter
           (after_add byte_config 0 byte_counter [1] 5) [1] 5
           [EV_cmpxchg GLOBAL_LAYOUT 1 0 5]).
  vm_compute. reflexivity.
Defined.

(** X10: a [lttng_counter_add] that completes never clears a flag: in every
    layout, every overflow or underflow bit that was set is still set, at
    every offset. *)
Theorem add_never_clears_flags (cfg : lib_counter_config) (cpu : nat)
    (env env_global : list Z) (counter counter' : lib_counter)
    (idxs : list Z) (v : Z) (t : list event)
    (lid : layout_id) (layout : lib_counter_layout) :
  lttng_counter_add cfg cpu env env_global counter idxs v = Some (counter', t) ->
  get_layout counter lid = Some layout ->
  exists layout',
    get_layout counter' lid = Some layout' /\ flags_kept layout layout'.
Proof.
  intros Hadd Hlid. apply add_effect in Hadd as (_ & _ & _ & Hl).
  destruct (Hl lid layout Hlid) as (L' & HL' & _ & Hf & _).
  exists L'. split; assumption.
Qed.

Lemma add_never_clears_flags_witness :
  exists layout',
    get_layout
      (after_add byte_config 0 (after_add byte_config 0 byte_counter [1] 200) [1] 3)
      GLOBAL_LAYOUT = Some layout'
    /\ flags_kept
         (global_counters (after_add byte_config 0 byte_counter [1] 200)) layout'.
Proof.
  apply (add_never_clears_flags byte_config 0 [] []
           (after_add byte_config 0 byte_counter [1] 200)
           (after_add byte_config 0 (after_add byte_config 0 byte_counter [1] 200)
              [1] 3)
           [1] 3 [EV_cmpxchg GLOBAL_LAYOUT 1 (-56) (-53)] GLOBAL_LAYOUT
           (global_counters (after_add byte_config 0 byte_counter [1] 200))).
  - vm_compute. reflexivity.
  - reflexivity.
Defined.


(** ** Strides and flat offsets *)


Lemma dims_size_pos (dims : list lib_counter_dimension) :
  nonneg_dims dims -> 1 <= dims_size dims.
Proof.
  induction 1 as [| d dims Hd _ IH]; cbn [dims_size]; [lia | nia].
Qed.

Lemma s64_small (x : Z) : 0 <= x <= smax 64 -> s64 x = x.
Proof.
  intros H. apply to_signed_id; [lia |].
  unfold in_signed. change (smin 64) with (-9223372036854775808). lia.
Qed.

Lemma nr_elements_small (d : lib_counter_dimension) :
  0 <= max_nr_elem d -> max_nr_elem d + 2 <= smax 64 ->
  lttng_counter_get_dimension_nr_elements d = max_nr_elem d + 2.
Proof.
  intros H0 H1. unfold lttng_counter_get_dimension_nr_elements.
  apply usize_nonneg. lia.
Qed.

(** The stride reached by the loop of [lttng_counter_init_stride] is the
    size spanned by the dimensions, and the loop keeps the element counts. *)
Lemma init_stride_loop_size (dims : list lib_counter_dimension) :
  nonneg_dims dims -> dims_size dims <= smax 64 ->
  snd (init_stride_loop dims) = dims_size dims
  /\ dims_size (fst (init_stride_loop dims)) = dims_size dims
  /\ nonneg_dims (fst (init_stride_loop dims)).
Proof.
  induction 1 as [| d dims Hd Hds IH]; intros Hsize; cbn [init_stride_loop dims_size] in *.
  - repeat split. constructor.
  - pose proof (dims_size_pos dims Hds) as Hpos.
    assert (Hinner : dims_size dims <= smax 64) by nia.
    destruct (IH Hinner) as (Hsnd & Hfst & Hnn).
    destruct (init_stride_loop dims) as [inner' acc]. cbn [fst snd] in *.
    subst acc. cbn [dims_size max_nr_elem].
    rewrite nr_elements_small by nia.
    split; [| split].
    + rewrite usize_nonneg by nia. lia.
    + rewrite Hfst. reflexivity.
    + constructor; assumption.
Qed.

(** The product computed by the loop of [lttng_counter_create]. *)
Lemma nr_elem_loop_size (dims : list lib_counter_dimension) (acc : Z) :
  nonneg_dims dims -> 0 <= acc -> acc * dims_size dims <= smax 64 ->
  nr_elem_loop dims acc = acc * dims_size dims.
Proof.
  intros Hnn. revert acc.
  induction Hnn as [| d dims Hd Hds IH]; intros acc Hacc Hsize;
    cbn [nr_elem_loop dims_size] in *; [lia |].
  pose proof (dims_size_pos dims Hds) as Hpos.
  destruct (Z.eq_dec acc 0) as [-> | Hne].
  - rewrite Z.mul_0_l. change (usize 0) with 0. rewrite IH; lia.
  - rewrite nr_elements_small by nia.
    rewrite usize_nonneg by nia.
    rewrite IH by nia. ring.
Qed.

(** Offsets of indexes that lie within the dimensions: the offset stays
    within the span that follows the accumulator. *)
Lemma get_index_loop_bounds (dims : list lib_counter_dimension) :
  nonneg_dims dims ->
  forall idxs acc,
    Forall2 in_dimension dims idxs ->
    0 <= acc -> acc + dims_size dims <= smax 64 + 1 ->
    acc <= get_index_loop (fst (init_stride_loop dims)) idxs acc
        < acc + dims_size dims.
Proof.
  induction 1 as [| d dims Hd Hds IH]; intros idxs acc Hin Hacc Hsize.
  - inversion Hin; subst. cbn. lia.
  - inversion Hin as [| d' i dims' idxs' Hi Hrest]; subst.
    pose proof (dims_size_pos dims Hds) as Hpos.
    cbn [dims_size] in Hsize. unfold in_dimension in Hi.
    assert (Hinner : dims_size dims <= smax 64) by nia.
    destruct (init_stride_loop_size dims Hds Hinner) as (Hsnd & _ & _).
    cbn [init_stride_loop].
    destruct (init_stride_loop dims) as [inner' s] eqn:Hloop.
    cbn [fst snd] in *. subst s.
    cbn [get_index_loop stride].
    rewrite (s64_small (dims_size dims)) by lia.
    rewrite (s64_small (i * dims_size dims)) by nia.
    rewrite (s64_small (acc + i * dims_size dims)) by nia.
    specialize (IH idxs' (acc + i * dims_size dims) Hrest).
    cbn [fst] in IH.
    cbn [dims_size].
    assert (acc + i * dims_size dims + dims_size dims <= smax 64 + 1) by nia.
    specialize (IH ltac:(nia) ltac:(assumption)). nia.
Qed.

Lemma get_index_loop_injective (dims : list lib_counter_dimension) :
  nonneg_dims dims ->
  forall idxs idxs' acc,
    Forall2 in_dimension dims idxs -> Forall2 in_dimension dims idxs' ->
    0 <= acc -> acc + dims_size dims <= smax 64 + 1 ->
    get_index_loop (fst (init_stride_loop dims)) idxs acc
    = get_index_loop (fst (init_stride_loop dims)) idxs' acc ->
    idxs = idxs'.
Proof.
  induction 1 as [| d dims Hd Hds IH]; intros idxs idxs' acc Hin Hin' Hacc Hsize Heq.
  - inversion Hin; inversion Hin'; subst. reflexivity.
  - inversion Hin as [| d1 i dims1 rest Hi Hrest]; subst.
    inversion Hin' as [| d2 i' dims2 rest' Hi' Hrest']; subst.
    pose proof (dims_size_pos dims Hds) as Hpos.
    cbn [dims_size] in Hsize. unfold in_dimension in Hi, Hi'.
    assert (Hinner : dims_size dims <= smax 64) by nia.
    destruct (init_stride_loop_size dims Hds Hinner) as (Hsnd & _ & _).
    pose proof (get_index_loop_bounds dims Hds rest (acc + i * dims_size dims) Hrest)
      as Hb.
    pose proof (get_index_loop_bounds dims Hds rest' (acc + i' * dims_size dims) Hrest')
      as Hb'.
    cbn [init_stride_loop] in Heq.
    destruct (init_stride_loop dims) as [inner' s] eqn:Hloop.
    cbn [fst snd] in *. subst s.
    cbn [get_index_loop stride] in Heq.
    rewrite (s64_small (dims_size dims)) in Heq by lia.
    rewrite (s64_small (i * dims_size dims)) in Heq by nia.
    rewrite (s64_small (i' * dims_size dims)) in Heq by nia.
    rewrite (s64_small (acc + i * dims_size dims)) in Heq by nia.
    rewrite (s64_small (acc + i' * dims_size dims)) in Heq by nia.
    specialize (Hb ltac:(nia) ltac:(nia)).
    specialize (Hb' ltac:(nia) ltac:(nia)).
    assert (i = i') by nia. subst i'.
    f_equal.
    eapply (IH rest rest' (acc + i * dims_size dims)); try assumption; nia.
Qed.


(** ** Creation and release *)

Lemma klog_add_spec (e : kevent) (k : kernel) :
  klog (snd (klog_add e k)) = klog k ++ [e]
  /\ num_possible_cpus (snd (klog_add e k)) = num_possible_cpus k
  /\ null_percpu_area (snd (klog_add e k)) = null_percpu_area k.
Proof. repeat split. Qed.

Lemma kalloc_spec (site : alloc_site) (k : kernel) :
  exists ok k1,
    kalloc site k = (ok, k1)
    /\ klog k1 = klog k ++ [K_alloc site ok]
    /\ num_possible_cpus k1 = num_possible_cpus k
    /\ null_percpu_area k1 = null_percpu_area k.
Proof. do 2 eexists. split; [reflexivity |]. repeat split. Qed.

Lemma kfree_spec (site : alloc_site) (b : bool) (k : kernel) :
  klog (snd (kfree site b k)) = klog k ++ (if b then [K_free site] else [])
  /\ num_possible_cpus (snd (kfree site b k)) = num_possible_cpus k.
Proof. destruct b; cbn; rewrite ?app_nil_r; split; reflexivity. Qed.

Lemma allocated_sites_app (l1 l2 : list kevent) :
  allocated_sites (l1 ++ l2) = allocated_sites l1 ++ allocated_sites l2.
Proof. apply omap_app. Qed.

Lemma freed_sites_app (l1 l2 : list kevent) :
  freed_sites (l1 ++ l2) = freed_sites l1 ++ freed_sites l2.
Proof. apply omap_app. Qed.

Lemma failed_allocations_app (l1 l2 : list kevent) :
  failed_allocations (l1 ++ l2) = failed_allocations l1 ++ failed_allocations l2.
Proof. apply omap_app. Qed.

Lemma update_layout_frame (counter : lib_counter) (lid : layout_id)
    (f : lib_counter_layout -> lib_counter_layout) :
  allocated_elem (update_layout counter lid f) = allocated_elem counter
  /\ dimensions (update_layout counter lid f) = dimensions counter
  /\ global_sum_step (update_layout counter lid f) = global_sum_step counter
  /\ config (update_layout counter lid f) = config counter
  /\ percpu_counters (update_layout counter lid f) = percpu_counters counter
  /\ (forall lid', lid <> lid' ->
        get_layout (update_layout counter lid f) lid' = get_layout counter lid')
  /\ get_layout (update_layout counter lid f) lid = f <$> get_layout counter lid.
Proof.
  unfold update_layout.
  destruct (get_layout counter lid) as [L |] eqn:HL.
  - destruct lid; cbn; repeat split;
      try (intros lid' Hne; apply (get_set_layout_other counter _ lid' _ Hne)).
    cbn in HL. apply list_lookup_insert_eq. eapply lookup_lt_Some. eassumption.
  - repeat split. cbn. rewrite HL. reflexivity.
Qed.

Lemma update_layout_compose (counter : lib_counter) (lid : layout_id)
    (f g : lib_counter_layout -> lib_counter_layout) :
  update_layout (update_layout counter lid f) lid g
  = update_layout counter lid (fun layout => g (f layout)).
Proof.
  pose proof (update_layout_frame counter lid f) as (_ & _ & _ & _ & _ & _ & Hget).
  unfold update_layout at 1. rewrite Hget.
  unfold update_layout.
  destruct (get_layout counter lid) as [L |] eqn:HL; cbn [fmap option_fmap option_map].
  - destruct lid; cbn; [reflexivity |].
    rewrite list_insert_insert_eq. reflexivity.
  - reflexivity.
Qed.

Lemma sites_of_alloc (site : alloc_site) :
  allocated_sites [K_alloc site true] = [site]
  /\ allocated_sites [K_alloc site false] = []
  /\ failed_allocations [K_alloc site true] = []
  /\ failed_allocations [K_alloc site false] = [site]
  /\ (forall ok, freed_sites [K_alloc site ok] = [])
  /\ allocated_sites [K_free site] = []
  /\ failed_allocations [K_free site] = []
  /\ freed_sites [K_free site] = [site].
Proof. repeat split. Qed.

(** What one run of [lttng_counter_layout_init] does to the counter and to
    the log. *)
Lemma layout_init_effect (counter : lib_counter) (cpu : Z) (k : kernel) :
  exists ret counter' k',
    lttng_counter_layout_init counter cpu k = ((ret, counter'), k')
    /\ (allocated_elem counter' = allocated_elem counter
        /\ dimensions counter' = dimensions counter
        /\ global_sum_step counter' = global_sum_step counter
        /\ config counter' = config counter
        /\ percpu_counters counter' = percpu_counters counter)
    /\ (forall lid, layout_of_cpu cpu <> lid ->
          get_layout counter' lid = get_layout counter lid)
    /\ num_possible_cpus k' = num_possible_cpus k
    /\ freed_sites (klog k') = freed_sites (klog k)
    /\ ((ret = 0 /\ failed_allocations (klog k') = failed_allocations (klog k))
        \/ (ret = - ENOMEM
            /\ exists site, failed_allocations (klog k')
                            = failed_allocations (klog k) ++ [site]))
    /\ forall layout0,
         get_layout counter (layout_of_cpu cpu) = Some layout0 ->
         exists layout',
           get_layout counter' (layout_of_cpu cpu) = Some layout'
           /\ (ret = 0 -> layout' = fresh_layout (usize (allocated_elem counter)))
           /\ (layout0 = zero_layout ->
               allocated_sites (klog k')
               = allocated_sites (klog k) ++ layout_sites cpu layout').
Proof.
  unfold lttng_counter_layout_init, kbind, kalloc, kret.
  set (lid := layout_of_cpu cpu).
  destruct (alloc_outcomes k) as [| [|] [| [|] [| [|] rest]]];
    cbn [negb tail klog alloc_outcomes num_possible_cpus null_percpu_area];
    rewrite ?update_layout_compose;
    do 3 eexists; (split; [reflexivity |]);
    cbn [klog num_possible_cpus];
    match goal with
    | |- context [update_layout counter lid ?f] =>
        pose proof (update_layout_frame counter lid f)
          as (Ha & Hd & Hg & Hc & Hp & Hother & Hget)
    end;
    (split; [repeat split; assumption |]);
    (split; [exact Hother |]);
    (split; [reflexivity |]);
    rewrite ?freed_sites_app, ?failed_allocations_app, ?allocated_sites_app;
    rewrite ?(proj1 (proj2 (proj2 (proj2 (proj2 (sites_of_alloc _))))));
    rewrite ?(proj1 (proj2 (proj2 (sites_of_alloc _))));
    rewrite ?(proj1 (proj2 (proj2 (proj2 (sites_of_alloc _)))));
    rewrite ?(proj1 (sites_of_alloc _));
    rewrite ?(proj1 (proj2 (sites_of_alloc _)));
    rewrite ?app_nil_r;
    (split; [reflexivity |]);
    (split; [first [left; split; reflexivity
                   | right; split; [reflexivity | eexists; reflexivity]] |]);
    intros layout0 Hl0; rewrite Hget, Hl0; cbn [fmap option_fmap option_map];
    eexists; (split; [reflexivity |]);
    (split; [intros Hret; first [reflexivity | discriminate Hret] |]);
    intros ->; cbn [layout_sites counters underflow_bitmap overflow_bitmap
                    zero_layout app];
    rewrite <- ?app_assoc, ?app_nil_r; reflexivity.
Qed.

Lemma layout_of_cpu_nat (cpu : nat) : layout_of_cpu (Z.of_nat cpu) = PERCPU_LAYOUT cpu.
Proof.
  unfold layout_of_cpu. destruct (Z.eqb_spec (Z.of_nat cpu) (-1)); [lia |].
  rewrite Nat2Z.id. reflexivity.
Qed.

(** [lttng_counter_layout_fini] releases the blocks of the layout. *)
Lemma layout_fini_effect (counter : lib_counter) (cpu : Z) (k : kernel) :
  klog (snd (lttng_counter_layout_fini counter cpu k))
  = klog k ++ map K_free
                (match get_layout counter (layout_of_cpu cpu) with
                 | Some layout => layout_sites cpu layout
                 | None => []
                 end)
  /\ num_possible_cpus (snd (lttng_counter_layout_fini counter cpu k))
     = num_possible_cpus k.
Proof.
  unfold lttng_counter_layout_fini.
  destruct (get_layout counter (layout_of_cpu cpu)) as [[c u o] |];
    [| cbn; rewrite app_nil_r; split; reflexivity].
  unfold layout_sites; cbn [counters overflow_bitmap underflow_bitmap].
  destruct c, o, u; cbn; rewrite <- ?app_assoc, ?app_nil_r; split; reflexivity.
Qed.

Lemma layout_fini_cpus_effect (cpus : list nat) (counter : lib_counter) (k : kernel) :
  klog (snd (layout_fini_cpus cpus counter k))
  = klog k ++ map K_free (cpus_sites counter cpus)
  /\ num_possible_cpus (snd (layout_fini_cpus cpus counter k))
     = num_possible_cpus k.
Proof.
  revert k. induction cpus as [| cpu cpus IH]; intros k.
  - cbn. rewrite app_nil_r. split; reflexivity.
  - cbn [layout_fini_cpus]. unfold kbind.
    pose proof (layout_fini_effect counter (Z.of_nat cpu) k) as [Hlog Hn].
    destruct (lttng_counter_layout_fini counter (Z.of_nat cpu) k) as [u k1].
    cbn [snd] in *. destruct (IH k1) as [Hlog' Hn'].
    rewrite Hlog', Hlog, Hn', Hn. split; [| reflexivity].
    rewrite layout_of_cpu_nat. cbn [get_layout].
    unfold cpus_sites. cbn [map concat]. fold (cpus_sites counter cpus).
    unfold cpu_sites at 1. rewrite map_app, app_assoc. reflexivity.
Qed.

Lemma cpus_sites_zero (counter : lib_counter) (cpus : list nat) :
  (forall cpu, In cpu cpus -> percpu_area counter !! cpu = Some zero_layout) ->
  cpus_sites counter cpus = [].
Proof.
  induction cpus as [| cpu cpus IH]; intros H; [reflexivity |].
  unfold cpus_sites. cbn [map concat]. fold (cpus_sites counter cpus).
  rewrite IH by (intros c Hc; apply H; right; assumption).
  unfold cpu_sites. rewrite (H cpu) by (left; reflexivity). reflexivity.
Qed.

Lemma cpus_sites_ext (c1 c2 : lib_counter) (cpus : list nat) :
  (forall cpu, In cpu cpus -> percpu_area c1 !! cpu = percpu_area c2 !! cpu) ->
  cpus_sites c1 cpus = cpus_sites c2 cpus.
Proof.
  induction cpus as [| cpu cpus IH]; intros H; [reflexivity |].
  unfold cpus_sites. cbn [map concat]. fold (cpus_sites c1 cpus) (cpus_sites c2 cpus).
  rewrite IH by (intros c Hc; apply H; right; assumption).
  unfold cpu_sites. rewrite (H cpu) by (left; reflexivity). reflexivity.
Qed.

(** The loop of [lttng_counter_create] over the possible cpus, started on
    layouts that hold no pointer. *)
Lemma layout_init_cpus_effect (cpus : list nat) :
  NoDup cpus ->
  forall (counter : lib_counter) (k : kernel),
    (forall cpu, In cpu cpus -> percpu_area counter !! cpu = Some zero_layout) ->
    exists ret counter' k',
      layout_init_cpus cpus counter k = ((ret, counter'), k')
      /\ (allocated_elem counter' = allocated_elem counter
          /\ dimensions counter' = dimensions counter
          /\ global_sum_step counter' = global_sum_step counter
          /\ config counter' = config counter
          /\ percpu_counters counter' = percpu_counters counter)
      /\ global_counters counter' = global_counters counter
      /\ (forall cpu, ~ In cpu cpus ->
            percpu_area counter' !! cpu = percpu_area counter !! cpu)
      /\ num_possible_cpus k' = num_possible_cpus k
      /\ freed_sites (klog k') = freed_sites (klog k)
      /\ allocated_sites (klog k')
         = allocated_sites (klog k) ++ cpus_sites counter' cpus
      /\ ((ret = 0
           /\ failed_allocations (klog k') = failed_allocations (klog k)
           /\ forall cpu, In cpu cpus ->
                percpu_area counter' !! cpu
                = Some (fresh_layout (usize (allocated_elem counter))))
          \/ (ret = - ENOMEM
              /\ exists site, failed_allocations (klog k')
                              = failed_allocations (klog k) ++ [site])).
Proof.
  induction 1 as [| cpu cpus Hnotin Hnodup IH]; intros counter k Hzero.
  - do 3 eexists. split; [reflexivity |].
    cbn. rewrite app_nil_r. repeat split.
    left. repeat split. intros cpu [].
  - cbn [layout_init_cpus]. unfold kbind.
    destruct (layout_init_effect counter (Z.of_nat cpu) k)
      as (ret1 & c1 & k1 & E1 & Hf1 & Hother1 & Hn1 & Hfreed1 & Hret1 & Hlay1).
    rewrite E1. cbn [fst snd].
    rewrite layout_of_cpu_nat in Hother1, Hlay1.
    destruct (Hlay1 zero_layout) as (L1 & HL1 & Hfresh1 & Halloc1);
      [cbn; apply Hzero; left; reflexivity |].
    specialize (Halloc1 eq_refl). cbn [get_layout] in HL1.
    assert (Hothers : forall c, c <> cpu ->
              percpu_area c1 !! c = percpu_area counter !! c).
    { intros c Hc. apply (Hother1 (PERCPU_LAYOUT c)). congruence. }
    assert (Hglob : global_counters c1 = global_counters counter).
    { pose proof (Hother1 GLOBAL_LAYOUT ltac:(discriminate)) as Hg.
      cbn in Hg. congruence. }
    assert (Hrest_zero : forall c, In c cpus ->
              percpu_area c1 !! c = Some zero_layout).
    { intros c Hc. rewrite Hothers; [apply Hzero; right; assumption |].
      intros ->. apply Hnotin. apply list_elem_of_In. assumption. }
    destruct Hret1 as [[-> Hfail1] | [-> Hfail1]].
    + cbn [Z.eqb].
      destruct (IH c1 k1 Hrest_zero)
        as (ret & c2 & k2 & E2 & Hf2 & Hglob2 & Hother2 & Hn2 & Hfreed2
            & Halloc2 & Hret2).
      rewrite E2. do 3 eexists. split; [reflexivity |].
      destruct Hf1 as (a1 & a2 & a3 & a4 & a5).
      destruct Hf2 as (b1 & b2 & b3 & b4 & b5).
      split; [repeat split; congruence |].
      split; [congruence |].
      assert (Hcpu2 : percpu_area c2 !! cpu = Some L1).
      { rewrite Hother2; [assumption |].
        intros Hin. apply Hnotin. apply list_elem_of_In. assumption. }
      split.
      { intros c Hc. rewrite Hother2 by (intros Hin; apply Hc; right; assumption).
        apply Hothers. intros ->. apply Hc. left. reflexivity. }
      split; [congruence |]. split; [congruence |].
      split.
      { rewrite Halloc2, Halloc1, <- app_assoc. f_equal.
        unfold cpus_sites. cbn [map concat]. unfold cpu_sites at 2.
        rewrite Hcpu2. reflexivity. }
      destruct Hret2 as [(-> & Hfail2 & Hfresh2) | (-> & site & Hfail2)].
      * left. split; [reflexivity |]. split; [congruence |].
        intros c [<- | Hc].
        -- rewrite Hcpu2, (Hfresh1 eq_refl). reflexivity.
        -- rewrite (Hfresh2 c Hc), a1. reflexivity.
      * right. split; [reflexivity |]. exists site. congruence.
    + assert (Hne : (- ENOMEM =? 0) = false) by reflexivity.
      rewrite Hne. unfold kret. do 3 eexists. split; [reflexivity |].
      split; [assumption |]. split; [assumption |].
      split.
      { intros c Hc. apply Hothers. intros ->. apply Hc. left. reflexivity. }
      split; [assumption |]. split; [assumption |].
      split.
      { rewrite Halloc1. f_equal.
        unfold cpus_sites. cbn [map concat]. fold (cpus_sites c1 cpus).
        rewrite (cpus_sites_zero c1 cpus Hrest_zero), app_nil_r.
        unfold cpu_sites. rewrite HL1. reflexivity. }
      right. split; [reflexivity | assumption].
Qed.


Lemma set_global_sum_step_frame (counter counter' : lib_counter) (step ret : Z) :
  lttng_counter_set_global_sum_step counter step = (ret, counter') ->
  allocated_elem counter' = allocated_elem counter
  /\ dimensions counter' = dimensions counter
  /\ config counter' = config counter
  /\ global_counters counter' = global_counters counter
  /\ percpu_counters counter' = percpu_counters counter
  /\ percpu_area counter' = percpu_area counter
  /\ (ret = 0 \/ ret = - EINVAL).
Proof.
  unfold lttng_counter_set_global_sum_step.
  destruct (step <? 0); [intros [= <- <-]; repeat split; right; reflexivity |].
  destruct (counter_size (config counter));
    repeat match goal with
           | |- context [if ?c then _ else _] => destruct c
           end;
    intros [= <- <-]; repeat split; (left; reflexivity) || (right; reflexivity).
Qed.

Lemma sites_of_frees (sites : list alloc_site) :
  allocated_sites (map K_free sites) = []
  /\ freed_sites (map K_free sites) = sites
  /\ failed_allocations (map K_free sites) = [].
Proof.
  induction sites as [| s sites (IH1 & IH2 & IH3)]; [repeat split |].
  change (map K_free (s :: sites)) with ([K_free s] ++ map K_free sites).
  rewrite allocated_sites_app, freed_sites_app, failed_allocations_app.
  rewrite IH1, IH2, IH3. repeat split.
Qed.

Lemma layout_init_cpus_frame (cpus : list nat) (counter : lib_counter) (k : kernel) :
  exists ret counter' k',
    layout_init_cpus cpus counter k = ((ret, counter'), k')
    /\ (allocated_elem counter' = allocated_elem counter
        /\ dimensions counter' = dimensions counter
        /\ global_sum_step counter' = global_sum_step counter
        /\ config counter' = config counter
        /\ percpu_counters counter' = percpu_counters counter)
    /\ global_counters counter' = global_counters counter
    /\ num_possible_cpus k' = num_possible_cpus k
    /\ freed_sites (klog k') = freed_sites (klog k)
    /\ (ret = 0 \/ ret = - ENOMEM)
    /\ (ret = 0 -> failed_allocations (klog k') = failed_allocations (klog k)).
Proof.
  revert counter k. induction cpus as [| cpu cpus IH]; intros counter k.
  - do 3 eexists. split; [reflexivity |]. repeat split. left. reflexivity.
  - cbn [layout_init_cpus]. unfold kbind.
    destruct (layout_init_effect counter (Z.of_nat cpu) k)
      as (ret1 & c1 & k1 & E1 & Hf1 & Hother1 & Hn1 & Hfreed1 & Hret1 & _).
    rewrite E1. cbn [fst snd]. rewrite layout_of_cpu_nat in Hother1.
    assert (Hglob : global_counters c1 = global_counters counter).
    { pose proof (Hother1 GLOBAL_LAYOUT ltac:(discriminate)) as Hg.
      cbn in Hg. congruence. }
    destruct Hf1 as (a1 & a2 & a3 & a4 & a5).
    destruct Hret1 as [[-> Hfail1] | [-> Hfail1]].
    + cbn [Z.eqb].
      destruct (IH c1 k1)
        as (ret & c2 & k2 & E2 & Hf2 & Hglob2 & Hn2 & Hfreed2 & Hret2 & Hfail2).
      rewrite E2. do 3 eexists. split; [reflexivity |].
      destruct Hf2 as (b1 & b2 & b3 & b4 & b5).
      split; [repeat split; congruence |].
      split; [congruence |]. split; [congruence |]. split; [congruence |].
      split; [assumption |]. intros H0. rewrite (Hfail2 H0). assumption.
    + assert (Hne : (- ENOMEM =? 0) = false) by reflexivity.
      rewrite Hne. unfold kret. do 3 eexists. split; [reflexivity |].
      split; [repeat split; assumption |].
      split; [assumption |]. split; [assumption |]. split; [assumption |].
      split; [right; reflexivity | discriminate].
Qed.

Lemma create_error_sum_step_spec (k : kernel) :
  exists k', create_error_sum_step k = (None, k')
             /\ klog k' = klog k ++ map K_free [SITE_COUNTER]
             /\ num_possible_cpus k' = num_possible_cpus k.
Proof. eexists. split; [reflexivity |]. split; reflexivity. Qed.

Lemma create_error_alloc_percpu_spec (k : kernel) :
  exists k', create_error_alloc_percpu k = (None, k')
             /\ klog k' = klog k ++ map K_free [SITE_DIMENSIONS; SITE_COUNTER]
             /\ num_possible_cpus k' = num_possible_cpus k.
Proof.
  eexists. split; [reflexivity |]. cbn. rewrite <- app_assoc. split; reflexivity.
Qed.

Lemma create_layout_init_error_spec (counter : lib_counter) (k : kernel) :
  exists k',
    create_layout_init_error counter k = (None, k')
    /\ klog k' = klog k ++ map K_free
                   (cpus_sites counter (seq 0 (num_possible_cpus k))
                    ++ layout_sites (-1) (global_counters counter)
                    ++ (if percpu_counters counter then [SITE_PERCPU] else [])
                    ++ [SITE_DIMENSIONS; SITE_COUNTER])
    /\ num_possible_cpus k' = num_possible_cpus k.
Proof.
  unfold create_layout_init_error, kbind. cbn beta iota.
  pose proof (layout_fini_cpus_effect (seq 0 (num_possible_cpus k)) counter k)
    as [Hlog1 Hn1].
  destruct (layout_fini_cpus (seq 0 (num_possible_cpus k)) counter k) as [u1 k1].
  cbn [snd] in *.
  pose proof (layout_fini_effect counter (-1) k1) as [Hlog2 Hn2].
  destruct (lttng_counter_layout_fini counter (-1) k1) as [u2 k2].
  cbn [snd] in *. change (layout_of_cpu (-1)) with GLOBAL_LAYOUT in Hlog2.
  cbn [get_layout] in Hlog2.
  pose proof (kfree_spec SITE_PERCPU (percpu_counters counter) k2) as [Hlog3 Hn3].
  destruct (kfree SITE_PERCPU (percpu_counters counter) k2) as [u3 k3].
  cbn [snd] in *.
  destruct (create_error_alloc_percpu_spec k3) as (k4 & E4 & Hlog4 & Hn4).
  rewrite E4. exists k4. split; [reflexivity |].
  split; [| congruence].
  rewrite Hlog4, Hlog3, Hlog2, Hlog1, !map_app, <- !app_assoc.
  destruct (percpu_counters counter); reflexivity.
Qed.

Lemma release_order (x y z : alloc_site) (G P : list alloc_site) :
  [x; y; z] ++ G ++ P ≡ₚ P ++ G ++ [z; y; x].
Proof.
  rewrite (Permutation_app_comm [x; y; z]).
  rewrite (Permutation_app_comm G P).
  rewrite <- app_assoc.
  do 2 apply Permutation_app_head.
  exact (Permutation_rev [x; y; z]).
Qed.

(** The last phase of [lttng_counter_create] for a per-cpu counter: the
    global layout, then the layouts of the possible cpus. *)
Lemma layouts_phase_percpu (c0 : lib_counter) (ncpus : nat) (k : kernel) :
  ncpus = num_possible_cpus k ->
  global_counters c0 = zero_layout ->
  percpu_counters c0 = true ->
  percpu_area c0 = replicate ncpus zero_layout ->
  exists res k' A F,
    (do r0 <- lttng_counter_layout_init c0 (-1);
     if negb (fst r0 =? 0) then create_layout_init_error (snd r0)
     else
       do r1 <- layout_init_cpus (seq 0 ncpus) (snd r0);
       if negb (fst r1 =? 0) then create_layout_init_error (snd r1)
       else kret (Some (snd r1))) k = (res, k')
    /\ num_possible_cpus k' = num_possible_cpus k
    /\ allocated_sites (klog k') = allocated_sites (klog k) ++ A
    /\ freed_sites (klog k') = freed_sites (klog k) ++ F
    /\ match res with
       | None => [SITE_COUNTER; SITE_DIMENSIONS; SITE_PERCPU] ++ A ≡ₚ F
       | Some c =>
           F = []
           /\ A = layout_sites (-1) (global_counters c) ++ cpus_sites c (seq 0 ncpus)
           /\ failed_allocations (klog k') = failed_allocations (klog k)
           /\ (allocated_elem c = allocated_elem c0
               /\ dimensions c = dimensions c0
               /\ global_sum_step c = global_sum_step c0
               /\ config c = config c0
               /\ percpu_counters c = percpu_counters c0)
           /\ global_counters c = fresh_layout (usize (allocated_elem c0))
           /\ forall cpu, (cpu < ncpus)%nat ->
                percpu_area c !! cpu
                = Some (fresh_layout (usize (allocated_elem c0)))
       end.
Proof.
  intros Hn Hglob Hpc Harea. unfold kbind.
  destruct (layout_init_effect c0 (-1) k)
    as (ret1 & c1 & k1 & E1 & Hf1 & Hother1 & Hn1 & Hfreed1 & Hret1 & Hlay1).
  rewrite E1. cbn [fst snd].
  change (layout_of_cpu (-1)) with GLOBAL_LAYOUT in *.
  destruct (Hlay1 zero_layout) as (L1 & HL1 & Hfresh1 & Halloc1);
    [cbn; congruence |].
  specialize (Halloc1 eq_refl). cbn [get_layout] in HL1. injection HL1 as HL1.
  destruct Hf1 as (a1 & a2 & a3 & a4 & a5).
  assert (Harea1 : forall cpu, percpu_area c1 !! cpu = percpu_area c0 !! cpu).
  { intros cpu. apply (Hother1 (PERCPU_LAYOUT cpu)). discriminate. }
  assert (Hzero1 : forall cpu, In cpu (seq 0 ncpus) ->
            percpu_area c1 !! cpu = Some zero_layout).
  { intros cpu Hin. rewrite Harea1, Harea. apply lookup_replicate_2.
    apply in_seq in Hin. lia. }
  destruct Hret1 as [[-> Hfail1] | [-> Hfail1]].
  - cbn [Z.eqb negb].
    destruct (layout_init_cpus_effect (seq 0 ncpus) (NoDup_seq 0 ncpus) c1 k1 Hzero1)
      as (ret2 & c2 & k2 & E2 & Hf2 & Hglob2 & Hother2 & Hn2 & Hfreed2
          & Halloc2 & Hret2).
    rewrite E2. cbn [fst snd].
    destruct Hf2 as (b1 & b2 & b3 & b4 & b5).
    destruct Hret2 as [(-> & Hfail2 & Hfresh2) | (-> & site & Hfail2)].
    + cbn [Z.eqb negb]. unfold kret.
      exists (Some c2), k2. do 2 eexists. split; [reflexivity |].
      split; [congruence |].
      split; [rewrite Halloc2, Halloc1, <- app_assoc; reflexivity |].
      split; [rewrite Hfreed2, Hfreed1, app_nil_r; reflexivity |].
      split; [reflexivity |].
      split; [rewrite Hglob2, HL1; reflexivity |].
      split; [congruence |].
      split; [repeat split; congruence |].
      split; [rewrite Hglob2, HL1; apply Hfresh1; reflexivity |].
      intros cpu Hcpu. rewrite Hfresh2 by (apply in_seq; lia).
      rewrite a1. reflexivity.
    + assert (Hne : (- ENOMEM =? 0) = false) by reflexivity.
      rewrite Hne. cbn [negb].
      destruct (create_layout_init_error_spec c2 k2) as (k3 & E3 & Hlog3 & Hn3).
      rewrite E3. exists None, k3. do 2 eexists. split; [reflexivity |].
      split; [congruence |].
      rewrite Hlog3, allocated_sites_app, freed_sites_app.
      destruct (sites_of_frees
                  (cpus_sites c2 (seq 0 (num_possible_cpus k2))
                   ++ layout_sites (-1) (global_counters c2)
                   ++ (if percpu_counters c2 then [SITE_PERCPU] else [])
                   ++ [SITE_DIMENSIONS; SITE_COUNTER])) as (-> & -> & _).
      rewrite app_nil_r, Halloc2, Halloc1, Hfreed2, Hfreed1, <- app_assoc.
      split; [reflexivity |]. split; [reflexivity |].
      rewrite b5, a5, Hpc, Hglob2, HL1, Hn2, Hn1, <- Hn.
      apply release_order.
  - assert (Hne : (- ENOMEM =? 0) = false) by reflexivity.
    rewrite Hne. cbn [negb].
    destruct (create_layout_init_error_spec c1 k1) as (k3 & E3 & Hlog3 & Hn3).
    rewrite E3. exists None, k3. do 2 eexists. split; [reflexivity |].
    split; [congruence |].
    rewrite Hlog3, allocated_sites_app, freed_sites_app.
    destruct (sites_of_frees
                (cpus_sites c1 (seq 0 (num_possible_cpus k1))
                 ++ layout_sites (-1) (global_counters c1)
                 ++ (if percpu_counters c1 then [SITE_PERCPU] else [])
                 ++ [SITE_DIMENSIONS; SITE_COUNTER])) as (-> & -> & _).
    rewrite app_nil_r, Halloc1, Hfreed1.
    split; [reflexivity |]. split; [reflexivity |].
    rewrite a5, Hpc, HL1, Hn1, <- Hn.
    rewrite (cpus_sites_zero c1 (seq 0 ncpus) Hzero1). cbn [app].
    rewrite <- (app_nil_r (layout_sites (-1) L1)) at 1.
    rewrite (release_order SITE_COUNTER SITE_DIMENSIONS SITE_PERCPU
               (layout_sites (-1) L1) []).
    reflexivity.
Qed.

Lemma sites_of_one_alloc (site : alloc_site) (ok : bool) (log : list kevent) :
  allocated_sites (log ++ [K_alloc site ok])
  = allocated_sites log ++ (if ok then [site] else [])
  /\ freed_sites (log ++ [K_alloc site ok]) = freed_sites log
  /\ failed_allocations (log ++ [K_alloc site ok])
     = failed_allocations log ++ (if ok then [] else [site]).
Proof.
  rewrite allocated_sites_app, freed_sites_app, failed_allocations_app.
  destruct ok; cbn; rewrite ?app_nil_r; repeat split.
Qed.

Lemma sites_after_frees (sites : list alloc_site) (log : list kevent) :
  allocated_sites (log ++ map K_free sites) = allocated_sites log
  /\ freed_sites (log ++ map K_free sites) = freed_sites log ++ sites.
Proof.
  rewrite allocated_sites_app, freed_sites_app.
  destruct (sites_of_frees sites) as (-> & -> & _).
  rewrite app_nil_r. split; reflexivity.
Qed.

(** [lttng_counter_create] for a per-cpu counter, with what it requests
    and releases. *)
Lemma create_percpu_spec (cfg : lib_counter_config) (nr : nat) (maxs : list Z)
    (step : Z) (k : kernel) :
  alloc cfg = COUNTER_ALLOC_PER_CPU ->
  in_signed 64 step ->
  exists res k' A F,
    lttng_counter_create cfg nr maxs step k = (res, k')
    /\ num_possible_cpus k' = num_possible_cpus k
    /\ allocated_sites (klog k') = allocated_sites (klog k) ++ A
    /\ freed_sites (klog k') = freed_sites (klog k) ++ F
    /\ match res with
       | None => A ≡ₚ F
       | Some c =>
           F = []
           /\ A = [SITE_COUNTER; SITE_DIMENSIONS; SITE_PERCPU]
                  ++ layout_sites (-1) (global_counters c)
                  ++ cpus_sites c (seq 0 (num_possible_cpus k))
           /\ failed_allocations (klog k') = failed_allocations (klog k)
           /\ percpu_counters c = true
           /\ config c = cfg
           /\ dimensions c = fst (init_stride_loop (dimensions_of nr maxs))
           /\ allocated_elem c = s64 (nr_elem_loop (dimensions c) 1)
           /\ (global_sum_step c = step
               /\ 0 <= step <= smax (width (counter_size cfg)))
           /\ global_counters c = fresh_layout (usize (allocated_elem c))
           /\ forall cpu, (cpu < num_possible_cpus k)%nat ->
                percpu_area c !! cpu
                = Some (fresh_layout (usize (allocated_elem c)))
       end.
Proof.
  intros Ha Hstep. unfold lttng_counter_create.
  replace (negb (BITS_PER_LONG =? 64)) with false by reflexivity. cbn [andb].
  unfold kbind at 1.
  destruct (kalloc_spec SITE_COUNTER k) as (ok & k1 & E & Hlog1 & Hn1 & Hs1).
  rewrite E.
  destruct (sites_of_one_alloc SITE_COUNTER ok (klog k)) as (Hal1 & Hfr1 & Hfa1).
  rewrite <- Hlog1 in Hal1, Hfr1, Hfa1.
  destruct ok; cbn [negb].
  2: { exists None, k1, [], []. split; [reflexivity |]. split; [assumption |].
       rewrite Hal1, Hfr1, !app_nil_r. repeat split; reflexivity. }
  unfold kbind at 1. cbn beta iota.
  destruct (lttng_counter_set_global_sum_step _ step) as [ret c0] eqn:Hset.
  pose proof (set_global_sum_step_frame _ _ _ _ Hset)
    as (s1 & s2 & s3 & s4 & s5 & s6 & Hret).
  cbn [allocated_elem dimensions config global_counters percpu_counters percpu_area]
    in s1, s2, s3, s4, s5, s6.
  destruct Hret as [-> | ->].
  2: { replace (negb (- EINVAL =? 0)) with true by reflexivity.
       destruct (create_error_sum_step_spec k1) as (k2 & E2 & Hlog2 & Hn2).
       rewrite E2. exists None, k2, [SITE_COUNTER], [SITE_COUNTER].
       split; [reflexivity |]. split; [congruence |].
       destruct (sites_after_frees [SITE_COUNTER] (klog k1)) as (Hal2 & Hfr2).
       rewrite Hlog2, Hal2, Hfr2, Hal1, Hfr1. repeat split; reflexivity. }
  cbn [Z.eqb negb]. unfold kbind at 1.
  destruct (kalloc_spec SITE_DIMENSIONS k1) as (ok & k2 & E2 & Hlog2 & Hn2 & Hs2).
  rewrite E2.
  destruct (sites_of_one_alloc SITE_DIMENSIONS ok (klog k1)) as (Hal2 & Hfr2 & Hfa2).
  rewrite <- Hlog2 in Hal2, Hfr2, Hfa2.
  destruct ok; cbn [negb].
  2: { destruct (create_error_sum_step_spec k2) as (k3 & E3 & Hlog3 & Hn3).
       rewrite E3. exists None, k3, [SITE_COUNTER], [SITE_COUNTER].
       split; [reflexivity |]. split; [congruence |].
       destruct (sites_after_frees [SITE_COUNTER] (klog k2)) as (Hal3 & Hfr3).
       rewrite Hlog3, Hal3, Hfr3, Hal2, Hfr2, Hal1, Hfr1, !app_nil_r.
       repeat split; reflexivity. }
  unfold kbind at 1. cbn beta iota. rewrite Ha.
  unfold kbind at 1. unfold kbind at 1.
  destruct (kalloc_spec SITE_PERCPU k2) as (ok & k3 & E3 & Hlog3 & Hn3 & Hs3).
  rewrite E3.
  destruct (sites_of_one_alloc SITE_PERCPU ok (klog k2)) as (Hal3 & Hfr3 & Hfa3).
  rewrite <- Hlog3 in Hal3, Hfr3, Hfa3.
  unfold kret at 1. cbn beta iota.
  destruct ok; cbn [negb].
  2: { destruct (create_error_alloc_percpu_spec k3) as (k4 & E4 & Hlog4 & Hn4).
       rewrite E4.
       exists None, k4, [SITE_COUNTER; SITE_DIMENSIONS],
         [SITE_DIMENSIONS; SITE_COUNTER].
       split; [reflexivity |]. split; [congruence |].
       destruct (sites_after_frees [SITE_DIMENSIONS; SITE_COUNTER] (klog k3))
         as (Hal4 & Hfr4).
       rewrite Hlog4, Hal4, Hfr4, Hal3, Hfr3, Hal2, Hfr2, Hal1, Hfr1, !app_nil_r.
       rewrite <- !app_assoc.
       split; [reflexivity |]. split; [reflexivity |].
       apply Permutation_swap. }
  pose proof (set_global_sum_step_accepts _ _ _ Hstep Hset) as [Hgss Hrange].
  cbn [config] in Hrange.
  match goal with
  | |- context [lttng_counter_layout_init ?c (-1)] => set (c1 := c)
  end.
  destruct (layouts_phase_percpu c1 (num_possible_cpus k2) k3)
    as (res & k4 & A & F & E4 & Hn4 & Hal4 & Hfr4 & Hres);
    [congruence | exact s4 | reflexivity | reflexivity |].
  rewrite E4. exists res, k4.
  exists ([SITE_COUNTER; SITE_DIMENSIONS; SITE_PERCPU] ++ A), F.
  split; [reflexivity |]. split; [congruence |].
  split; [rewrite Hal4, Hal3, Hal2, Hal1, <- !app_assoc; reflexivity |].
  split; [rewrite Hfr4, Hfr3, Hfr2, Hfr1; reflexivity |].
  destruct res as [c |]; [| exact Hres].
  destruct Hres as (-> & -> & Hfail & (r1 & r2 & r3 & r4 & r5) & Hg & Hcpus).
  assert (Hnk : num_possible_cpus k2 = num_possible_cpus k) by congruence.
  split; [reflexivity |].
  split; [rewrite Hnk; reflexivity |].
  split; [rewrite Hfail, Hfa3, Hfa2, Hfa1, !app_nil_r; reflexivity |].
  split; [rewrite r5; reflexivity |].
  split; [rewrite r4; exact s3 |].
  split; [rewrite r2; reflexivity |].
  split; [rewrite r1, r2; reflexivity |].
  split; [split; [rewrite r3; exact Hgss | exact Hrange] |].
  split; [rewrite r1; exact Hg |].
  intros cpu Hcpu. rewrite r1. apply Hcpus. lia.
Qed.

(** [lttng_counter_create] for a counter with global allocation, when it
    returns a counter. *)
Lemma create_global_success (cfg : lib_counter_config) (nr : nat) (maxs : list Z)
    (step : Z) (k k' : kernel) (c : lib_counter) :
  alloc cfg = COUNTER_ALLOC_GLOBAL ->
  in_signed 64 step ->
  lttng_counter_create cfg nr maxs step k = (Some c, k') ->
  freed_sites (klog k') = freed_sites (klog k)
  /\ failed_allocations (klog k') = failed_allocations (klog k)
  /\ percpu_counters c = false
  /\ config c = cfg
  /\ dimensions c = fst (init_stride_loop (dimensions_of nr maxs))
  /\ allocated_elem c = s64 (nr_elem_loop (dimensions c) 1)
  /\ (global_sum_step c = step
      /\ 0 <= step <= smax (width (counter_size cfg)))
  /\ global_counters c = fresh_layout (usize (allocated_elem c)).
Proof.
  intros Ha Hstep. unfold lttng_counter_create.
  replace (negb (BITS_PER_LONG =? 64)) with false by reflexivity. cbn [andb].
  unfold kbind at 1.
  destruct (kalloc_spec SITE_COUNTER k) as (ok & k1 & E & Hlog1 & Hn1 & Hs1).
  rewrite E.
  destruct (sites_of_one_alloc SITE_COUNTER ok (klog k)) as (Hal1 & Hfr1 & Hfa1).
  rewrite <- Hlog1 in Hal1, Hfr1, Hfa1.
  destruct ok; cbn [negb]; [| discriminate].
  unfold kbind at 1. cbn beta iota.
  destruct (lttng_counter_set_global_sum_step _ step) as [ret c0] eqn:Hset.
  pose proof (set_global_sum_step_frame _ _ _ _ Hset)
    as (s1 & s2 & s3 & s4 & s5 & s6 & Hret).
  cbn [allocated_elem dimensions config global_counters percpu_counters percpu_area]
    in s1, s2, s3, s4, s5, s6.
  destruct Hret as [-> | ->]; [| discriminate].
  pose proof (set_global_sum_step_accepts _ _ _ Hstep Hset) as [Hgss Hrange].
  cbn [config] in Hrange.
  cbn [Z.eqb negb]. unfold kbind at 1.
  destruct (kalloc_spec SITE_DIMENSIONS k1) as (ok & k2 & E2 & Hlog2 & Hn2 & Hs2).
  rewrite E2.
  destruct (sites_of_one_alloc SITE_DIMENSIONS ok (klog k1)) as (Hal2 & Hfr2 & Hfa2).
  rewrite <- Hlog2 in Hal2, Hfr2, Hfa2.
  destruct ok; cbn [negb]; [| discriminate].
  unfold kbind at 1. cbn beta iota. rewrite Ha.
  unfold kbind at 1. unfold kret at 1. cbn beta iota. cbn [negb].
  match goal with
  | |- context [lttng_counter_layout_init ?c0 (-1)] => set (c1 := c0)
  end.
  unfold kbind at 1.
  destruct (layout_init_effect c1 (-1) k2)
    as (ret1 & c2 & k3 & E3 & Hf3 & Hother3 & Hn3 & Hfreed3 & Hret3 & Hlay3).
  rewrite E3. cbn [fst snd].
  change (layout_of_cpu (-1)) with GLOBAL_LAYOUT in *.
  destruct (Hlay3 zero_layout) as (L1 & HL1 & Hfresh1 & _); [cbn; congruence |].
  cbn [get_layout] in HL1. injection HL1 as HL1.
  destruct Hf3 as (a1 & a2 & a3 & a4 & a5).
  destruct Hret3 as [[-> Hfail3] | [-> Hfail3]].
  2: { replace (negb (- ENOMEM =? 0)) with true by reflexivity.
       destruct (create_layout_init_error_spec c2 k3) as (k4 & E4 & _).
       rewrite E4. discriminate. }
  cbn [Z.eqb negb]. unfold kbind at 1.
  destruct (layout_init_cpus_frame (seq 0 (num_possible_cpus k2)) c2 k3)
    as (ret2 & c3 & k4 & E4 & Hf4 & Hglob4 & Hn4 & Hfreed4 & Hret4 & Hfail4).
  rewrite E4. cbn [fst snd].
  destruct Hf4 as (b1 & b2 & b3 & b4 & b5).
  destruct Hret4 as [-> | ->].
  2: { replace (negb (- ENOMEM =? 0)) with true by reflexivity.
       destruct (create_layout_init_error_spec c3 k4) as (k5 & E5 & _).
       rewrite E5. discriminate. }
  cbn [Z.eqb negb]. unfold kret. intros [= <- <-].
  split; [congruence |].
  split; [rewrite (Hfail4 eq_refl), Hfail3, Hfa2, Hfa1, !app_nil_r; reflexivity |].
  split; [rewrite b5, a5; exact s5 |].
  split; [rewrite b4, a4; exact s3 |].
  split; [rewrite b2, a2; reflexivity |].
  split; [rewrite b1, a1, b2, a2; reflexivity |].
  split; [split; [rewrite b3, a3; exact Hgss | exact Hrange] |].
  rewrite Hglob4, HL1, b1, a1. apply Hfresh1. reflexivity.
Qed.


(** ** Counters as creation returns them *)

(** What a returned counter looks like, in both allocation modes. *)
Lemma create_success (cfg : lib_counter_config) (nr : nat) (maxs : list Z)
    (step : Z) (k k' : kernel) (c : lib_counter) :
  in_signed 64 step ->
  lttng_counter_create cfg nr maxs step k = (Some c, k') ->
  freed_sites (klog k') = freed_sites (klog k)
  /\ failed_allocations (klog k') = failed_allocations (klog k)
  /\ config c = cfg
  /\ dimensions c = fst (init_stride_loop (dimensions_of nr maxs))
  /\ allocated_elem c = s64 (nr_elem_loop (dimensions c) 1)
  /\ (global_sum_step c = step
      /\ 0 <= step <= smax (width (counter_size cfg)))
  /\ global_counters c = fresh_layout (usize (allocated_elem c))
  /\ (alloc cfg = COUNTER_ALLOC_PER_CPU ->
      forall cpu, (cpu < num_possible_cpus k)%nat ->
        percpu_area c !! cpu = Some (fresh_layout (usize (allocated_elem c)))).
Proof.
  intros Hstep Hc. destruct (alloc cfg) eqn:Ha.
  - destruct (create_percpu_spec cfg nr maxs step k Ha Hstep)
      as (res & k1 & A & F & E & Hn & Hal & Hfr & Hres).
    rewrite Hc in E. injection E as <- <-.
    destruct Hres as (-> & _ & Hfail & Hp & Hcfg & Hd & Hae & Hg & Hgl & Hcpus).
    rewrite app_nil_r in Hfr.
    repeat (split; [assumption |]). intros _. exact Hcpus.
  - destruct (create_global_success cfg nr maxs step k k' c Ha Hstep Hc)
      as (Hfr & Hfail & Hp & Hcfg & Hd & Hae & Hg & Hgl).
    repeat (split; [assumption |]). discriminate.
Qed.

Lemma init_stride_loop_idem (dims : list lib_counter_dimension) :
  init_stride_loop (fst (init_stride_loop dims)) = init_stride_loop dims.
Proof.
  induction dims as [| d inner IH]; [reflexivity |].
  cbn [init_stride_loop].
  destruct (init_stride_loop inner) as [inner' acc] eqn:E.
  cbn [fst] in *. cbn [init_stride_loop]. rewrite IH. reflexivity.
Qed.

(** The element count and the offsets of a counter whose strides were
    computed by [lttng_counter_init_stride]. *)
Lemma strided_counter_geometry (cfg : lib_counter_config) (c : lib_counter)
    (dims : list lib_counter_dimension) :
  dimensions c = fst (init_stride_loop dims) ->
  allocated_elem c = s64 (nr_elem_loop (dimensions c) 1) ->
  nonneg_dims (dimensions c) ->
  dims_size (dimensions c) <= smax 64 ->
  allocated_elem c = dims_size (dimensions c)
  /\ (forall idxs, Forall2 in_dimension (dimensions c) idxs ->
        0 <= lttng_counter_get_index cfg c idxs < allocated_elem c)
  /\ (forall idxs idxs',
        Forall2 in_dimension (dimensions c) idxs ->
        Forall2 in_dimension (dimensions c) idxs' ->
        lttng_counter_get_index cfg c idxs = lttng_counter_get_index cfg c idxs' ->
        idxs = idxs').
Proof.
  intros Hd Hae Hnn Hsize.
  assert (Hidem : dimensions c = fst (init_stride_loop (dimensions c))).
  { rewrite Hd at 2. rewrite init_stride_loop_idem. exact Hd. }
  pose proof (dims_size_pos _ Hnn) as Hpos.
  assert (Hal : allocated_elem c = dims_size (dimensions c)).
  { rewrite Hae, nr_elem_loop_size by (try assumption; lia).
    rewrite s64_small by lia. lia. }
  split; [exact Hal |]. unfold lttng_counter_get_index. split.
  - intros idxs Hin. rewrite Hal, Hidem.
    rewrite <- Hidem at 2 3.
    pose proof (get_index_loop_bounds (dimensions c) Hnn idxs 0 Hin) as Hb.
    rewrite <- Hidem in Hb |- *. lia.
  - intros idxs idxs' Hin Hin' E.
    apply (get_index_loop_injective (dimensions c) Hnn idxs idxs' 0);
      try assumption; try lia.
    rewrite <- Hidem. exact E.
Qed.


Lemma validate_indexes_in_dimension (dims : list lib_counter_dimension) :
  nonneg_dims dims -> dims_size dims <= smax 64 ->
  forall idxs,
    Forall2 (fun d i => i < max_nr_elem d) dims idxs ->
    Forall2 in_dimension dims (validate_indexes_loop dims idxs).
Proof.
  intros Hnn Hsize idxs H. revert Hnn Hsize.
  induction H as [| d i dims idxs Hi H IH]; intros Hnn Hsize; [constructor |].
  apply Forall_cons in Hnn as [Hd Hnn].
  pose proof (dims_size_pos _ Hnn) as Hpos.
  cbn [dims_size] in Hsize. cbn [validate_indexes_loop].
  constructor.
  - unfold validate_index, in_dimension, lttng_counter_underflow_index.
    destruct (Z.ltb_spec i 0).
    + rewrite s64_small by nia. lia.
    + destruct (Z.geb_spec i (max_nr_elem d)); lia.
  - apply IH; [assumption | nia].
Qed.

(** X11: in a counter that [lttng_counter_create] returns, with element
    counts that are not negative and whose product (two extra elements per
    dimension included) fits [int64_t], [allocated_elem] is that product
    and [lttng_counter_get_index] maps every index array that stays within
    the dimensions to an offset within the allocated range. *)
Theorem created_offsets_in_range (cfg : lib_counter_config) (nr : nat)
    (maxs : list Z) (step : Z) (k k' : kernel) (c : lib_counter) (idxs : list Z) :
  in_signed 64 step ->
  lttng_counter_create cfg nr maxs step k = (Some c, k') ->
  nonneg_dims (dimensions c) ->
  dims_size (dimensions c) <= smax 64 ->
  Forall2 in_dimension (dimensions c) idxs ->
  allocated_elem c = dims_size (dimensions c)
  /\ 0 <= lttng_counter_get_index cfg c idxs < allocated_elem c.
Proof.
  intros Hstep Hc Hnn Hsize Hin.
  destruct (create_success cfg nr maxs step k k' c Hstep Hc)
    as (_ & _ & _ & Hd & Hae & _).
  destruct (strided_counter_geometry cfg c _ Hd Hae Hnn Hsize) as (Hal & Hb & _).
  split; [exact Hal | apply Hb; exact Hin].
Qed.

Lemma created_offsets_in_range_witness :
  allocated_elem (created sample_config [4; 3] 0 2)
  = dims_size (dimensions (created sample_config [4; 3] 0 2))
  /\ 0 <= lttng_counter_get_index sample_config
            (created sample_config [4; 3] 0 2) [5; 4]
       < allocated_elem (created sample_config [4; 3] 0 2).
Proof.
  apply (created_offsets_in_range sample_config 2 [4; 3] 0 (plentiful_kernel 2)
           (snd (lttng_counter_create sample_config 2 [4; 3] 0 (plentiful_kernel 2)))).
  - vm_compute. split; discriminate.
  - vm_compute. reflexivity.
  - assert (E : dimensions (created sample_config [4; 3] 0 2)
                = [ {| max_nr_elem := 4; stride := 5 |};
                    {| max_nr_elem := 3; stride := 1 |} ])
      by (vm_compute; reflexivity).
    rewrite E. repeat constructor; cbn; lia.
  - vm_compute. discriminate.
  - assert (E : dimensions (created sample_config [4; 3] 0 2)
                = [ {| max_nr_elem := 4; stride := 5 |};
                    {| max_nr_elem := 3; stride := 1 |} ])
      by (vm_compute; reflexivity).
    rewrite E. repeat constructor; cbn; lia.
Defined.

(** X12: in a counter that [lttng_counter_create] returns, with element
    counts that are not negative and whose product (two extra elements per
    dimension included) fits [int64_t], [lttng_counter_get_index] maps two
    index arrays that stay within the dimensions and differ to different
    offsets: no two elements share a cell. *)
Theorem created_offsets_injective (cfg : lib_counter_config) (nr : nat)
    (maxs : list Z) (step : Z) (k k' : kernel) (c : lib_counter)
    (idxs idxs' : list Z) :
  in_signed 64 step ->
  lttng_counter_create cfg nr maxs step k = (Some c, k') ->
  nonneg_dims (dimensions c) ->
  dims_size (dimensions c) <= smax 64 ->
  Forall2 in_dimension (dimensions c) idxs ->
  Forall2 in_dimension (dimensions c) idxs' ->
  idxs <> idxs' ->
  lttng_counter_get_index cfg c idxs <> lttng_counter_get_index cfg c idxs'.
Proof.
  intros Hstep Hc Hnn Hsize Hin Hin' Hne E. apply Hne.
  destruct (create_success cfg nr maxs step k k' c Hstep Hc)
    as (_ & _ & _ & Hd & Hae & _).
  destruct (strided_counter_geometry cfg c _ Hd Hae Hnn Hsize) as (_ & _ & Hinj).
  apply Hinj; assumption.
Qed.

Lemma created_offsets_injective_witness :
  lttng_counter_get_index sample_config (created sample_config [4; 3] 0 2) [2; 1]
  <> lttng_counter_get_index sample_config (created sample_config [4; 3] 0 2) [1; 2].
Proof.
  assert (E : dimensions (created sample_config [4; 3] 0 2)
              = [ {| max_nr_elem := 4; stride := 5 |};
                  {| max_nr_elem := 3; stride := 1 |} ])
    by (vm_compute; reflexivity).
  apply (created_offsets_injective sample_config 2 [4; 3] 0 (plentiful_kernel 2)
           (snd (lttng_counter_create sample_config 2 [4; 3] 0 (plentiful_kernel 2)))
           (created sample_config [4; 3] 0 2)).
  - vm_compute. split; discriminate.
  - vm_compute. reflexivity.
  - rewrite E. repeat constructor; cbn; lia.
  - vm_compute. discriminate.
  - rewrite E. repeat constructor; cbn; lia.
  - rewrite E. repeat constructor; cbn; lia.
  - discriminate.
Defined.

(** X13: in a counter that [lttng_counter_create] returns, with element
    counts that are not negative and whose product (two extra elements per
    dimension included) fits [int64_t], every caller index array whose
    indexes are all below their dimension's [max_nr_elem] (negative ones
    included) resolves, through [lttng_counter_validate_indexes] then
    [lttng_counter_get_index], to an offset within the allocated range. *)
Theorem created_resolve_below_max_in_range (cfg : lib_counter_config) (nr : nat)
    (maxs : list Z) (step : Z) (k k' : kernel) (c : lib_counter) (idxs : list Z) :
  in_signed 64 step ->
  lttng_counter_create cfg nr maxs step k = (Some c, k') ->
  nonneg_dims (dimensions c) ->
  dims_size (dimensions c) <= smax 64 ->
  Forall2 (fun d i => i < max_nr_elem d) (dimensions c) idxs ->
  0 <= resolve_index cfg c idxs < allocated_elem c.
Proof.
  intros Hstep Hc Hnn Hsize Hin.
  destruct (create_success cfg nr maxs step k k' c Hstep Hc)
    as (_ & _ & _ & Hd & Hae & _).
  destruct (strided_counter_geometry cfg c _ Hd Hae Hnn Hsize) as (_ & Hb & _).
  apply Hb. apply validate_indexes_in_dimension; assumption.
Qed.

Lemma created_resolve_below_max_in_range_witness :
  0 <= resolve_index sample_config (created sample_config [4; 3] 0 2) [3; -7]
    < allocated_elem (created sample_config [4; 3] 0 2).
Proof.
  assert (E : dimensions (created sample_config [4; 3] 0 2)
              = [ {| max_nr_elem := 4; stride := 5 |};
                  {| max_nr_elem := 3; stride := 1 |} ])
    by (vm_compute; reflexivity).
  apply (created_resolve_below_max_in_range sample_config 2 [4; 3] 0
           (plentiful_kernel 2)
           (snd (lttng_counter_create sample_config 2 [4; 3] 0 (plentiful_kernel 2)))).
  - vm_compute. split; discriminate.
  - vm_compute. reflexivity.
  - rewrite E. repeat constructor; cbn; lia.
  - vm_compute. discriminate.
  - rewrite E. repeat constructor; cbn; lia.
Defined.


Lemma fresh_layout_at (nr_elem index : Z) :
  0 <= index < nr_elem ->
  cell_at (fresh_layout nr_elem) index = Some 0
  /\ overflow_at (fresh_layout nr_elem) index = Some false
  /\ underflow_at (fresh_layout nr_elem) index = Some false.
Proof.
  intros Hi. unfold cell_at, overflow_at, underflow_at, test_bit, array_get.
  destruct (Z.ltb_spec index 0); [lia |]. cbn [fresh_layout counters
    overflow_bitmap underflow_bitmap].
  repeat split; apply lookup_replicate_2; lia.
Qed.

(** A read that passes the range check and selects [layout]. *)
Lemma read_layout_eq (ncpus : nat) (cfg : lib_counter_config)
    (counter : lib_counter) (idxs : list Z) (cpu : Z) (out : out_params)
    (layout : lib_counter_layout) (cell : Z) (ub ob : bool) :
  0 <= lttng_counter_get_index cfg counter idxs < allocated_elem counter ->
  allocated_elem counter <= smax 64 ->
  (cpu < 0 /\ layout = global_counters counter
   \/ alloc cfg = COUNTER_ALLOC_PER_CPU /\ 0 <= cpu < Z.of_nat ncpus
      /\ percpu_area counter !! Z.to_nat cpu = Some layout) ->
  cell_at layout (lttng_counter_get_index cfg counter idxs) = Some cell ->
  underflow_at layout (lttng_counter_get_index cfg counter idxs) = Some ub ->
  overflow_at layout (lttng_counter_get_index cfg counter idxs) = Some ob ->
  lttng_counter_read ncpus cfg counter idxs cpu out
  = Some (0, {| out_value := s64 (to_signed (width (counter_size cfg)) cell);
                out_overflow := ob; out_underflow := ub |}).
Proof.
  intros Hi Hae Hsel Hcell Hub Hob. unfold lttng_counter_read.
  destruct (read_in_range ncpus cfg counter idxs Hi Hae) as [-> ->].
  unfold cell_at, underflow_at, overflow_at in *.
  destruct Hsel as [[Hneg ->] | (Ha & Hcpu & Hlay)].
  - destruct (Z.geb_spec cpu 0); [lia |].
    destruct (alloc cfg); cbn [get_layout mbind option_bind];
      rewrite Hcell; cbn [mbind option_bind];
      rewrite Hob; cbn [mbind option_bind]; rewrite Hub; reflexivity.
  - rewrite Ha. destruct (Z.geb_spec cpu 0); [| lia].
    destruct (Z.geb_spec cpu (Z.of_nat ncpus)); [lia |].
    cbn [get_layout]. rewrite Hlay. cbn [mbind option_bind].
    rewrite Hcell. cbn [mbind option_bind].
    rewrite Hob. cbn [mbind option_bind]. rewrite Hub. reflexivity.
Qed.

Lemma to_signed_width_zero (size : lib_counter_config_size) :
  s64 (to_signed (width size) 0) = 0.
Proof. destruct size; vm_compute; reflexivity. Qed.

(** X14: a counter that [lttng_counter_create] returns reads 0 with both
    flags clear at every offset of the allocated range: from the global
    layout and, with [COUNTER_ALLOC_PER_CPU], from the layout of each
    possible cpu. *)
Theorem created_counter_reads_zero (cfg : lib_counter_config) (nr : nat)
    (maxs : list Z) (step : Z) (k k' : kernel) (c : lib_counter)
    (idxs : list Z) (out : out_params) :
  in_signed 64 step ->
  lttng_counter_create cfg nr maxs step k = (Some c, k') ->
  0 <= lttng_counter_get_index cfg c idxs < allocated_elem c ->
  lttng_counter_read (num_possible_cpus k) cfg c idxs (-1) out
  = Some (0, {| out_value := 0; out_overflow := false; out_underflow := false |})
  /\ (alloc cfg = COUNTER_ALLOC_PER_CPU ->
      forall cpu, (cpu < num_possible_cpus k)%nat ->
        lttng_counter_read (num_possible_cpus k) cfg c idxs (Z.of_nat cpu) out
        = Some (0, {| out_value := 0; out_overflow := false;
                      out_underflow := false |})).
Proof.
  intros Hstep Hc Hi.
  destruct (create_success cfg nr maxs step k k' c Hstep Hc)
    as (_ & _ & _ & _ & Hae & _ & Hgl & Hcpus).
  assert (Hmax : allocated_elem c <= smax 64).
  { rewrite Hae. apply s64_range. }
  assert (Hu : usize (allocated_elem c) = allocated_elem c)
    by (apply usize_nonneg; lia).
  rewrite Hu in *.
  destruct (fresh_layout_at (allocated_elem c) _ Hi) as (Hcell & Hob & Hub).
  replace {| out_value := 0; out_overflow := false; out_underflow := false |}
    with {| out_value := s64 (to_signed (width (counter_size cfg)) 0);
            out_overflow := false; out_underflow := false |}
    by (rewrite to_signed_width_zero; reflexivity).
  split.
  - apply (read_layout_eq _ cfg c idxs (-1) out (fresh_layout (allocated_elem c)));
      try assumption.
    left. split; [lia | symmetry; exact Hgl].
  - intros Ha cpu Hcpu.
    apply (read_layout_eq _ cfg c idxs _ out (fresh_layout (allocated_elem c)));
      try assumption.
    right. split; [exact Ha |]. split; [lia |].
    rewrite Nat2Z.id. apply Hcpus; assumption.
Qed.

Lemma created_counter_reads_zero_witness :
  lttng_counter_read (num_possible_cpus (plentiful_kernel 2))
    (shard_config COUNTER_SIZE_32_BIT)
    (created (shard_config COUNTER_SIZE_32_BIT) [4; 3] 100 2) [2; 1] (-1)
    aggregate_locals
  = Some (0, {| out_value := 0; out_overflow := false; out_underflow := false |})
  /\ (alloc (shard_config COUNTER_SIZE_32_BIT) = COUNTER_ALLOC_PER_CPU ->
      forall cpu, (cpu < num_possible_cpus (plentiful_kernel 2))%nat ->
        lttng_counter_read (num_possible_cpus (plentiful_kernel 2))
          (shard_config COUNTER_SIZE_32_BIT)
          (created (shard_config COUNTER_SIZE_32_BIT) [4; 3] 100 2) [2; 1]
          (Z.of_nat cpu) aggregate_locals
        = Some (0, {| out_value := 0; out_overflow := false;
                      out_underflow := false |})).
Proof.
  apply (created_counter_reads_zero (shard_config COUNTER_SIZE_32_BIT) 2 [4; 3] 100
           (plentiful_kernel 2)
           (snd (lttng_counter_create (shard_config COUNTER_SIZE_32_BIT) 2 [4; 3]
                   100 (plentiful_kernel 2)))).
  - vm_compute. split; discriminate.
  - vm_compute. reflexivity.
  - vm_compute. split; [discriminate | reflexivity].
Defined.

(** X15: [lttng_counter_create] returns a counter only when every
    allocation request it made succeeded, and it then released nothing. *)
Theorem create_all_or_nothing (cfg : lib_counter_config) (nr : nat)
    (maxs : list Z) (step : Z) (k k' : kernel) (c : lib_counter) :
  in_signed 64 step ->
  lttng_counter_create cfg nr maxs step k = (Some c, k') ->
  failed_allocations (klog k') = failed_allocations (klog k)
  /\ freed_sites (klog k') = freed_sites (klog k).
Proof.
  intros Hstep Hc.
  destruct (create_success cfg nr maxs step k k' c Hstep Hc) as (Hfr & Hfail & _).
  split; assumption.
Qed.

Lemma create_all_or_nothing_witness :
  failed_allocations
    (klog (snd (lttng_counter_create sample_config 2 [4; 3] 0 (plentiful_kernel 2))))
  = failed_allocations (klog (plentiful_kernel 2))
  /\ freed_sites
       (klog (snd (lttng_counter_create sample_config 2 [4; 3] 0 (plentiful_kernel 2))))
     = freed_sites (klog (plentiful_kernel 2)).
Proof.
  apply (create_all_or_nothing sample_config 2 [4; 3] 0 (plentiful_kernel 2) _
           (created sample_config [4; 3] 0 2)).
  - vm_compute. split; discriminate.
  - vm_compute. reflexivity.
Defined.

(** X16: with [COUNTER_ALLOC_PER_CPU], a [lttng_counter_create] that returns
    NULL has released every block it obtained, each one once: the blocks
    allocated during the call are, up to their order, the blocks freed during
    the call. *)
Theorem create_failure_releases_everything (cfg : lib_counter_config) (nr : nat)
    (maxs : list Z) (step : Z) (k k' : kernel) :
  alloc cfg = COUNTER_ALLOC_PER_CPU ->
  in_signed 64 step ->
  lttng_counter_create cfg nr maxs step k = (None, k') ->
  allocated_sites (klog k') ++ freed_sites (klog k)
  ≡ₚ allocated_sites (klog k) ++ freed_sites (klog k').
Proof.
  intros Ha Hstep Hc.
  destruct (create_percpu_spec cfg nr maxs step k Ha Hstep)
    as (res & k1 & A & F & E & _ & Hal & Hfr & Hres).
  rewrite Hc in E. injection E as <- <-.
  rewrite Hal, Hfr, <- app_assoc. apply Permutation_app_head.
  rewrite Hres. apply Permutation_app_comm.
Qed.

Lemma create_failure_releases_everything_witness :
  allocated_sites
    (klog (snd (lttng_counter_create (shard_config COUNTER_SIZE_32_BIT) 1 [4] 100
                  (failing_kernel 2 7))))
  ++ freed_sites (klog (failing_kernel 2 7))
  ≡ₚ allocated_sites (klog (failing_kernel 2 7))
     ++ freed_sites
          (klog (snd (lttng_counter_create (shard_config COUNTER_SIZE_32_BIT) 1 [4]
                        100 (failing_kernel 2 7)))).
Proof.
  apply (create_failure_releases_everything (shard_config COUNTER_SIZE_32_BIT) 1 [4]
           100 (failing_kernel 2 7)).
  - reflexivity.
  - vm_compute. split; discriminate.
  - vm_compute. reflexivity.
Defined.


Lemma destroy_effect (counter : lib_counter) (k : kernel) :
  klog (snd (lttng_counter_destroy counter k))
  = klog k ++ map K_free
                (cpus_sites counter (seq 0 (num_possible_cpus k))
                 ++ layout_sites (-1) (global_counters counter)
                 ++ (if percpu_counters counter then [SITE_PERCPU] else [])
                 ++ [SITE_DIMENSIONS; SITE_COUNTER]).
Proof.
  unfold lttng_counter_destroy, kbind. cbn beta iota.
  pose proof (layout_fini_cpus_effect (seq 0 (num_possible_cpus k)) counter k)
    as [Hlog1 Hn1].
  destruct (layout_fini_cpus (seq 0 (num_possible_cpus k)) counter k) as [u1 k1].
  cbn [snd] in *.
  pose proof (layout_fini_effect counter (-1) k1) as [Hlog2 Hn2].
  destruct (lttng_counter_layout_fini counter (-1) k1) as [u2 k2].
  cbn [snd] in *. change (layout_of_cpu (-1)) with GLOBAL_LAYOUT in Hlog2.
  cbn [get_layout] in Hlog2.
  pose proof (kfree_spec SITE_PERCPU (percpu_counters counter) k2) as [Hlog3 Hn3].
  destruct (kfree SITE_PERCPU (percpu_counters counter) k2) as [u3 k3].
  cbn [snd] in *.
  pose proof (kfree_spec SITE_DIMENSIONS true k3) as [Hlog4 Hn4].
  destruct (kfree SITE_DIMENSIONS true k3) as [u4 k4].
  cbn [snd] in *.
  pose proof (kfree_spec SITE_COUNTER true k4) as [Hlog5 Hn5].
  rewrite Hlog5, Hlog4, Hlog3, Hlog2, Hlog1, !map_app, <- !app_assoc.
  destruct (percpu_counters counter); reflexivity.
Qed.

(** X17: with [COUNTER_ALLOC_PER_CPU], [lttng_counter_destroy] applied to the
    counter that [lttng_counter_create] returned allocates nothing and
    releases every block that the creation obtained, each one once. *)
Theorem destroy_releases_created (cfg : lib_counter_config) (nr : nat)
    (maxs : list Z) (step : Z) (k k' : kernel) (c : lib_counter) :
  alloc cfg = COUNTER_ALLOC_PER_CPU ->
  in_signed 64 step ->
  lttng_counter_create cfg nr maxs step k = (Some c, k') ->
  allocated_sites (klog (snd (lttng_counter_destroy c k')))
  = allocated_sites (klog k')
  /\ allocated_sites (klog (snd (lttng_counter_destroy c k')))
     ++ freed_sites (klog k)
     ≡ₚ allocated_sites (klog k)
        ++ freed_sites (klog (snd (lttng_counter_destroy c k'))).
Proof.
  intros Ha Hstep Hc.
  destruct (create_percpu_spec cfg nr maxs step k Ha Hstep)
    as (res & k1 & A & F & E & Hn & Hal & Hfr & Hres).
  rewrite Hc in E. injection E as <- <-.
  destruct Hres as (-> & -> & _ & Hp & _).
  rewrite app_nil_r in Hfr.
  rewrite destroy_effect, Hp, Hn.
  destruct (sites_after_frees
              (cpus_sites c (seq 0 (num_possible_cpus k))
               ++ layout_sites (-1) (global_counters c)
               ++ [SITE_PERCPU] ++ [SITE_DIMENSIONS; SITE_COUNTER]) (klog k'))
    as [-> ->].
  split; [reflexivity |].
  rewrite Hal, Hfr, <- app_assoc. apply Permutation_app_head.
  rewrite (Permutation_app_comm _ (freed_sites (klog k))).
  apply Permutation_app_head.
  apply (release_order SITE_COUNTER SITE_DIMENSIONS SITE_PERCPU).
Qed.

Lemma destroy_releases_created_witness :
  allocated_sites
    (klog (snd (lttng_counter_destroy
                  (created (shard_config COUNTER_SIZE_32_BIT) [4] 100 2)
                  (snd (lttng_counter_create (shard_config COUNTER_SIZE_32_BIT) 1 [4]
                          100 (plentiful_kernel 2))))))
  = allocated_sites
      (klog (snd (lttng_counter_create (shard_config COUNTER_SIZE_32_BIT) 1 [4]
                    100 (plentiful_kernel 2))))
  /\ allocated_sites
       (klog (snd (lttng_counter_destroy
                     (created (shard_config COUNTER_SIZE_32_BIT) [4] 100 2)
                     (snd (lttng_counter_create (shard_config COUNTER_SIZE_32_BIT) 1
                             [4] 100 (plentiful_kernel 2))))))
     ++ freed_sites (klog (plentiful_kernel 2))
     ≡ₚ allocated_sites (klog (plentiful_kernel 2))
        ++ freed_sites
             (klog (snd (lttng_counter_destroy
                           (created (shard_config COUNTER_SIZE_32_BIT) [4] 100 2)
                           (snd (lttng_counter_create
                                   (shard_config COUNTER_SIZE_32_BIT) 1 [4] 100
                                   (plentiful_kernel 2)))))).
Proof.
  apply (destroy_releases_created (shard_config COUNTER_SIZE_32_BIT) 1 [4] 100
           (plentiful_kernel 2)).
  - reflexivity.
  - vm_compute. split; discriminate.
  - vm_compute. reflexivity.
Defined.

(** X18: [lttng_counter_set_global_sum_step] accepts exactly the steps from
    0 to the signed maximum of the cell width and stores them unchanged;
    every other step is answered with [-EINVAL] and leaves the counter as it
    was. *)
Theorem set_global_sum_step_outcome (counter : lib_counter) (step : Z) :
  in_signed 64 step ->
  (0 <= step <= smax (width (counter_size (config counter))) ->
   lttng_counter_set_global_sum_step counter step
   = (0, with_global_sum_step counter step))
  /\ (~ 0 <= step <= smax (width (counter_size (config counter))) ->
      lttng_counter_set_global_sum_step counter step = (- EINVAL, counter)).
Proof.
  unfold lttng_counter_set_global_sum_step, in_signed. intros H64.
  destruct (Z.ltb_spec step 0) as [Hneg | Hpos].
  { split; [lia | reflexivity]. }
  destruct (counter_size (config counter)).
  - change (smax (width COUNTER_SIZE_8_BIT)) with 127. unfold S8_MAX.
    destruct (Z.gtb_spec step 127); split; try lia; try reflexivity.
    intros _. rewrite to_signed_id; [reflexivity | lia |].
    unfold in_signed. change (smin 8) with (-128). change (smax 8) with 127. lia.
  - change (smax (width COUNTER_SIZE_16_BIT)) with 32767. unfold S16_MAX.
    destruct (Z.gtb_spec step 32767); split; try lia; try reflexivity.
    intros _. rewrite to_signed_id; [reflexivity | lia |].
    unfold in_signed. change (smin 16) with (-32768).
    change (smax 16) with 32767. lia.
  - change (smax (width COUNTER_SIZE_32_BIT)) with 2147483647. unfold S32_MAX.
    destruct (Z.gtb_spec step 2147483647); split; try lia; try reflexivity.
    intros _. rewrite to_signed_id; [reflexivity | lia |].
    unfold in_signed. change (smin 32) with (-2147483648).
    change (smax 32) with 2147483647. lia.
  - change (width COUNTER_SIZE_64_BIT) with 64. split; [reflexivity | lia].
Qed.

Lemma set_global_sum_step_outcome_witness :
  (0 <= 128 <= smax (width (counter_size (config byte_counter))) ->
   lttng_counter_set_global_sum_step byte_counter 128
   = (0, with_global_sum_step byte_counter 128))
  /\ (~ 0 <= 128 <= smax (width (counter_size (config byte_counter))) ->
      lttng_counter_set_global_sum_step byte_counter 128 = (- EINVAL, byte_counter)).
Proof.
  apply (set_global_sum_step_outcome byte_counter 128).
  vm_compute. split; discriminate.
Defined.

Lemma init_stride_loop_strides (dims : list lib_counter_dimension) :
  nonneg_dims dims -> dims_size dims <= smax 64 ->
  forall i d,
    fst (init_stride_loop dims) !! i = Some d ->
    stride d = dims_size (drop (S i) dims)
    /\ Some (max_nr_elem d) = max_nr_elem <$> dims !! i.
Proof.
  induction dims as [| d0 inner IH]; intros Hnn Hsize i d; [discriminate |].
  apply Forall_cons in Hnn as [Hd Hnn].
  pose proof (dims_size_pos _ Hnn) as Hpos.
  cbn [dims_size] in Hsize.
  assert (Hin : dims_size inner <= smax 64) by nia.
  destruct (init_stride_loop_size inner Hnn Hin) as (Hacc & _ & _).
  cbn [init_stride_loop].
  destruct (init_stride_loop inner) as [inner' acc]. cbn [fst snd] in *.
  destruct i as [| j]; cbn [lookup list_lookup drop].
  - intros [= <-]. cbn [stride max_nr_elem fmap option_fmap option_map].
    rewrite Hacc, s64_small by lia. split; reflexivity.
  - intros Hj. apply IH; assumption.
Qed.

(** X19: [lttng_counter_init_stride] lays the dimensions out with the last
    one contiguous: when the element counts are not negative and their
    product (two extra elements per dimension included) fits [int64_t], the
    stride of each dimension is the product of the sizes of the dimensions
    that follow it, and its element count is kept. *)
Theorem init_stride_row_major (cfg : lib_counter_config) (counter : lib_counter)
    (i : nat) (d : lib_counter_dimension) :
  nonneg_dims (dimensions counter) ->
  dims_size (dimensions counter) <= smax 64 ->
  dimensions (lttng_counter_init_stride cfg counter) !! i = Some d ->
  stride d = dims_size (drop (S i) (dimensions counter))
  /\ Some (max_nr_elem d) = max_nr_elem <$> dimensions counter !! i.
Proof.
  intros Hnn Hsize. unfold lttng_counter_init_stride.
  cbn [dimensions with_dimensions]. apply init_stride_loop_strides; assumption.
Qed.

Lemma init_stride_row_major_witness :
  stride {| max_nr_elem := 4; stride := 5 |}
  = dims_size
      (drop 1 (dimensions (with_dimensions sample_counter (dimensions_of 2 [4; 3]))))
  /\ Some (max_nr_elem {| max_nr_elem := 4; stride := 5 |})
     = max_nr_elem
         <$> dimensions (with_dimensions sample_counter (dimensions_of 2 [4; 3])) !! 0%nat.
Proof.
  assert (E : dimensions (with_dimensions sample_counter (dimensions_of 2 [4; 3]))
              = [ {| max_nr_elem := 4; stride := 0 |};
                  {| max_nr_elem := 3; stride := 0 |} ])
    by (vm_compute; reflexivity).
  apply (init_stride_row_major sample_config
           (with_dimensions sample_counter (dimensions_of 2 [4; 3])) 0).
  - rewrite E. repeat constructor; cbn; lia.
  - vm_compute. discriminate.
  - vm_compute. reflexivity.
Defined.


(** ** Aggregation flags *)

Lemma aggregate_loop_underflow_kept (ncpus : nat) (cfg : lib_counter_config)
    (counter : lib_counter) (idxs : list Z) (cpus : list nat)
    (sum : Z) (o : bool) (ret sum' : Z) (o' u' : bool) :
  aggregate_loop ncpus cfg counter idxs cpus sum o true = Some (ret, sum', o', u') ->
  u' = true.
Proof.
  revert sum o. induction cpus as [| cpu cpus IH]; intros sum o; cbn [aggregate_loop].
  - intros [= _ _ _ <-]. reflexivity.
  - destruct (lttng_counter_read ncpus cfg counter idxs (Z.of_nat cpu) aggregate_locals)
      as [[r locals] |]; cbn [mbind option_bind]; [| discriminate].
    destruct (r <? 0); [intros [= _ _ _ <-]; reflexivity |].
    cbn [orb].
    repeat match goal with
           | |- context [if ?c then _ else _] => destruct c
           end; apply IH.
Qed.

Lemma aggregate_loop_underflow_shard (ncpus : nat) (cfg : lib_counter_config)
    (counter : lib_counter) (idxs : list Z) (cpus : list nat) (cpu : nat)
    (r : Z) (locals : out_params)
    (sum : Z) (o u : bool) (sum' : Z) (o' u' : bool) :
  In cpu cpus ->
  lttng_counter_read ncpus cfg counter idxs (Z.of_nat cpu) aggregate_locals
    = Some (r, locals) ->
  out_underflow locals = true ->
  aggregate_loop ncpus cfg counter idxs cpus sum o u = Some (0, sum', o', u') ->
  u' = true.
Proof.
  intros Hin Hread Hun. revert sum o u.
  induction cpus as [| c cpus IH]; intros sum o u; [destruct Hin |].
  cbn [aggregate_loop].
  destruct Hin as [-> | Hin].
  - rewrite Hread. cbn [mbind option_bind].
    destruct (Z.ltb_spec r 0) as [Hneg | _]; [intros [= -> _ _ _]; lia |].
    rewrite Hun, orb_true_r.
    repeat match goal with
           | |- context [if ?c then _ else _] => destruct c
           end; apply aggregate_loop_underflow_kept.
  - destruct (lttng_counter_read ncpus cfg counter idxs (Z.of_nat c) aggregate_locals)
      as [[rc lc] |]; cbn [mbind option_bind]; [| discriminate].
    destruct (Z.ltb_spec rc 0) as [Hneg | _]; [intros [= -> _ _ _]; lia |].
    repeat match goal with
           | |- context [if ?c then _ else _] => destruct c
           end; apply IH; assumption.
Qed.

(** X20: a [lttng_counter_aggregate] that returns 0 reports every sticky
    flag that a layout holds at the offset: the overflow (underflow) flag on
    return is set as soon as the read of the global layout or, with
    [COUNTER_ALLOC_PER_CPU], of the layout of one possible cpu reports its
    overflow (underflow) bit. *)
Theorem aggregate_flags_propagate (ncpus : nat) (cfg : lib_counter_config)
    (counter : lib_counter) (idxs : list Z) (cpu : Z)
    (r : Z) (locals out out' : out_params) :
  cpu = -1 \/ alloc cfg = COUNTER_ALLOC_PER_CPU /\ 0 <= cpu < Z.of_nat ncpus ->
  lttng_counter_read ncpus cfg counter idxs cpu aggregate_locals
    = Some (r, locals) ->
  lttng_counter_aggregate ncpus cfg counter idxs out = Some (0, out') ->
  (out_overflow locals = true -> out_overflow out' = true)
  /\ (out_underflow locals = true -> out_underflow out' = true).
Proof.
  intros Hsel Hread. unfold lttng_counter_aggregate.
  destruct (lttng_counter_read ncpus cfg counter idxs (-1) aggregate_locals)
    as [[rg lg] |] eqn:Hg; cbn [mbind option_bind]; [| discriminate].
  destruct (Z.ltb_spec rg 0) as [Hneg | _]; [intros [= -> _]; lia |].
  cbn [out_overflow out_underflow orb].
  destruct Hsel as [-> | (Ha & Hcpu)].
  - rewrite Hg in Hread. injection Hread as -> ->.
    destruct (alloc cfg).
    + destruct (aggregate_loop _ _ _ _ _ _ _ _) as [[[[ret' sum'] o'] u'] |] eqn:Hloop;
        cbn [mbind option_bind]; [| discriminate].
      intros [= -> <-]. cbn [out_overflow out_underflow]. split; intros Hf.
      * rewrite Hf in Hloop. eapply aggregate_loop_overflow_kept; exact Hloop.
      * rewrite Hf in Hloop. eapply aggregate_loop_underflow_kept; exact Hloop.
    + intros [= <-]. cbn [out_overflow out_underflow]. split; intros Hf; exact Hf.
  - rewrite Ha.
    destruct (aggregate_loop _ _ _ _ _ _ _ _) as [[[[ret' sum'] o'] u'] |] eqn:Hloop;
      cbn [mbind option_bind]; [| discriminate].
    intros [= -> <-]. cbn [out_overflow out_underflow].
    rewrite <- (Z2Nat.id cpu) in Hread by lia.
    assert (Hin : In (Z.to_nat cpu) (seq 0 ncpus)) by (apply in_seq; lia).
    split; intros Hf.
    + eapply aggregate_loop_overflow_shard; [exact Hin | exact Hread | exact Hf | exact Hloop].
    + eapply aggregate_loop_underflow_shard; [exact Hin | exact Hread | exact Hf | exact Hloop].
Qed.

Lemma aggregate_flags_propagate_witness :
  (out_overflow {| out_value := -51; out_overflow := true; out_underflow := false |}
   = true ->
   out_overflow {| out_value := 0; out_overflow := true; out_underflow := false |}
   = true)
  /\ (out_underflow {| out_value := -51; out_overflow := true; out_underflow := false |}
      = true ->
      out_underflow {| out_value := 0; out_overflow := true; out_underflow := false |}
      = true).
Proof.
  apply (aggregate_flags_propagate 2 (shard_config COUNTER_SIZE_8_BIT)
           overflowed_shard_counter [1] 1 0 _ aggregate_locals).
  - right. split; [reflexivity | lia].
  - vm_compute. reflexivity.
  - vm_compute. reflexivity.
Defined.


(** X21: [lttng_counter_layout_init] returns 0 or [-ENOMEM], and a
    [lttng_counter_layout_fini] that follows it on the same layout releases
    exactly the arrays that it obtained, in the order of their allocation,
    also when the initialisation failed half-way. *)
Theorem layout_fini_undoes_layout_init (counter : lib_counter) (cpu : Z)
    (k : kernel) :
  get_layout counter (layout_of_cpu cpu) = Some zero_layout ->
  (fst (layout_init_then_fini counter cpu k) = 0
   \/ fst (layout_init_then_fini counter cpu k) = - ENOMEM)
  /\ exists sites,
       allocated_sites (klog (snd (layout_init_then_fini counter cpu k)))
       = allocated_sites (klog k) ++ sites
       /\ freed_sites (klog (snd (layout_init_then_fini counter cpu k)))
          = freed_sites (klog k) ++ sites.
Proof.
  intros Hzero. unfold layout_init_then_fini, kbind.
  destruct (layout_init_effect counter cpu k)
    as (ret & counter' & k' & E & _ & _ & _ & Hfr & Hret & Hlay).
  rewrite E. cbn [fst snd].
  destruct (Hlay zero_layout Hzero) as (layout' & Hget & _ & Hal).
  specialize (Hal eq_refl).
  pose proof (layout_fini_effect counter' cpu k') as [Hlog _].
  rewrite Hget in Hlog.
  destruct (lttng_counter_layout_fini counter' cpu k') as [u k2].
  cbn [fst snd kret] in *. split.
  - destruct Hret as [[-> _] | [-> _]]; [left | right]; reflexivity.
  - exists (layout_sites cpu layout'). rewrite Hlog.
    destruct (sites_after_frees (layout_sites cpu layout') (klog k')) as [-> ->].
    rewrite Hal, Hfr. split; reflexivity.
Qed.

Lemma layout_fini_undoes_layout_init_witness :
  (fst (layout_init_then_fini sample_counter (-1) (failing_kernel 1 1)) = 0
   \/ fst (layout_init_then_fini sample_counter (-1) (failing_kernel 1 1)) = - ENOMEM)
  /\ exists sites,
       allocated_sites
         (klog (snd (layout_init_then_fini sample_counter (-1) (failing_kernel 1 1))))
       = allocated_sites (klog (failing_kernel 1 1)) ++ sites
       /\ freed_sites
            (klog (snd (layout_init_then_fini sample_counter (-1) (failing_kernel 1 1))))
          = freed_sites (klog (failing_kernel 1 1)) ++ sites.
Proof.
  apply (layout_fini_undoes_layout_init sample_counter (-1) (failing_kernel 1 1)).
  reflexivity.
Defined.
